(** * Club / event management backend: request approval, seat inventory,
      deletion cascade and like toggling.

    A shallow embedding of the Express controllers of the repository
    (ticketController, posterController, clubRequestController,
    eventRequestController, clubController, postController) over a model of
    the SQLite tables declared in models/schema.js.

    - A table is the list of its rows, in insertion order, together with the
      last id handed out by AUTOINCREMENT.
    - A controller body is a computation in the [DB] monad: it threads the
      store, may throw (a constraint refused by the database), and records the
      write statements that took effect.  Nothing is rolled back when a
      statement throws: the controllers open no transaction.
    - The database enforces the schema: UNIQUE columns on insert, and the
      REFERENCES columns on delete (none has an ON DELETE action, so a row
      cannot be deleted while another row refers to it).
    - [handler] is the [try { ... } catch (error) { 500 }] wrapper that every
      controller has.
    - Request bodies are JSON or form posts, and no route validates them:
      an absent field is [None]; the [seats] and [price] of a poster update
      arrive as a number or as the text of one.
    - [new Date()] reads the instant at which the request is served,
      carried by the request context. *)

From Stdlib Require Import ZArith List String Bool Lia.
Import ListNotations.
Open Scope Z_scope.

(** ** Column types *)

Inductive Role := student | head_admin | super_admin.
Inductive Status := pending | approved | rejected.

Definition Role_eqb (a b : Role) : bool :=
  match a, b with
  | student, student | head_admin, head_admin | super_admin, super_admin => true
  | _, _ => false
  end.

Definition Status_eqb (a b : Status) : bool :=
  match a, b with
  | pending, pending | approved, approved | rejected, rejected => true
  | _, _ => false
  end.

(** The text stored in a [status] column, as interpolated into messages. *)
Definition Status_text (s : Status) : string :=
  match s with
  | pending => "pending"
  | approved => "approved"
  | rejected => "rejected"
  end.

Lemma Role_eqb_eq a b : Role_eqb a b = true <-> a = b.
Proof. destruct a, b; simpl; split; congruence. Qed.

Lemma Status_eqb_eq a b : Status_eqb a b = true <-> a = b.
Proof. destruct a, b; simpl; split; congruence. Qed.

(** ** Rows (models/schema.js) *)

Module User.
Record t := mk {
  id : Z; name : string; surname : string; email : string;
  password : string; role : Role; phone : option string;
  gender : option string; birthDate : option string;
  clubName : option string; isEmailVerified : bool;
  createdAt : Z; updatedAt : Z }.
(** [.set({ role, updatedAt })] *)
Definition set_role (r : Role) (now : Z) (u : t) : t :=
  mk (id u) (name u) (surname u) (email u) (password u) r (phone u)
     (gender u) (birthDate u) (clubName u) (isEmailVerified u)
     (createdAt u) now.
End User.

Module ClubRequest.
Record t := mk {
  id : Z; title : string; headId : Z; email : string; phone : string;
  communication : string; clubName : string; goal : string;
  description : string; financing : string; resources : option string;
  attractionMethods : string; comment : option string; status : Status;
  createdAt : Z; updatedAt : Z }.
(** [.set({ status, updatedAt })] *)
Definition set_status (st : Status) (now : Z) (r : t) : t :=
  mk (id r) (title r) (headId r) (email r) (phone r) (communication r)
     (clubName r) (goal r) (description r) (financing r) (resources r)
     (attractionMethods r) (comment r) st (createdAt r) now.
End ClubRequest.

Module Club.
Record t := mk {
  id : Z; name : string; headId : Z; goal : string; description : string;
  financing : string; resources : option string;
  attractionMethods : string; rating : Z; createdAt : Z; updatedAt : Z }.
End Club.

Module EventRequest.
Record t := mk {
  id : Z; clubId : Z; headId : Z; eventName : string; eventDate : string;
  location : string; shortDescription : string; goal : string;
  organizers : string; schedule : string; sponsorship : option string;
  clubHead : string; phone : string; comment : option string;
  status : Status; createdAt : Z; updatedAt : Z }.
Definition set_status (st : Status) (now : Z) (r : t) : t :=
  mk (id r) (clubId r) (headId r) (eventName r) (eventDate r) (location r)
     (shortDescription r) (goal r) (organizers r) (schedule r)
     (sponsorship r) (clubHead r) (phone r) (comment r) st
     (createdAt r) now.
End EventRequest.

Module Event.
Record t := mk {
  id : Z; clubId : Z; headId : Z; eventName : string; eventDate : string;
  location : string; shortDescription : string; goal : string;
  organizers : string; schedule : string; sponsorship : option string;
  createdAt : Z; updatedAt : Z }.
End Event.

Module Poster.
Record t := mk {
  id : Z; eventId : Z; clubId : Z; headId : Z; eventTitle : string;
  eventDate : string; location : string; time : string;
  description : string; seats : Z; seatsLeft : Z; price : Z;
  image : option string; createdAt : Z; updatedAt : Z }.
(** [.set({ seatsLeft, updatedAt })] *)
Definition set_seatsLeft (n : Z) (now : Z) (p : t) : t :=
  mk (id p) (eventId p) (clubId p) (headId p) (eventTitle p) (eventDate p)
     (location p) (time p) (description p) (seats p) n (price p) (image p)
     (createdAt p) now.
End Poster.

Module TicketBooking.
Record t := mk {
  id : Z; posterId : Z; userId : Z; numberOfPersons : Z;
  paymentProof : option string; status : Status;
  createdAt : Z; updatedAt : Z }.
Definition set_status (st : Status) (now : Z) (b : t) : t :=
  mk (id b) (posterId b) (userId b) (numberOfPersons b) (paymentProof b)
     st (createdAt b) now.
End TicketBooking.

Module Post.
Record t := mk {
  id : Z; clubId : option Z; userId : Z; title : string; content : string;
  image : option string; likes : Z; createdAt : Z; updatedAt : Z }.
(** [.set({ likes, updatedAt })] *)
Definition set_likes (n : Z) (now : Z) (p : t) : t :=
  mk (id p) (clubId p) (userId p) (title p) (content p) (image p) n
     (createdAt p) now.
End Post.

Module PostLike.
Record t := mk { id : Z; postId : Z; userId : Z; createdAt : Z }.
End PostLike.

Module ClubSubscription.
Record t := mk { id : Z; clubId : Z; userId : Z; createdAt : Z }.
End ClubSubscription.

Module EventComment.
Record t := mk {
  id : Z; eventId : Z; userId : Z; content : string;
  createdAt : Z; updatedAt : Z }.
End EventComment.

Module ClubRating.
Record t := mk {
  id : Z; clubId : Z; userId : Z; rating : Z; comment : option string;
  createdAt : Z; updatedAt : Z }.
End ClubRating.

(** ** The store *)

Record Table (R : Type) := mkTable { rows : list R; lastId : Z }.
Arguments mkTable {R} _ _.
Arguments rows {R} _.
Arguments lastId {R} _.

Inductive TableName :=
| t_users | t_clubRequests | t_clubs | t_eventRequests | t_events
| t_posters | t_ticketBookings | t_posts | t_postLikes
| t_clubSubscriptions | t_eventComments | t_clubRatings.

Record Store := mkStore {
  db_users : Table User.t;
  db_clubRequests : Table ClubRequest.t;
  db_clubs : Table Club.t;
  db_eventRequests : Table EventRequest.t;
  db_events : Table Event.t;
  db_posters : Table Poster.t;
  db_ticketBookings : Table TicketBooking.t;
  db_posts : Table Post.t;
  db_postLikes : Table PostLike.t;
  db_clubSubscriptions : Table ClubSubscription.t;
  db_eventComments : Table EventComment.t;
  db_clubRatings : Table ClubRating.t }.

(** [eq(posts.clubId, clubId)] on the nullable column: NULL matches nothing. *)
Definition clubIs (clubId : Z) (x : option Z) : bool :=
  match x with
  | Some k => k =? clubId
  | None => false
  end.

(** Some row of [t] carries [k] in its column [col]. *)
Definition names {C} (t : Table C) (col : C -> Z) (k : Z) : bool :=
  existsb (fun r => col r =? k) (rows t).

(** A table object of the schema: where its rows live in the store, its
    primary key, the UNIQUE columns ([clash new old] holds when [new]
    cannot be inserted next to [old]), and the REFERENCES columns that point
    to it: [referenced] is [None] for a table that no column refers to, and
    otherwise tells whether some row of the store refers to row [r]. *)
Record Handle (R : Type) := mkHandle {
  tname : TableName;
  sel : Store -> Table R;
  upd : Table R -> Store -> Store;
  pk : R -> Z;
  clash : R -> R -> bool;
  referenced : option (R -> Store -> bool) }.
Arguments tname {R} _.
Arguments sel {R} _ _.
Arguments upd {R} _ _ _.
Arguments pk {R} _ _.
Arguments clash {R} _ _ _.
Arguments referenced {R} _.

(** [personal_events] and [user_notifications], which refer to [users]
    only, are not part of the store: no controller deletes a user. *)
Definition users : Handle User.t :=
  mkHandle _ t_users db_users
    (fun t s => mkStore t (db_clubRequests s) (db_clubs s) (db_eventRequests s)
       (db_events s) (db_posters s) (db_ticketBookings s) (db_posts s)
       (db_postLikes s) (db_clubSubscriptions s)
       (db_eventComments s) (db_clubRatings s))
    User.id
    (fun n o => String.eqb (User.email n) (User.email o))
    (Some (fun u s =>
       let k := User.id u in
       names (db_clubRequests s) ClubRequest.headId k
       || names (db_clubs s) Club.headId k
       || names (db_eventRequests s) EventRequest.headId k
       || names (db_events s) Event.headId k
       || names (db_posters s) Poster.headId k
       || names (db_ticketBookings s) TicketBooking.userId k
       || names (db_posts s) Post.userId k
       || names (db_postLikes s) PostLike.userId k
       || names (db_clubSubscriptions s) ClubSubscription.userId k
       || names (db_eventComments s) EventComment.userId k
       || names (db_clubRatings s) ClubRating.userId k)).

Definition clubRequests : Handle ClubRequest.t :=
  mkHandle _ t_clubRequests db_clubRequests
    (fun t s => mkStore (db_users s) t (db_clubs s) (db_eventRequests s)
       (db_events s) (db_posters s) (db_ticketBookings s) (db_posts s)
       (db_postLikes s) (db_clubSubscriptions s)
       (db_eventComments s) (db_clubRatings s))
    ClubRequest.id (fun _ _ => false) None.

Definition clubs : Handle Club.t :=
  mkHandle _ t_clubs db_clubs
    (fun t s => mkStore (db_users s) (db_clubRequests s) t (db_eventRequests s)
       (db_events s) (db_posters s) (db_ticketBookings s) (db_posts s)
       (db_postLikes s) (db_clubSubscriptions s)
       (db_eventComments s) (db_clubRatings s))
    Club.id
    (fun n o => String.eqb (Club.name n) (Club.name o))
    (Some (fun c s =>
       let k := Club.id c in
       names (db_eventRequests s) EventRequest.clubId k
       || names (db_events s) Event.clubId k
       || names (db_posters s) Poster.clubId k
       || existsb (fun p => clubIs k (Post.clubId p)) (rows (db_posts s))
       || names (db_clubSubscriptions s) ClubSubscription.clubId k
       || names (db_clubRatings s) ClubRating.clubId k)).

Definition eventRequests : Handle EventRequest.t :=
  mkHandle _ t_eventRequests db_eventRequests
    (fun t s => mkStore (db_users s) (db_clubRequests s) (db_clubs s) t
       (db_events s) (db_posters s) (db_ticketBookings s) (db_posts s)
       (db_postLikes s) (db_clubSubscriptions s)
       (db_eventComments s) (db_clubRatings s))
    EventRequest.id (fun _ _ => false) None.

Definition events : Handle Event.t :=
  mkHandle _ t_events db_events
    (fun t s => mkStore (db_users s) (db_clubRequests s) (db_clubs s)
       (db_eventRequests s) t (db_posters s) (db_ticketBookings s)
       (db_posts s) (db_postLikes s) (db_clubSubscriptions s)
       (db_eventComments s) (db_clubRatings s))
    Event.id (fun _ _ => false)
    (Some (fun e s =>
       names (db_posters s) Poster.eventId (Event.id e)
       || names (db_eventComments s) EventComment.eventId (Event.id e))).

Definition posters : Handle Poster.t :=
  mkHandle _ t_posters db_posters
    (fun t s => mkStore (db_users s) (db_clubRequests s) (db_clubs s)
       (db_eventRequests s) (db_events s) t (db_ticketBookings s)
       (db_posts s) (db_postLikes s) (db_clubSubscriptions s)
       (db_eventComments s) (db_clubRatings s))
    Poster.id (fun _ _ => false)
    (Some (fun p s =>
       names (db_ticketBookings s) TicketBooking.posterId (Poster.id p))).

Definition ticketBookings : Handle TicketBooking.t :=
  mkHandle _ t_ticketBookings db_ticketBookings
    (fun t s => mkStore (db_users s) (db_clubRequests s) (db_clubs s)
       (db_eventRequests s) (db_events s) (db_posters s) t (db_posts s)
       (db_postLikes s) (db_clubSubscriptions s)
       (db_eventComments s) (db_clubRatings s))
    TicketBooking.id (fun _ _ => false) None.

Definition posts : Handle Post.t :=
  mkHandle _ t_posts db_posts
    (fun t s => mkStore (db_users s) (db_clubRequests s) (db_clubs s)
       (db_eventRequests s) (db_events s) (db_posters s)
       (db_ticketBookings s) t (db_postLikes s) (db_clubSubscriptions s)
       (db_eventComments s) (db_clubRatings s))
    Post.id (fun _ _ => false)
    (Some (fun p s => names (db_postLikes s) PostLike.postId (Post.id p))).

Definition postLikes : Handle PostLike.t :=
  mkHandle _ t_postLikes db_postLikes
    (fun t s => mkStore (db_users s) (db_clubRequests s) (db_clubs s)
       (db_eventRequests s) (db_events s) (db_posters s)
       (db_ticketBookings s) (db_posts s) t (db_clubSubscriptions s)
       (db_eventComments s) (db_clubRatings s))
    PostLike.id (fun _ _ => false) None.

Definition clubSubscriptions : Handle ClubSubscription.t :=
  mkHandle _ t_clubSubscriptions db_clubSubscriptions
    (fun t s => mkStore (db_users s) (db_clubRequests s) (db_clubs s)
       (db_eventRequests s) (db_events s) (db_posters s)
       (db_ticketBookings s) (db_posts s) (db_postLikes s) t
       (db_eventComments s) (db_clubRatings s))
    ClubSubscription.id (fun _ _ => false) None.


Definition clubRatings : Handle ClubRating.t :=
  mkHandle _ t_clubRatings db_clubRatings
    (fun t s => mkStore (db_users s) (db_clubRequests s) (db_clubs s)
       (db_eventRequests s) (db_events s) (db_posters s)
       (db_ticketBookings s) (db_posts s) (db_postLikes s)
       (db_clubSubscriptions s) (db_eventComments s) t)
    ClubRating.id (fun _ _ => false) None.

(** ** The [DB] monad: store, exceptions, journal of writes *)

Inductive Stmt :=
| Insert (t : TableName)
| Update (t : TableName)
| Delete (t : TableName).

Inductive Outcome (A : Type) :=
| Done (a : A)
| Thrown (error : string).
Arguments Done {A} _.
Arguments Thrown {A} _.

Definition DB (A : Type) : Type := Store -> Outcome A * Store * list Stmt.

Definition ret {A} (a : A) : DB A := fun s => (Done a, s, []).

Definition bind {A B} (m : DB A) (k : A -> DB B) : DB B :=
  fun s =>
    match m s with
    | (Done a, s1, j1) =>
        match k a s1 with
        | (o, s2, j2) => (o, s2, j1 ++ j2)
        end
    | (Thrown e, s1, j1) => (Thrown e, s1, j1)
    end.

Notation "x <- m ;; k" := (bind m (fun x => k))
  (at level 61, m at next level, right associativity).
Notation "m ;;; k" := (bind m (fun _ => k))
  (at level 61, right associativity).

(** [for (const x of xs) { await f(x) }] *)
Fixpoint forEach {A} (xs : list A) (f : A -> DB unit) : DB unit :=
  match xs with
  | [] => ret tt
  | x :: xs' => f x ;;; forEach xs' f
  end.

(** [db.select().from(h).where(p).get()]: the first matching row. *)
Definition get {R} (h : Handle R) (p : R -> bool) : DB (option R) :=
  fun s => (Done (find p (rows (sel h s))), s, []).

(** [db.select().from(h).where(p).all()] *)
Definition all {R} (h : Handle R) (p : R -> bool) : DB (list R) :=
  fun s => (Done (filter p (rows (sel h s))), s, []).

(** [db.update(h).set(f).where(p).run()] *)
Definition update {R} (h : Handle R) (f : R -> R) (p : R -> bool) : DB unit :=
  fun s =>
    let t := sel h s in
    (Done tt,
     upd h (mkTable (map (fun r => if p r then f r else r) (rows t)) (lastId t)) s,
     [Update (tname h)]).

(** A row that the statement would delete is still referred to. *)
Definition inUse {R} (h : Handle R) (p : R -> bool) (s : Store) : bool :=
  match referenced h with
  | Some held => existsb (fun r => held r s) (filter p (rows (sel h s)))
  | None => false
  end.

(** [db.delete(h).where(p).run()]: the statement throws, and deletes
    nothing, when one of the rows to delete is still referred to. *)
Definition delete {R} (h : Handle R) (p : R -> bool) : DB unit :=
  fun s =>
    let t := sel h s in
    if inUse h p s
    then (Thrown "FOREIGN KEY constraint failed", s, [])
    else (Done tt,
          upd h (mkTable (filter (fun r => negb (p r)) (rows t)) (lastId t)) s,
          [Delete (tname h)]).

(** [db.insert(h).values(v).run()]: [v] receives the next AUTOINCREMENT id;
    the statement throws when a UNIQUE column of [h] is already taken.  The
    REFERENCES columns of the new row are not looked at: the controllers fill
    them with the id of the signed-in user and with ids read from stored rows
    in the same request. *)
Definition insert {R} (h : Handle R) (v : Z -> R) : DB unit :=
  fun s =>
    let t := sel h s in
    let r := v (lastId t + 1) in
    if existsb (clash h r) (rows t)
    then (Thrown "UNIQUE constraint failed", s, [])
    else (Done tt, upd h (mkTable (rows t ++ [r]) (lastId t + 1)) s,
          [Insert (tname h)]).

(** ** Requests and responses *)

(** [req.user]: the decoded token. *)
Record AuthUser := mkAuth { uid : Z; urole : Role }.

(** What a controller reads from [req] besides its parameters and body. *)
Record Ctx := mkCtx { user : AuthUser; now : Z }.

(** [res.status(code).json({ message, error })] *)
Record Response := mkResponse {
  code : Z; message : string; error : option string }.

Definition json (c : Z) (m : string) : DB Response :=
  ret (mkResponse c m None).

(** [try { body } catch (error) { return res.status(500)... }]: the writes
    made before the throw stay in the store. *)
Definition handler (body : DB Response) (s : Store)
  : Response * Store * list Stmt :=
  match body s with
  | (Done r, s', j) => (r, s', j)
  | (Thrown e, s', j) => (mkResponse 500 "Server error" (Some e), s', j)
  end.

Definition response (r : Response * Store * list Stmt) : Response := fst (fst r).
Definition store (r : Response * Store * list Stmt) : Store := snd (fst r).
Definition journal (r : Response * Store * list Stmt) : list Stmt := snd r.

(** JavaScript truthiness of the JSON values the controllers test. *)
Definition truthy_str (x : option string) : bool :=
  match x with
  | Some s => negb (String.eqb s "")
  | None => false
  end.

(** What a request body carries where the schema has an integer: the number
    [z] ([jnum z]), or a text that reads as [z] ([jtext z], the decimal
    notation of [z], such as ["0"]).  [express.urlencoded] hands every field
    over as text, and [express.json] whatever the client wrote. *)
Inductive JsonInt := jnum (z : Z) | jtext (z : Z).

(** [Number(v)]: what [-] computes with, and what an INTEGER column keeps. *)
Definition numberOf (v : JsonInt) : Z :=
  match v with
  | jnum z => z
  | jtext z => z
  end.

(** The number 0 is falsy; a text that is not empty is truthy, ["0"] too. *)
Definition truthy_int (x : option JsonInt) : bool :=
  match x with
  | Some (jnum z) => negb (z =? 0)
  | Some (jtext _) => true
  | None => false
  end.

(** [v !== n] for a number [n]: a text is never [===] a number. *)
Definition differs (v : JsonInt) (n : Z) : bool :=
  match v with
  | jnum z => negb (z =? n)
  | jtext _ => true
  end.

(** [x || y] *)
Definition or_str (x : option string) (y : string) : string :=
  match x with
  | Some s => if String.eqb s "" then y else s
  | None => y
  end.

(** [x || y] as kept by an INTEGER column. *)
Definition or_int (x : option JsonInt) (y : Z) : Z :=
  match x with
  | Some v => if truthy_int (Some v) then numberOf v else y
  | None => y
  end.

(** ** posterController.js *)

(** Body of [POST /api/posters]. *)
Record NewPoster := mkNewPoster {
  np_eventId : Z; np_eventTitle : string; np_eventDate : string;
  np_location : string; np_time : string; np_description : string;
  np_seats : Z; np_price : Z; np_image : option string }.

Definition createPoster (c : Ctx) (b : NewPoster) : DB Response :=
  if negb (Role_eqb (urole (user c)) head_admin)
  then json 403 "Only head admins can create posters"
  else
    let userId := uid (user c) in
    event <- get events (fun e => Event.id e =? np_eventId b) ;;
    match event with
    | None => json 404 "Event not found"
    | Some event =>
        if negb (Event.headId event =? userId)
        then json 403 "You can only create posters for your own events"
        else
          insert posters (fun i =>
            Poster.mk i (np_eventId b) (Event.clubId event) userId
              (np_eventTitle b) (np_eventDate b) (np_location b) (np_time b)
              (np_description b) (np_seats b) (np_seats b) (np_price b)
              (np_image b) (now c) (now c)) ;;;
          json 201 "Poster created successfully"
    end.

(** Body of [PUT /api/posters/:id]; every field is optional, and [image]
    may also be sent as [null] ([Some None]). *)
Record PosterPatch := mkPosterPatch {
  pp_eventTitle : option string; pp_eventDate : option string;
  pp_location : option string; pp_time : option string;
  pp_description : option string; pp_seats : option JsonInt;
  pp_price : option JsonInt; pp_image : option (option string) }.

(** The [let seatsLeft = ...; if (seats && seats !== poster.seats) {...}]
    block of [updatePoster]. *)
Definition newSeatsLeft (seats : option JsonInt) (poster : Poster.t) : Z :=
  match seats with
  | Some v =>
      if truthy_int seats && differs v (Poster.seats poster)
      then
        let seatsDifference := numberOf v - Poster.seats poster in
        let seatsLeft := Poster.seatsLeft poster + seatsDifference in
        if seatsLeft <? 0 then 0 else seatsLeft
      else Poster.seatsLeft poster
  | None => Poster.seatsLeft poster
  end.

(** The [.set({...})] of [updatePoster], built from the row read before. *)
Definition patchPoster (b : PosterPatch) (poster : Poster.t) (now : Z)
           (row : Poster.t) : Poster.t :=
  Poster.mk (Poster.id row) (Poster.eventId row) (Poster.clubId row)
    (Poster.headId row)
    (or_str (pp_eventTitle b) (Poster.eventTitle poster))
    (or_str (pp_eventDate b) (Poster.eventDate poster))
    (or_str (pp_location b) (Poster.location poster))
    (or_str (pp_time b) (Poster.time poster))
    (or_str (pp_description b) (Poster.description poster))
    (or_int (pp_seats b) (Poster.seats poster))
    (newSeatsLeft (pp_seats b) poster)
    (or_int (pp_price b) (Poster.price poster))
    (match pp_image b with
     | Some image => image
     | None => Poster.image poster
     end)
    (Poster.createdAt row) now.

Definition updatePoster (c : Ctx) (posterId : Z) (b : PosterPatch)
  : DB Response :=
  let userId := uid (user c) in
  poster <- get posters (fun p => Poster.id p =? posterId) ;;
  match poster with
  | None => json 404 "Poster not found"
  | Some poster =>
      if negb (Role_eqb (urole (user c)) head_admin)
         || negb (Poster.headId poster =? userId)
      then json 403 "Unauthorized access"
      else
        update posters (patchPoster b poster (now c))
               (fun p => Poster.id p =? posterId) ;;;
        json 200 "Poster updated successfully"
  end.

(** ** ticketController.js *)

(** Body of [POST /api/tickets]. *)
Record Booking := mkBooking {
  bk_posterId : Z; bk_numberOfPersons : Z; bk_paymentProof : option string }.

Definition bookTicket (c : Ctx) (b : Booking) : DB Response :=
  let posterId := bk_posterId b in
  let numberOfPersons := bk_numberOfPersons b in
  let paymentProof := bk_paymentProof b in
  let userId := uid (user c) in
  if negb (truthy_str paymentProof)
  then json 400 "Payment proof is required"
  else
    poster <- get posters (fun p => Poster.id p =? posterId) ;;
    match poster with
    | None => json 404 "Poster not found"
    | Some poster =>
        if Poster.seatsLeft poster <? numberOfPersons
        then json 400 "Not enough seats available"
        else
          insert ticketBookings (fun i =>
            TicketBooking.mk i posterId userId numberOfPersons paymentProof
              pending (now c) (now c)) ;;;
          update posters
            (Poster.set_seatsLeft (Poster.seatsLeft poster - numberOfPersons)
               (now c))
            (fun p => Poster.id p =? posterId) ;;;
          json 201 "Ticket booked successfully"
    end.

Definition approveTicket (c : Ctx) (ticketId : Z) : DB Response :=
  if negb (Role_eqb (urole (user c)) head_admin)
  then json 403 "Unauthorized access"
  else
    let headId := uid (user c) in
    ticketBooking <- get ticketBookings (fun t => TicketBooking.id t =? ticketId) ;;
    match ticketBooking with
    | None => json 404 "Ticket booking not found"
    | Some ticketBooking =>
        poster <- get posters
          (fun p => Poster.id p =? TicketBooking.posterId ticketBooking) ;;
        match poster with
        | None => json 404 "Associated poster not found"
        | Some poster =>
            if negb (Poster.headId poster =? headId)
            then json 403 "You can only approve tickets for your own events"
            else if negb (Status_eqb (TicketBooking.status ticketBooking) pending)
            then json 400 ("Ticket already "
                           ++ Status_text (TicketBooking.status ticketBooking))
            else
              update ticketBookings
                (TicketBooking.set_status approved (now c))
                (fun t => TicketBooking.id t =? ticketId) ;;;
              json 200 "Ticket booking approved"
        end
    end.

Definition rejectTicket (c : Ctx) (ticketId : Z) : DB Response :=
  if negb (Role_eqb (urole (user c)) head_admin)
  then json 403 "Unauthorized access"
  else
    let headId := uid (user c) in
    ticketBooking <- get ticketBookings (fun t => TicketBooking.id t =? ticketId) ;;
    match ticketBooking with
    | None => json 404 "Ticket booking not found"
    | Some ticketBooking =>
        poster <- get posters
          (fun p => Poster.id p =? TicketBooking.posterId ticketBooking) ;;
        match poster with
        | None => json 404 "Associated poster not found"
        | Some poster =>
            if negb (Poster.headId poster =? headId)
            then json 403 "You can only reject tickets for your own events"
            else if negb (Status_eqb (TicketBooking.status ticketBooking) pending)
            then json 400 ("Ticket already "
                           ++ Status_text (TicketBooking.status ticketBooking))
            else
              update posters
                (Poster.set_seatsLeft
                   (Poster.seatsLeft poster
                    + TicketBooking.numberOfPersons ticketBooking) (now c))
                (fun p => Poster.id p =? TicketBooking.posterId ticketBooking) ;;;
              update ticketBookings
                (TicketBooking.set_status rejected (now c))
                (fun t => TicketBooking.id t =? ticketId) ;;;
              json 200 "Ticket booking rejected and seats restored"
        end
    end.

(** ** clubRequestController.js *)

Definition approveClubRequest (c : Ctx) (requestId : Z) : DB Response :=
  if negb (Role_eqb (urole (user c)) super_admin)
  then json 403 "Unauthorized access"
  else
    request <- get clubRequests (fun r => ClubRequest.id r =? requestId) ;;
    match request with
    | None => json 404 "Club request not found"
    | Some request =>
        if negb (Status_eqb (ClubRequest.status request) pending)
        then json 400 ("Request already "
                       ++ Status_text (ClubRequest.status request))
        else
          update clubRequests (ClubRequest.set_status approved (now c))
                 (fun r => ClubRequest.id r =? requestId) ;;;
          insert clubs (fun i =>
            Club.mk i (ClubRequest.clubName request)
              (ClubRequest.headId request) (ClubRequest.goal request)
              (ClubRequest.description request)
              (ClubRequest.financing request)
              (ClubRequest.resources request)
              (ClubRequest.attractionMethods request)
              0 (now c) (now c)) ;;;
          update users (User.set_role head_admin (now c))
                 (fun u => User.id u =? ClubRequest.headId request) ;;;
          json 200 "Club request approved and club created successfully"
    end.

Definition rejectClubRequest (c : Ctx) (requestId : Z) : DB Response :=
  if negb (Role_eqb (urole (user c)) super_admin)
  then json 403 "Unauthorized access"
  else
    request <- get clubRequests (fun r => ClubRequest.id r =? requestId) ;;
    match request with
    | None => json 404 "Club request not found"
    | Some request =>
        if negb (Status_eqb (ClubRequest.status request) pending)
        then json 400 ("Request already "
                       ++ Status_text (ClubRequest.status request))
        else
          update clubRequests (ClubRequest.set_status rejected (now c))
                 (fun r => ClubRequest.id r =? requestId) ;;;
          json 200 "Club request rejected"
    end.

(** ** eventRequestController.js *)

Definition approveEventRequest (c : Ctx) (requestId : Z) : DB Response :=
  if negb (Role_eqb (urole (user c)) super_admin)
  then json 403 "Unauthorized access"
  else
    request <- get eventRequests (fun r => EventRequest.id r =? requestId) ;;
    match request with
    | None => json 404 "Event request not found"
    | Some request =>
        if negb (Status_eqb (EventRequest.status request) pending)
        then json 400 ("Request already "
                       ++ Status_text (EventRequest.status request))
        else
          update eventRequests (EventRequest.set_status approved (now c))
                 (fun r => EventRequest.id r =? requestId) ;;;
          insert events (fun i =>
            Event.mk i (EventRequest.clubId request)
              (EventRequest.headId request) (EventRequest.eventName request)
              (EventRequest.eventDate request) (EventRequest.location request)
              (EventRequest.shortDescription request)
              (EventRequest.goal request) (EventRequest.organizers request)
              (EventRequest.schedule request)
              (EventRequest.sponsorship request) (now c) (now c)) ;;;
          json 200 "Event request approved and event created successfully"
    end.

Definition rejectEventRequest (c : Ctx) (requestId : Z) : DB Response :=
  if negb (Role_eqb (urole (user c)) super_admin)
  then json 403 "Unauthorized access"
  else
    request <- get eventRequests (fun r => EventRequest.id r =? requestId) ;;
    match request with
    | None => json 404 "Event request not found"
    | Some request =>
        if negb (Status_eqb (EventRequest.status request) pending)
        then json 400 ("Request already "
                       ++ Status_text (EventRequest.status request))
        else
          update eventRequests (EventRequest.set_status rejected (now c))
                 (fun r => EventRequest.id r =? requestId) ;;;
          json 200 "Event request rejected"
    end.

(** ** clubController.js *)

Definition deleteClub (c : Ctx) (clubId : Z) : DB Response :=
  if negb (Role_eqb (urole (user c)) super_admin)
  then json 403 "Only super admins can delete clubs"
  else
    club <- get clubs (fun k => Club.id k =? clubId) ;;
    match club with
    | None => json 404 "Club not found"
    | Some club =>
        clubPosters <- all posters (fun p => Poster.clubId p =? clubId) ;;
        forEach clubPosters (fun poster =>
          delete ticketBookings
            (fun t => TicketBooking.posterId t =? Poster.id poster)) ;;;
        clubPosts <- all posts (fun p => clubIs clubId (Post.clubId p)) ;;
        forEach clubPosts (fun post =>
          delete postLikes (fun l => PostLike.postId l =? Post.id post)) ;;;
        delete posts (fun p => clubIs clubId (Post.clubId p)) ;;;
        delete posters (fun p => Poster.clubId p =? clubId) ;;;
        delete events (fun e => Event.clubId e =? clubId) ;;;
        delete eventRequests (fun r => EventRequest.clubId r =? clubId) ;;;
        update users (User.set_role student (now c))
               (fun u => User.id u =? Club.headId club) ;;;
        delete clubs (fun k => Club.id k =? clubId) ;;;
        json 200 "Club deleted successfully and head admin role reset to student"
    end.

(** ** postController.js *)

Definition toggleLikePost (c : Ctx) (postId : Z) : DB Response :=
  let userId := uid (user c) in
  post <- get posts (fun p => Post.id p =? postId) ;;
  match post with
  | None => json 404 "Post not found"
  | Some post =>
      let mine := fun l =>
        (PostLike.postId l =? postId) && (PostLike.userId l =? userId) in
      existingLike <- get postLikes mine ;;
      match existingLike with
      | Some _ =>
          delete postLikes mine ;;;
          update posts (Post.set_likes (Post.likes post - 1) (now c))
                 (fun p => Post.id p =? postId) ;;;
          json 200 "Post unliked successfully"
      | None =>
          insert postLikes (fun i => PostLike.mk i postId userId (now c)) ;;;
          update posts (Post.set_likes (Post.likes post + 1) (now c))
                 (fun p => Post.id p =? postId) ;;;
          json 200 "Post liked successfully"
      end
  end.

(** ** Reading the store *)

(** The row of table [h] with primary key [k], as [.where(eq(h.id, k)).get()]
    finds it. *)
Definition byId {R} (h : Handle R) (k : Z) (s : Store) : option R :=
  find (fun r => pk h r =? k) (rows (sel h s)).

Definition posterAt (s : Store) (k : Z) : option Poster.t := byId posters k s.
Definition ticketAt (s : Store) (k : Z) : option TicketBooking.t :=
  byId ticketBookings k s.
Definition userAt (s : Store) (k : Z) : option User.t := byId users k s.
Definition postAt (s : Store) (k : Z) : option Post.t := byId posts k s.
Definition clubRequestAt (s : Store) (k : Z) : option ClubRequest.t :=
  byId clubRequests k s.
Definition eventRequestAt (s : Store) (k : Z) : option EventRequest.t :=
  byId eventRequests k s.

(** ** List facts used throughout *)

Section ListFacts.
Context {R : Type}.

Lemma find_map_stable (p : R -> bool) (g : R -> R) (l : list R) :
  (forall r, p (g r) = p r) ->
  find p (map g l) = option_map g (find p l).
Proof.
  intros Hg. induction l as [|x l IH]; simpl; [reflexivity|].
  rewrite Hg. destruct (p x); [reflexivity | exact IH].
Qed.

Lemma find_app_none (p : R -> bool) (l l' : list R) :
  find p l = None -> find p (l ++ l') = find p l'.
Proof.
  induction l as [|x l IH]; simpl; [reflexivity|].
  destruct (p x); [discriminate | exact IH].
Qed.

Lemma find_app_some (p : R -> bool) (l l' : list R) (r : R) :
  find p l = Some r -> find p (l ++ l') = Some r.
Proof.
  induction l as [|x l IH]; simpl; [discriminate|].
  destruct (p x); [trivial | exact IH].
Qed.

Lemma map_id_on (g : R -> R) (l : list R) :
  (forall r, In r l -> g r = r) -> map g l = l.
Proof.
  induction l as [|x l IH]; simpl; intros H; [reflexivity|].
  rewrite H by (left; reflexivity). f_equal. apply IH.
  intros r Hr. apply H. right. exact Hr.
Qed.

Lemma filter_all (p : R -> bool) (l : list R) :
  (forall r, In r l -> p r = true) -> filter p l = l.
Proof.
  induction l as [|x l IH]; simpl; intros H; [reflexivity|].
  rewrite H by (left; reflexivity). f_equal. apply IH.
  intros r Hr. apply H. right. exact Hr.
Qed.

Lemma find_none_forall (p : R -> bool) (l : list R) :
  find p l = None <-> (forall r, In r l -> p r = false).
Proof.
  induction l as [|x l IH]; simpl.
  - split; [intros _ r [] | reflexivity].
  - destruct (p x) eqn:E.
    + split; [discriminate|]. intros H.
      rewrite H in E by (left; reflexivity). discriminate.
    + rewrite IH. split.
      * intros H r [<-|Hr]; [exact E | apply H, Hr].
      * intros H r Hr. apply H. right. exact Hr.
Qed.
End ListFacts.

(** Unfolds one controller run down to list operations on the tables. *)
Ltac exec :=
  unfold handler, response, store, journal, bind, get, all, update, delete,
         inUse, insert, json, ret; simpl.

(** ** updatePoster: capacity changes *)

Section UpdatePoster.
Variables (s : Store) (c : Ctx) (posterId : Z) (b : PosterPatch).
Variable P : Poster.t.
Hypothesis Hfound : posterAt s posterId = Some P.
Hypothesis Hrole : urole (user c) = head_admin.
Hypothesis Hown : Poster.headId P = uid (user c).

Let r := handler (updatePoster c posterId b) s.

(** What the owning head admin's update does to the poster row. *)
Lemma updatePoster_by_owner :
  code (response r) = 200 /\
  posterAt (store r) posterId = Some (patchPoster b P (now c) P) /\
  journal r = [Update t_posters].
Proof.
  subst r. unfold posterAt, byId in *. simpl in Hfound.
  unfold updatePoster. exec. rewrite Hfound, Hrole, Hown, Z.eqb_refl. simpl.
  repeat split.
  rewrite (find_map_stable (fun p => Poster.id p =? posterId)
             (fun p => if Poster.id p =? posterId
                       then patchPoster b P (now c) p else p)).
  - rewrite Hfound. simpl.
    apply find_some in Hfound. destruct Hfound as [_ ->]. reflexivity.
  - intros x. destruct (Poster.id x =? posterId) eqn:E; simpl; exact E.
Qed.
End UpdatePoster.

Lemma newSeatsLeft_clamped (v : JsonInt) (P : Poster.t) :
  v <> jnum 0 -> v <> jnum (Poster.seats P) \/ 0 <= Poster.seatsLeft P ->
  newSeatsLeft (Some v) P
  = Z.max 0 (Poster.seatsLeft P + (numberOf v - Poster.seats P)).
Proof.
  intros HS Hnew. unfold newSeatsLeft. destruct v as [z|z]; simpl.
  - destruct (z =? 0) eqn:E0; [apply Z.eqb_eq in E0; congruence|]. simpl.
    destruct (z =? Poster.seats P) eqn:E1; simpl.
    + apply Z.eqb_eq in E1. destruct Hnew as [Hnew|Hnew]; [congruence | lia].
    + destruct (Poster.seatsLeft P + (z - Poster.seats P) <? 0) eqn:E2; lia.
  - destruct (Poster.seatsLeft P + (z - Poster.seats P) <? 0) eqn:E2; lia.
Qed.

(** C6 (amended). When the owning head admin updates a poster with a new
    seats value [S] other than the number 0 (a number that is not 0, or a
    text; a number equal to the old [seats] only on a row whose [seatsLeft]
    is not negative), the call answers 200, the stored [seats] becomes [S]
    and the stored [seatsLeft] becomes
    [max 0 (old seatsLeft + (S - old seats))]: never negative.  The number 0
    is left out: it is falsy, and the update ignores it. *)
Theorem updatePoster_seats_clamped
    (s : Store) (c : Ctx) (posterId : Z) (b : PosterPatch) (P : Poster.t)
    (S : JsonInt) :
  posterAt s posterId = Some P ->
  urole (user c) = head_admin ->
  Poster.headId P = uid (user c) ->
  pp_seats b = Some S ->
  S <> jnum 0 ->
  S <> jnum (Poster.seats P) \/ 0 <= Poster.seatsLeft P ->
  let r := handler (updatePoster c posterId b) s in
  code (response r) = 200 /\
  exists P', posterAt (store r) posterId = Some P' /\
    Poster.seats P' = numberOf S /\
    Poster.seatsLeft P'
    = Z.max 0 (Poster.seatsLeft P + (numberOf S - Poster.seats P)) /\
    0 <= Poster.seatsLeft P'.
Proof.
  intros Hf Hr Ho Hb HS Hnew r.
  destruct (updatePoster_by_owner s c posterId b P Hf Hr Ho) as (H200 & Hrow & _).
  split; [exact H200|].
  exists (patchPoster b P (now c) P). split; [exact Hrow|].
  simpl. rewrite Hb. rewrite (newSeatsLeft_clamped S P HS Hnew).
  repeat split; try lia.
  destruct S as [z|z]; simpl; [|reflexivity].
  destruct (z =? 0) eqn:E; [|reflexivity].
  apply Z.eqb_eq in E. congruence.
Qed.

(** ** A small store to run the controllers on *)

Definition emptyTable {R} : Table R := mkTable [] 0.

Definition head7 : AuthUser := mkAuth 7 head_admin.
Definition student3 : AuthUser := mkAuth 3 student.
Definition admin1 : AuthUser := mkAuth 1 super_admin.

Definition mkUser (i : Z) (n : string) (r : Role) : User.t :=
  User.mk i n "" (n ++ "@uni.example") "hash" r None None None None true 0 0.

(** A poster of club 1, event 1, owned by user 7. *)
Definition mkPoster (i seats seatsLeft : Z) : Poster.t :=
  Poster.mk i 1 1 7 "Open day" "2025-05-01" "Hall" "18:00" "Welcome"
            seats seatsLeft 100 None 0 0.

(** A body with the number [n] as [seats], and one with the text of [n]. *)
Definition seatsPatch (n : Z) : PosterPatch :=
  mkPosterPatch None None None None None (Some (jnum n)) None None.

Definition seatsTextPatch (n : Z) : PosterPatch :=
  mkPosterPatch None None None None None (Some (jtext n)) None None.

(** Users 1 (super admin), 3 (student), 7 (head admin), and one poster. *)
Definition storeWithPoster (p : Poster.t) : Store :=
  mkStore (mkTable [mkUser 1 "root" super_admin; mkUser 3 "ann" student;
                    mkUser 7 "bob" head_admin] 7)
          emptyTable emptyTable emptyTable emptyTable
          (mkTable [p] (Poster.id p))
          emptyTable emptyTable emptyTable
          emptyTable emptyTable emptyTable.

(** The spec's example: seats = 10, seatsLeft = 4, updated to 5: seatsLeft 0. *)
Lemma updatePoster_seats_clamped_witness :
  let r := handler (updatePoster (mkCtx head7 50) 1 (seatsPatch 5))
                   (storeWithPoster (mkPoster 1 10 4)) in
  code (response r) = 200 /\
  exists P', posterAt (store r) 1 = Some P' /\
    Poster.seats P' = 5 /\
    Poster.seatsLeft P' = Z.max 0 (4 + (5 - 10)) /\
    0 <= Poster.seatsLeft P'.
Proof.
  apply (updatePoster_seats_clamped (storeWithPoster (mkPoster 1 10 4))
           (mkCtx head7 50) 1 (seatsPatch 5) (mkPoster 1 10 4) (jnum 5));
    try reflexivity; [discriminate | left; discriminate].
Defined.

(** C6, as stated, fails at [S = 0]: on a poster with [seats = 10] and
    [seatsLeft = 4] the owner's update with [seats: 0] answers 200 and leaves
    the row at 10 and 4, whereas the claim's formula gives
    [max 0 (4 + (0 - 10)) = 0] for [seatsLeft]. *)
Lemma updatePoster_seats_zero_not_applied :
  let r := handler (updatePoster (mkCtx head7 50) 1 (seatsPatch 0))
                   (storeWithPoster (mkPoster 1 10 4)) in
  code (response r) = 200 /\
  option_map (fun p => (Poster.seats p, Poster.seatsLeft p))
             (posterAt (store r) 1) = Some (10, 4) /\
  ~ (exists P', posterAt (store r) 1 = Some P' /\
       Poster.seatsLeft P' = Z.max 0 (4 + (0 - 10))).
Proof.
  split; [reflexivity|]. split; [reflexivity|].
  intros (P' & HP & H). simpl in HP. injection HP as <-. simpl in H. lia.
Qed.

Example scenario_B_clamped :
  option_map Poster.seatsLeft
    (posterAt (store (handler (updatePoster (mkCtx head7 50) 1 (seatsPatch 5))
                              (storeWithPoster (mkPoster 1 10 4)))) 1)
  = Some 0.
Proof. reflexivity. Qed.

(** C10, as stated, fails: the text ["0"] is truthy.  On a poster with
    [seats = 10] and [seatsLeft = 4] the owner's update with [seats: "0"]
    answers 200 and stores [seats = 0] and [seatsLeft = 0]. *)
Lemma updatePoster_text_zero_stores_zero :
  let r := handler (updatePoster (mkCtx head7 50) 1 (seatsTextPatch 0))
                   (storeWithPoster (mkPoster 1 10 4)) in
  code (response r) = 200 /\
  option_map (fun p => (Poster.seats p, Poster.seatsLeft p))
             (posterAt (store r) 1) = Some (0, 0) /\
  ~ (forall P', posterAt (store r) 1 = Some P' -> Poster.seats P' <> 0).
Proof.
  split; [reflexivity|]. split; [reflexivity|].
  intros H. apply (H _ eq_refl). reflexivity.
Qed.

(** C10 (amended). A supplied [seats] that is the number 0 is falsy, hence
    treated as not provided: the owner's update answers 200 and leaves
    [seats] and [seatsLeft] as they were.  An update stores [seats = 0] only
    if the capacity was 0 already or the body carries [seats] as the text
    ["0"]; and that text does store [seats = 0], with [seatsLeft] floored at
    0. *)
Theorem updatePoster_zero_seats_ignored
    (s : Store) (c : Ctx) (posterId : Z) (b : PosterPatch) (P : Poster.t) :
  posterAt s posterId = Some P ->
  urole (user c) = head_admin ->
  Poster.headId P = uid (user c) ->
  let r := handler (updatePoster c posterId b) s in
  exists P', posterAt (store r) posterId = Some P' /\
    (pp_seats b = Some (jnum 0) ->
       code (response r) = 200 /\
       Poster.seats P' = Poster.seats P /\
       Poster.seatsLeft P' = Poster.seatsLeft P) /\
    (Poster.seats P' = 0 ->
       Poster.seats P = 0 \/ pp_seats b = Some (jtext 0)) /\
    (pp_seats b = Some (jtext 0) ->
       code (response r) = 200 /\
       Poster.seats P' = 0 /\
       Poster.seatsLeft P' = Z.max 0 (Poster.seatsLeft P - Poster.seats P)).
Proof.
  intros Hf Hr Ho r.
  destruct (updatePoster_by_owner s c posterId b P Hf Hr Ho) as (H200 & Hrow & _).
  exists (patchPoster b P (now c) P). split; [exact Hrow|].
  split; [|split].
  - intros Hz. split; [exact H200|]. simpl. rewrite Hz. simpl. auto.
  - simpl. unfold or_int. destruct (pp_seats b) as [[z|z]|]; simpl.
    + destruct (z =? 0) eqn:E; simpl; [left; assumption|].
      apply Z.eqb_neq in E. intros. contradiction.
    + intros ->. right. reflexivity.
    + left. assumption.
  - intros Hz. split; [exact H200|].
    unfold patchPoster. cbn [Poster.seats Poster.seatsLeft]. rewrite Hz.
    rewrite newSeatsLeft_clamped; [|discriminate | left; discriminate].
    simpl. split; [reflexivity | lia].
Qed.

Lemma updatePoster_zero_seats_ignored_witness :
  let r := handler (updatePoster (mkCtx head7 50) 1 (seatsPatch 0))
                   (storeWithPoster (mkPoster 1 10 4)) in
  let r' := handler (updatePoster (mkCtx head7 50) 1 (seatsTextPatch 0))
                    (storeWithPoster (mkPoster 1 10 4)) in
  (exists P', posterAt (store r) 1 = Some P' /\
     code (response r) = 200 /\
     Poster.seats P' = 10 /\ Poster.seatsLeft P' = 4) /\
  (exists P', posterAt (store r') 1 = Some P' /\
     code (response r') = 200 /\
     Poster.seats P' = 0 /\ Poster.seatsLeft P' = Z.max 0 (4 - 10)).
Proof.
  split.
  - destruct (updatePoster_zero_seats_ignored (storeWithPoster (mkPoster 1 10 4))
                (mkCtx head7 50) 1 (seatsPatch 0) (mkPoster 1 10 4)
                eq_refl eq_refl eq_refl) as (P' & HP & Hz & _).
    exists P'. split; [exact HP | exact (Hz eq_refl)].
  - destruct (updatePoster_zero_seats_ignored (storeWithPoster (mkPoster 1 10 4))
                (mkCtx head7 50) 1 (seatsTextPatch 0) (mkPoster 1 10 4)
                eq_refl eq_refl eq_refl) as (P' & HP & _ & _ & Ht).
    exists P'. split; [exact HP | exact (Ht eq_refl)].
Defined.

(** ** Tickets: what each controller does to the posters and bookings *)

(** [where(eq(posters.id, k))] applied to [.set(f)]. *)
Definition onPoster (k : Z) (f : Poster.t -> Poster.t) (p : Poster.t) : Poster.t :=
  if Poster.id p =? k then f p else p.

Definition onTicket (k : Z) (f : TicketBooking.t -> TicketBooking.t)
           (t : TicketBooking.t) : TicketBooking.t :=
  if TicketBooking.id t =? k then f t else t.

Lemma posterAt_onPoster (l : list Poster.t) (k k' : Z) (f : Poster.t -> Poster.t) :
  (forall p, Poster.id (f p) = Poster.id p) ->
  find (fun p => Poster.id p =? k') (map (onPoster k f) l)
  = option_map (onPoster k f) (find (fun p => Poster.id p =? k') l).
Proof.
  intros Hf. apply find_map_stable. intros p. unfold onPoster.
  destruct (Poster.id p =? k); [rewrite Hf|]; reflexivity.
Qed.

Lemma ticketAt_onTicket (l : list TicketBooking.t) (k k' : Z)
      (f : TicketBooking.t -> TicketBooking.t) :
  (forall t, TicketBooking.id (f t) = TicketBooking.id t) ->
  find (fun t => TicketBooking.id t =? k') (map (onTicket k f) l)
  = option_map (onTicket k f) (find (fun t => TicketBooking.id t =? k') l).
Proof.
  intros Hf. apply find_map_stable. intros t. unfold onTicket.
  destruct (TicketBooking.id t =? k); [rewrite Hf|]; reflexivity.
Qed.

Lemma posterAt_id (s : Store) (k : Z) (P : Poster.t) :
  posterAt s k = Some P -> Poster.id P = k.
Proof.
  unfold posterAt, byId. simpl. intros H. apply find_some in H.
  destruct H as [_ H]. apply Z.eqb_eq. exact H.
Qed.

(** The booking row that [bookTicket] inserts. *)
Definition newBooking (c : Ctx) (b : Booking) (i : Z) : TicketBooking.t :=
  TicketBooking.mk i (bk_posterId b) (uid (user c)) (bk_numberOfPersons b)
    (bk_paymentProof b) pending (now c) (now c).

(** The three refusals of [bookTicket], in the order the controller tests
    them: each answers without writing. *)
Lemma bookTicket_refused (s : Store) (c : Ctx) (b : Booking) :
  let r := handler (bookTicket c b) s in
  (truthy_str (bk_paymentProof b) = false ->
     response r = mkResponse 400 "Payment proof is required" None
     /\ store r = s /\ journal r = []) /\
  (truthy_str (bk_paymentProof b) = true ->
   posterAt s (bk_posterId b) = None ->
     response r = mkResponse 404 "Poster not found" None
     /\ store r = s /\ journal r = []) /\
  (truthy_str (bk_paymentProof b) = true ->
   forall P, posterAt s (bk_posterId b) = Some P ->
   Poster.seatsLeft P < bk_numberOfPersons b ->
     response r = mkResponse 400 "Not enough seats available" None
     /\ store r = s /\ journal r = []).
Proof.
  unfold posterAt, byId, bookTicket. simpl. repeat split.
  all: exec; try rewrite H; simpl; try reflexivity.
  all: try (rewrite H0; simpl; reflexivity).
  all: rewrite H0; apply Z.ltb_lt in H1; rewrite H1; reflexivity.
Qed.

(** The accepted case: any [numberOfPersons] not above [seatsLeft] passes,
    whatever its sign. *)
Lemma bookTicket_accepted (s : Store) (c : Ctx) (b : Booking) (P : Poster.t) :
  truthy_str (bk_paymentProof b) = true ->
  posterAt s (bk_posterId b) = Some P ->
  bk_numberOfPersons b <= Poster.seatsLeft P ->
  let r := handler (bookTicket c b) s in
  let s1 := upd ticketBookings
              (mkTable (rows (db_ticketBookings s)
                        ++ [newBooking c b (lastId (db_ticketBookings s) + 1)])
                       (lastId (db_ticketBookings s) + 1)) s in
  response r = mkResponse 201 "Ticket booked successfully" None /\
  store r = upd posters
              (mkTable (map (onPoster (bk_posterId b)
                               (Poster.set_seatsLeft
                                  (Poster.seatsLeft P - bk_numberOfPersons b)
                                  (now c)))
                            (rows (db_posters s)))
                       (lastId (db_posters s))) s1 /\
  journal r = [Insert t_ticketBookings; Update t_posters].
Proof.
  unfold posterAt, byId, bookTicket. simpl. intros Hp Hf Hn.
  exec. rewrite Hp. simpl. rewrite Hf.
  apply Z.ltb_ge in Hn. rewrite Hn.
  replace (existsb (fun _ : TicketBooking.t => false)
             (rows (db_ticketBookings s))) with false.
  - simpl. repeat split.
  - induction (rows (db_ticketBookings s)); simpl; auto.
Qed.

(** The accepted case of [rejectTicket], and of [approveTicket]. *)
Lemma rejectTicket_accepted (s : Store) (c : Ctx) (ticketId : Z)
      (B : TicketBooking.t) (P : Poster.t) :
  urole (user c) = head_admin ->
  ticketAt s ticketId = Some B ->
  posterAt s (TicketBooking.posterId B) = Some P ->
  Poster.headId P = uid (user c) ->
  TicketBooking.status B = pending ->
  let r := handler (rejectTicket c ticketId) s in
  let s1 := upd posters
              (mkTable (map (onPoster (TicketBooking.posterId B)
                               (Poster.set_seatsLeft
                                  (Poster.seatsLeft P
                                   + TicketBooking.numberOfPersons B) (now c)))
                            (rows (db_posters s)))
                       (lastId (db_posters s))) s in
  response r = mkResponse 200 "Ticket booking rejected and seats restored" None /\
  store r = upd ticketBookings
              (mkTable (map (onTicket ticketId
                               (TicketBooking.set_status rejected (now c)))
                            (rows (db_ticketBookings s)))
                       (lastId (db_ticketBookings s))) s1 /\
  journal r = [Update t_posters; Update t_ticketBookings].
Proof.
  unfold ticketAt, posterAt, byId, rejectTicket. simpl.
  intros Hr Ht Hp Ho Hs. exec.
  rewrite Hr. simpl. rewrite Ht, Hp, Ho, Z.eqb_refl, Hs. simpl.
  repeat split.
Qed.

Lemma approveTicket_accepted (s : Store) (c : Ctx) (ticketId : Z)
      (B : TicketBooking.t) (P : Poster.t) :
  urole (user c) = head_admin ->
  ticketAt s ticketId = Some B ->
  posterAt s (TicketBooking.posterId B) = Some P ->
  Poster.headId P = uid (user c) ->
  TicketBooking.status B = pending ->
  let r := handler (approveTicket c ticketId) s in
  response r = mkResponse 200 "Ticket booking approved" None /\
  store r = upd ticketBookings
              (mkTable (map (onTicket ticketId
                               (TicketBooking.set_status approved (now c)))
                            (rows (db_ticketBookings s)))
                       (lastId (db_ticketBookings s))) s /\
  journal r = [Update t_ticketBookings].
Proof.
  unfold ticketAt, posterAt, byId, approveTicket. simpl.
  intros Hr Ht Hp Ho Hs. exec.
  rewrite Hr. simpl. rewrite Ht, Hp, Ho, Z.eqb_refl, Hs. simpl.
  repeat split.
Qed.

(** One rejection: the booking is stored as rejected with its
    [numberOfPersons] untouched, and exactly that stored number is added to
    the [seatsLeft] the poster has at that moment; [seats] is not consulted
    and not changed. *)
Lemma rejectTicket_adds_stored_persons
    (s : Store) (c : Ctx) (ticketId : Z) (B : TicketBooking.t) (P : Poster.t) :
  ticketAt s ticketId = Some B ->
  TicketBooking.status B = pending ->
  posterAt s (TicketBooking.posterId B) = Some P ->
  urole (user c) = head_admin ->
  Poster.headId P = uid (user c) ->
  let r := handler (rejectTicket c ticketId) s in
  code (response r) = 200 /\
  (exists B', ticketAt (store r) ticketId = Some B' /\
     TicketBooking.status B' = rejected /\
     TicketBooking.numberOfPersons B' = TicketBooking.numberOfPersons B /\
     TicketBooking.posterId B' = TicketBooking.posterId B) /\
  (exists P', posterAt (store r) (TicketBooking.posterId B) = Some P' /\
     Poster.seatsLeft P'
       = Poster.seatsLeft P + TicketBooking.numberOfPersons B /\
     Poster.seats P' = Poster.seats P).
Proof.
  intros Ht Hs Hp Hr Ho r.
  destruct (rejectTicket_accepted s c ticketId B P Hr Ht Hp Ho Hs)
    as (Hresp & Hst & _).
  fold r in Hresp, Hst. rewrite Hresp, Hst. split; [reflexivity|]. split.
  - exists (TicketBooking.set_status rejected (now c) B).
    unfold ticketAt, byId in *. simpl in *.
    rewrite ticketAt_onTicket by reflexivity. rewrite Ht. simpl.
    unfold onTicket. apply find_some in Ht. destruct Ht as [_ ->].
    repeat split.
  - exists (Poster.set_seatsLeft
              (Poster.seatsLeft P + TicketBooking.numberOfPersons B) (now c) P).
    unfold posterAt, byId in *. simpl in *.
    rewrite posterAt_onPoster by reflexivity. rewrite Hp. simpl.
    unfold onPoster. apply find_some in Hp. destruct Hp as [_ ->].
    repeat split.
Qed.

(** A payment proof as the client sends it. *)
Definition receipt : option string := Some "proof.png"%string.

(** Poster 1 (seats 10) after user 3 booked six seats as ticket 1. *)
Definition storeBooked6 : Store :=
  store (handler (bookTicket (mkCtx student3 10) (mkBooking 1 6 receipt))
                 (storeWithPoster (mkPoster 1 10 10))).

(** The same store after the head shrank the capacity to 5. *)
Definition storeShrunk : Store :=
  store (handler (updatePoster (mkCtx head7 20) 1 (seatsPatch 5)) storeBooked6).

Example storeBooked6_poster :
  option_map (fun p => (Poster.seats p, Poster.seatsLeft p)) (posterAt storeBooked6 1)
  = Some (10, 4).
Proof. reflexivity. Qed.

Example storeShrunk_poster :
  option_map (fun p => (Poster.seats p, Poster.seatsLeft p)) (posterAt storeShrunk 1)
  = Some (5, 0).
Proof. reflexivity. Qed.

(** C2. [bookTicket] has no test on [numberOfPersons] other than the
    comparison with [seatsLeft]: a request for 0 persons with a payment proof
    on an existing poster is answered 201 and a booking row for 0 persons is
    stored; a request for -5 persons is answered 201 as well and raises
    [seatsLeft] from 10 to 15, above [seats]. *)
Theorem bookTicket_accepts_nonpositive_persons :
  let s := storeWithPoster (mkPoster 1 10 10) in
  let r0 := handler (bookTicket (mkCtx student3 10)
                       (mkBooking 1 0 receipt)) s in
  let r5 := handler (bookTicket (mkCtx student3 10)
                       (mkBooking 1 (-5) receipt)) s in
  response r0 = mkResponse 201 "Ticket booked successfully" None /\
  rows (db_ticketBookings (store r0))
    = [TicketBooking.mk 1 1 3 0 receipt pending 10 10] /\
  response r5 = mkResponse 201 "Ticket booked successfully" None /\
  rows (db_ticketBookings (store r5))
    = [TicketBooking.mk 1 1 3 (-5) receipt pending 10 10] /\
  option_map (fun p => (Poster.seats p, Poster.seatsLeft p)) (posterAt (store r5) 1)
    = Some (10, 15).
Proof. repeat split. Qed.

(** ** Every way a ticket or poster controller can end *)

Lemma bookTicket_cases (s : Store) (c : Ctx) (b : Booking) :
  store (handler (bookTicket c b) s) = s \/
  exists P, truthy_str (bk_paymentProof b) = true /\
            posterAt s (bk_posterId b) = Some P /\
            bk_numberOfPersons b <= Poster.seatsLeft P.
Proof.
  destruct (bookTicket_refused s c b) as (H1 & H2 & H3).
  destruct (truthy_str (bk_paymentProof b)) eqn:Ep.
  - destruct (posterAt s (bk_posterId b)) as [P|] eqn:Ef.
    + destruct (Z_lt_le_dec (Poster.seatsLeft P) (bk_numberOfPersons b)) as [Hlt|Hle].
      * left. apply (H3 eq_refl P eq_refl Hlt).
      * right. exists P. auto.
    + left. apply (H2 eq_refl eq_refl).
  - left. apply (H1 eq_refl).
Qed.

Lemma rejectTicket_cases (s : Store) (c : Ctx) (ticketId : Z) :
  store (handler (rejectTicket c ticketId) s) = s \/
  exists B P, urole (user c) = head_admin /\
              ticketAt s ticketId = Some B /\
              posterAt s (TicketBooking.posterId B) = Some P /\
              Poster.headId P = uid (user c) /\
              TicketBooking.status B = pending.
Proof.
  unfold ticketAt, posterAt, byId, rejectTicket. simpl.
  destruct (Role_eqb (urole (user c)) head_admin) eqn:Er; exec;
    [|left; reflexivity].
  apply Role_eqb_eq in Er.
  destruct (find _ (rows (db_ticketBookings s))) as [B|] eqn:Et;
    [|left; reflexivity].
  destruct (find _ (rows (db_posters s))) as [P|] eqn:Ep;
    [|left; reflexivity].
  destruct (Poster.headId P =? uid (user c)) eqn:Eo; simpl;
    [|left; reflexivity].
  destruct (Status_eqb (TicketBooking.status B) pending) eqn:Es; simpl;
    [|left; reflexivity].
  right. exists B, P. apply Z.eqb_eq in Eo. apply Status_eqb_eq in Es. auto.
Qed.

Lemma approveTicket_cases (s : Store) (c : Ctx) (ticketId : Z) :
  store (handler (approveTicket c ticketId) s) = s \/
  exists B P, urole (user c) = head_admin /\
              ticketAt s ticketId = Some B /\
              posterAt s (TicketBooking.posterId B) = Some P /\
              Poster.headId P = uid (user c) /\
              TicketBooking.status B = pending.
Proof.
  unfold ticketAt, posterAt, byId, approveTicket. simpl.
  destruct (Role_eqb (urole (user c)) head_admin) eqn:Er; exec;
    [|left; reflexivity].
  apply Role_eqb_eq in Er.
  destruct (find _ (rows (db_ticketBookings s))) as [B|] eqn:Et;
    [|left; reflexivity].
  destruct (find _ (rows (db_posters s))) as [P|] eqn:Ep;
    [|left; reflexivity].
  destruct (Poster.headId P =? uid (user c)) eqn:Eo; simpl;
    [|left; reflexivity].
  destruct (Status_eqb (TicketBooking.status B) pending) eqn:Es; simpl;
    [|left; reflexivity].
  right. exists B, P. apply Z.eqb_eq in Eo. apply Status_eqb_eq in Es. auto.
Qed.

Lemma updatePoster_cases (s : Store) (c : Ctx) (posterId : Z) (b : PosterPatch) :
  let s' := store (handler (updatePoster c posterId b) s) in
  s' = s \/
  exists P, posterAt s posterId = Some P /\
    s' = upd posters
           (mkTable (map (onPoster posterId (patchPoster b P (now c)))
                         (rows (db_posters s)))
                    (lastId (db_posters s))) s.
Proof.
  unfold posterAt, byId, updatePoster. simpl. exec.
  destruct (find _ (rows (db_posters s))) as [P|] eqn:Ep;
    [|left; reflexivity].
  destruct (negb (Role_eqb (urole (user c)) head_admin)
            || negb (Poster.headId P =? uid (user c))); simpl;
    [left; reflexivity|].
  right. exists P. split; reflexivity.
Qed.

(** ** Sequences of ticket and poster operations *)

Inductive Op :=
| Book (c : Ctx) (b : Booking)
| Approve (c : Ctx) (ticketId : Z)
| Reject (c : Ctx) (ticketId : Z)
| Reseat (c : Ctx) (posterId : Z) (b : PosterPatch).

(** The store left by one request. *)
Definition step (s : Store) (o : Op) : Store :=
  match o with
  | Book c b => store (handler (bookTicket c b) s)
  | Approve c k => store (handler (approveTicket c k) s)
  | Reject c k => store (handler (rejectTicket c k) s)
  | Reseat c k b => store (handler (updatePoster c k b) s)
  end.

Definition run (s : Store) (ops : list Op) : Store := fold_left step ops s.

(** No booking request asks for a negative number of persons. *)
Definition personsOk (o : Op) : Prop :=
  match o with
  | Book _ b => 0 <= bk_numberOfPersons b
  | _ => True
  end.

(** Primary key of the bookings table: ids are distinct and were all handed
    out by the AUTOINCREMENT counter. *)
Definition keyed (t : Table TicketBooking.t) : Prop :=
  NoDup (map TicketBooking.id (rows t)) /\
  forall b, In b (rows t) -> TicketBooking.id b <= lastId t.

(** No ticket or poster controller rewrites the [numberOfPersons] or the
    [posterId] of a stored booking. *)
Lemma booking_amount_kept_by_step (s : Store) (o : Op) (k : Z) (B : TicketBooking.t) :
  ticketAt s k = Some B ->
  exists B', ticketAt (step s o) k = Some B' /\
    TicketBooking.numberOfPersons B' = TicketBooking.numberOfPersons B /\
    TicketBooking.posterId B' = TicketBooking.posterId B.
Proof.
  intros HB. destruct o as [c b|c t|c t|c t b]; simpl.
  - destruct (bookTicket_cases s c b) as [->|(P & Hpr & HP & Hle)]; [eauto|].
    destruct (bookTicket_accepted s c b P Hpr HP Hle) as (_ & -> & _).
    exists B. unfold ticketAt, byId in *. simpl in *.
    rewrite (find_app_some _ _ _ B HB). auto.
  - destruct (approveTicket_cases s c t) as [->|(Q & P & Hr & HQ & HP & Ho & Hs)];
      [eauto|].
    destruct (approveTicket_accepted s c t Q P Hr HQ HP Ho Hs) as (_ & -> & _).
    unfold ticketAt, byId in *. simpl in *.
    rewrite ticketAt_onTicket by reflexivity. rewrite HB. simpl.
    eexists. split; [reflexivity|]. unfold onTicket.
    destruct (TicketBooking.id B =? t); auto.
  - destruct (rejectTicket_cases s c t) as [->|(Q & P & Hr & HQ & HP & Ho & Hs)];
      [eauto|].
    destruct (rejectTicket_accepted s c t Q P Hr HQ HP Ho Hs) as (_ & -> & _).
    unfold ticketAt, byId in *. simpl in *.
    rewrite ticketAt_onTicket by reflexivity. rewrite HB. simpl.
    eexists. split; [reflexivity|]. unfold onTicket.
    destruct (TicketBooking.id B =? t); auto.
  - destruct (updatePoster_cases s c t b) as [->|(P & HP & ->)]; eauto.
Qed.

Lemma booking_amount_kept_by_run (ops : list Op) (s : Store) (k : Z)
      (B : TicketBooking.t) :
  ticketAt s k = Some B ->
  exists B', ticketAt (run s ops) k = Some B' /\
    TicketBooking.numberOfPersons B' = TicketBooking.numberOfPersons B /\
    TicketBooking.posterId B' = TicketBooking.posterId B.
Proof.
  revert s B. induction ops as [|o ops IH]; simpl; intros s B HB; [eauto|].
  destruct (booking_amount_kept_by_step s o k B HB) as (B1 & H1 & Hn & Hp).
  destruct (IH _ B1 H1) as (B' & H' & Hn' & Hp').
  exists B'. repeat split; congruence.
Qed.

(** C4. Let booking [B0] be stored on poster [P]; after any sequence [ops]
    of bookings, approvals, rejections and poster updates (which may change
    [seats] and [seatsLeft] of [P]), if the booking is still pending then
    [rejectTicket] called by the poster's head answers 200, stores the
    booking as rejected, and increases the [seatsLeft] that the poster has at
    that moment by exactly [B0]'s [numberOfPersons]; [seats] is left as it
    is. *)
Theorem rejectTicket_restores_reserved_seats
    (s0 : Store) (ops : list Op) (c : Ctx) (ticketId : Z)
    (B0 B : TicketBooking.t) (P : Poster.t) :
  ticketAt s0 ticketId = Some B0 ->
  let s := run s0 ops in
  ticketAt s ticketId = Some B ->
  TicketBooking.status B = pending ->
  posterAt s (TicketBooking.posterId B0) = Some P ->
  urole (user c) = head_admin ->
  Poster.headId P = uid (user c) ->
  let r := handler (rejectTicket c ticketId) s in
  code (response r) = 200 /\
  (exists B', ticketAt (store r) ticketId = Some B' /\
     TicketBooking.status B' = rejected /\
     TicketBooking.numberOfPersons B' = TicketBooking.numberOfPersons B0) /\
  (exists P', posterAt (store r) (TicketBooking.posterId B0) = Some P' /\
     Poster.seatsLeft P'
       = Poster.seatsLeft P + TicketBooking.numberOfPersons B0 /\
     Poster.seats P' = Poster.seats P).
Proof.
  intros H0 s HB Hs HP Hr Ho r.
  destruct (booking_amount_kept_by_run ops s0 ticketId B0 H0) as (B1 & H1 & Hn & Hp).
  fold s in H1. assert (B1 = B) by congruence. subst B1.
  rewrite <- Hp in HP |- *. rewrite <- Hn.
  destruct (rejectTicket_adds_stored_persons s c ticketId B P HB Hs HP Hr Ho)
    as (H200 & (B' & HB' & Hst & Hn' & _) & HP').
  split; [exact H200|]. split; [|exact HP'].
  exists B'. auto.
Qed.

(** Ticket 1 books six of ten seats; the capacity is then cut to five
    ([seatsLeft] 0); rejecting the ticket gives six seats back. *)
Lemma rejectTicket_restores_reserved_seats_witness :
  let s := run storeBooked6 [Reseat (mkCtx head7 20) 1 (seatsPatch 5)] in
  let r := handler (rejectTicket (mkCtx head7 30) 1) s in
  code (response r) = 200 /\
  (exists B', ticketAt (store r) 1 = Some B' /\
     TicketBooking.status B' = rejected /\
     TicketBooking.numberOfPersons B' = 6) /\
  (exists P', posterAt (store r) 1 = Some P' /\
     Poster.seatsLeft P' = 0 + 6 /\
     Poster.seats P' = 5).
Proof.
  apply (rejectTicket_restores_reserved_seats storeBooked6
           [Reseat (mkCtx head7 20) 1 (seatsPatch 5)] (mkCtx head7 30) 1
           (TicketBooking.mk 1 1 3 6 receipt pending 10 10)
           (TicketBooking.mk 1 1 3 6 receipt pending 10 10)
           (Poster.mk 1 1 1 7 "Open day" "2025-05-01" "Hall" "18:00" "Welcome"
              5 0 100 None 0 20));
    reflexivity.
Defined.

(** ** The capacity counter of one poster along a sequence *)

Section SeatBounds.
Variable pid : Z.

(** Seats of poster [pid] that a booking holds: those of a booking that is
    pending or approved. *)
Definition holds (b : TicketBooking.t) : Z :=
  if (TicketBooking.posterId b =? pid)
     && negb (Status_eqb (TicketBooking.status b) rejected)
  then TicketBooking.numberOfPersons b
  else 0.

Definition reservedIn (l : list TicketBooking.t) : Z :=
  fold_right (fun b acc => holds b + acc) 0 l.

Definition reserved (s : Store) : Z := reservedIn (rows (db_ticketBookings s)).

(** An [updatePoster] that leaves poster [pid] with fewer seats than were
    taken at that moment ([seats - seatsLeft]): the case in which the
    controller's floor at 0 changes the result. *)
Definition cuts (s : Store) (o : Op) : bool :=
  match o with
  | Reseat _ _ _ =>
      match posterAt s pid, posterAt (step s o) pid with
      | Some p, Some p' =>
          Poster.seats p' <? Poster.seats p - Poster.seatsLeft p
      | _, _ => false
      end
  | _ => false
  end.

Fixpoint neverCuts (s : Store) (ops : list Op) : Prop :=
  match ops with
  | [] => True
  | o :: ops' => cuts s o = false /\ neverCuts (step s o) ops'
  end.

Definition InvLo (s : Store) : Prop :=
  (exists p, posterAt s pid = Some p /\ 0 <= Poster.seatsLeft p) /\
  (forall b, In b (rows (db_ticketBookings s)) ->
             TicketBooking.posterId b = pid ->
             0 <= TicketBooking.numberOfPersons b).

Definition InvHi (s : Store) : Prop :=
  keyed (db_ticketBookings s) /\
  exists p, posterAt s pid = Some p /\
            Poster.seatsLeft p + reserved s = Poster.seats p.

Lemma reservedIn_app (l l' : list TicketBooking.t) :
  reservedIn (l ++ l') = reservedIn l + reservedIn l'.
Proof. induction l as [|x l IH]; simpl; [reflexivity | rewrite IH; lia]. Qed.

Lemma reservedIn_nonneg (l : list TicketBooking.t) :
  (forall b, In b l -> TicketBooking.posterId b = pid ->
             0 <= TicketBooking.numberOfPersons b) ->
  0 <= reservedIn l.
Proof.
  induction l as [|x l IH]; simpl; intros H; [lia|].
  assert (0 <= holds x).
  { unfold holds. destruct (TicketBooking.posterId x =? pid) eqn:E; simpl; [|lia].
    destruct (negb _); [|lia]. apply H; [left; reflexivity|].
    apply Z.eqb_eq. exact E. }
  assert (0 <= reservedIn l) by (apply IH; intros b Hb; apply H; right; exact Hb).
  lia.
Qed.

Lemma reservedIn_elsewhere (l : list TicketBooking.t) :
  (forall b, In b l -> TicketBooking.posterId b <> pid) -> reservedIn l = 0.
Proof.
  induction l as [|x l IH]; simpl; intros H; [reflexivity|].
  rewrite IH by (intros b Hb; apply H; right; exact Hb).
  unfold holds. destruct (TicketBooking.posterId x =? pid) eqn:E; simpl; [|lia].
  apply Z.eqb_eq in E. exfalso. apply (H x); [left; reflexivity | exact E].
Qed.

Lemma onTicket_absent (k : Z) (f : TicketBooking.t -> TicketBooking.t)
      (l : list TicketBooking.t) :
  ~ In k (map TicketBooking.id l) -> map (onTicket k f) l = l.
Proof.
  intros H. apply map_id_on. intros r Hr. unfold onTicket.
  destruct (TicketBooking.id r =? k) eqn:E; [|reflexivity].
  apply Z.eqb_eq in E. exfalso. apply H. rewrite <- E. apply in_map. exact Hr.
Qed.

Lemma onTicket_ids (k : Z) (f : TicketBooking.t -> TicketBooking.t)
      (l : list TicketBooking.t) :
  (forall t, TicketBooking.id (f t) = TicketBooking.id t) ->
  map TicketBooking.id (map (onTicket k f) l) = map TicketBooking.id l.
Proof.
  intros Hf. rewrite map_map. apply map_ext. intros t. unfold onTicket.
  destruct (TicketBooking.id t =? k); [apply Hf | reflexivity].
Qed.

(** With distinct ids, a status update touches one booking only. *)
Lemma reservedIn_onTicket (k : Z) (f : TicketBooking.t -> TicketBooking.t)
      (l : list TicketBooking.t) (B : TicketBooking.t) :
  NoDup (map TicketBooking.id l) ->
  find (fun t => TicketBooking.id t =? k) l = Some B ->
  reservedIn (map (onTicket k f) l) = reservedIn l - holds B + holds (f B).
Proof.
  induction l as [|x l IH]; simpl; intros Hnd Hf; [discriminate|].
  inversion Hnd as [|? ? Hx Hl]; subst.
  unfold onTicket at 1. destruct (TicketBooking.id x =? k) eqn:E.
  - injection Hf as <-. apply Z.eqb_eq in E. rewrite <- E.
    rewrite onTicket_absent by exact Hx. lia.
  - rewrite (IH Hl Hf). lia.
Qed.

Lemma keyed_onTicket (k : Z) (f : TicketBooking.t -> TicketBooking.t)
      (t : Table TicketBooking.t) :
  (forall x, TicketBooking.id (f x) = TicketBooking.id x) ->
  keyed t -> keyed (mkTable (map (onTicket k f) (rows t)) (lastId t)).
Proof.
  intros Hf [Hnd Hle]. split; simpl.
  - rewrite onTicket_ids by exact Hf. exact Hnd.
  - intros b Hb. apply in_map_iff in Hb. destruct Hb as (x & <- & Hx).
    unfold onTicket. destruct (TicketBooking.id x =? k);
      [rewrite Hf|]; apply Hle, Hx.
Qed.

Lemma keyed_append (t : Table TicketBooking.t) (v : Z -> TicketBooking.t) :
  (forall i, TicketBooking.id (v i) = i) ->
  keyed t -> keyed (mkTable (rows t ++ [v (lastId t + 1)]) (lastId t + 1)).
Proof.
  intros Hv [Hnd Hle]. split; simpl.
  - rewrite map_app. simpl. rewrite Hv.
    apply NoDup_app. repeat split.
    + exact Hnd.
    + constructor; [intros [] | constructor].
    + intros a Ha [<-|[]]. apply in_map_iff in Ha.
      destruct Ha as (x & Hx & Hin). apply Hle in Hin. lia.
  - intros b Hb. apply in_app_or in Hb. destruct Hb as [Hb|[<-|[]]].
    + apply Hle in Hb. lia.
    + rewrite Hv. lia.
Qed.

Lemma newSeatsLeft_nonneg (x : option JsonInt) (P : Poster.t) :
  0 <= Poster.seatsLeft P -> 0 <= newSeatsLeft x P.
Proof.
  intros H. unfold newSeatsLeft. destruct x as [v|]; [|exact H].
  destruct (truthy_int (Some v) && differs v (Poster.seats P)); [|exact H].
  destruct (Poster.seatsLeft P + (numberOf v - Poster.seats P) <? 0) eqn:E;
    [lia|].
  apply Z.ltb_ge in E. exact E.
Qed.

(** The poster row of [pid] after a write to one poster id. *)
Lemma posterAt_after (s : Store) (k : Z) (f : Poster.t -> Poster.t)
      (T : Table TicketBooking.t) (p : Poster.t) :
  (forall x, Poster.id (f x) = Poster.id x) ->
  posterAt s pid = Some p ->
  posterAt (upd ticketBookings T
              (upd posters (mkTable (map (onPoster k f) (rows (db_posters s)))
                                    (lastId (db_posters s))) s)) pid
  = Some (onPoster k f p).
Proof.
  unfold posterAt, byId. simpl. intros Hf Hp.
  rewrite posterAt_onPoster by exact Hf. rewrite Hp. reflexivity.
Qed.

Lemma InvLo_step (s : Store) (o : Op) :
  personsOk o -> InvLo s -> InvLo (step s o).
Proof.
  intros Hok [(p & Hp & Hlo) Hn]. destruct o as [c b|c k|c k|c k b]; simpl.
  - (* bookTicket *)
    destruct (bookTicket_cases s c b) as [->|(P & Hpr & HP & Hle)];
      [split; eauto|].
    destruct (bookTicket_accepted s c b P Hpr HP Hle) as (_ & -> & _).
    split.
    + unfold posterAt, byId in *. simpl in *.
      rewrite posterAt_onPoster by reflexivity. rewrite Hp. simpl.
      eexists. split; [reflexivity|]. unfold onPoster.
      destruct (Poster.id p =? bk_posterId b) eqn:E; [|exact Hlo].
      simpl. apply Z.eqb_eq in E.
      assert (Poster.id p = pid)
        by (apply find_some in Hp; apply Z.eqb_eq, Hp).
      assert (P = p) by (rewrite <- E, H in HP; congruence).
      subst P. lia.
    + simpl. intros x Hx Hxp. apply in_app_or in Hx.
      destruct Hx as [Hx|[<-|[]]]; [apply Hn; assumption|].
      simpl. exact Hok.
  - (* approveTicket *)
    destruct (approveTicket_cases s c k) as [->|(B & P & Hr & HB & HP & Ho & Hs)];
      [split; eauto|].
    destruct (approveTicket_accepted s c k B P Hr HB HP Ho Hs) as (_ & -> & _).
    split.
    + exists p. split; [exact Hp | exact Hlo].
    + simpl. intros x Hx Hxp. apply in_map_iff in Hx.
      destruct Hx as (y & <- & Hy). revert Hxp. unfold onTicket.
      destruct (TicketBooking.id y =? k); simpl; intros; apply Hn; assumption.
  - (* rejectTicket *)
    destruct (rejectTicket_cases s c k) as [->|(B & P & Hr & HB & HP & Ho & Hs)];
      [split; eauto|].
    destruct (rejectTicket_accepted s c k B P Hr HB HP Ho Hs) as (_ & -> & _).
    split.
    + rewrite (posterAt_after s _ _ _ p) by (reflexivity || exact Hp).
      eexists. split; [reflexivity|]. unfold onPoster.
      destruct (Poster.id p =? TicketBooking.posterId B) eqn:E; [|exact Hlo].
      simpl. apply Z.eqb_eq in E.
      assert (Hid : Poster.id p = pid) by (apply (posterAt_id s), Hp).
      assert (P = p) by (rewrite <- E, Hid in HP; congruence).
      subst P.
      assert (0 <= TicketBooking.numberOfPersons B).
      { apply Hn; [|congruence].
        unfold ticketAt, byId in HB. apply find_some in HB. apply HB. }
      lia.
    + simpl. intros x Hx Hxp. apply in_map_iff in Hx.
      destruct Hx as (y & <- & Hy). revert Hxp. unfold onTicket.
      destruct (TicketBooking.id y =? k); simpl; intros; apply Hn; assumption.
  - (* updatePoster *)
    destruct (updatePoster_cases s c k b) as [->|(P & HP & ->)];
      [split; eauto|].
    split; [|exact Hn].
    unfold posterAt, byId in *. simpl in *.
    rewrite posterAt_onPoster by reflexivity. rewrite Hp. simpl.
    eexists. split; [reflexivity|]. unfold onPoster.
    destruct (Poster.id p =? k) eqn:E; [|exact Hlo].
    simpl. apply Z.eqb_eq in E.
    assert (Poster.id p = pid)
      by (apply find_some in Hp; apply Z.eqb_eq, Hp).
    assert (P = p) by (rewrite <- E, H in HP; congruence).
    subst P. apply newSeatsLeft_nonneg. exact Hlo.
Qed.

Lemma holds_pending (B : TicketBooking.t) :
  TicketBooking.status B = pending ->
  holds B = if TicketBooking.posterId B =? pid
            then TicketBooking.numberOfPersons B else 0.
Proof. intros H. unfold holds. rewrite H. simpl. rewrite andb_true_r. reflexivity. Qed.

Lemma InvHi_step (s : Store) (o : Op) :
  cuts s o = false -> InvHi s -> InvHi (step s o).
Proof.
  intros Hcut [Hkey (p & Hp & Heq)].
  assert (Hid : Poster.id p = pid) by (apply (posterAt_id s), Hp).
  destruct o as [c b|c k|c k|c k b]; simpl.
  - (* bookTicket *)
    destruct (bookTicket_cases s c b) as [->|(P & Hpr & HP & Hle)];
      [split; eauto|].
    destruct (bookTicket_accepted s c b P Hpr HP Hle) as (_ & -> & _).
    split.
    + simpl. apply (keyed_append (db_ticketBookings s) (newBooking c b)).
      * reflexivity.
      * exact Hkey.
    + unfold posterAt, byId in *. simpl in *.
      rewrite posterAt_onPoster by reflexivity. rewrite Hp. simpl.
      eexists. split; [reflexivity|].
      unfold reserved in *. simpl. rewrite reservedIn_app. simpl.
      unfold holds. simpl. unfold onPoster. rewrite Hid.
      rewrite (Z.eqb_sym pid).
      destruct (bk_posterId b =? pid) eqn:E; simpl; [|lia].
      apply Z.eqb_eq in E. rewrite E in HP.
      assert (P = p) by congruence. subst P. lia.
  - (* approveTicket *)
    destruct (approveTicket_cases s c k) as [->|(B & P & Hr & HB & HP & Ho & Hs)];
      [split; eauto|].
    destruct (approveTicket_accepted s c k B P Hr HB HP Ho Hs) as (_ & -> & _).
    split.
    + simpl. apply keyed_onTicket; [reflexivity | exact Hkey].
    + exists p. split; [exact Hp|].
      unfold reserved in *. simpl.
      rewrite (reservedIn_onTicket k _ _ B) by (apply Hkey || exact HB).
      rewrite (holds_pending B Hs). unfold holds. simpl. rewrite andb_true_r.
      lia.
  - (* rejectTicket *)
    destruct (rejectTicket_cases s c k) as [->|(B & P & Hr & HB & HP & Ho & Hs)];
      [split; eauto|].
    destruct (rejectTicket_accepted s c k B P Hr HB HP Ho Hs) as (_ & -> & _).
    split.
    + simpl. apply keyed_onTicket; [reflexivity | exact Hkey].
    + rewrite (posterAt_after s _ _ _ p) by (reflexivity || exact Hp).
      eexists. split; [reflexivity|].
      unfold reserved in *. simpl.
      rewrite (reservedIn_onTicket k _ _ B) by (apply Hkey || exact HB).
      rewrite (holds_pending B Hs). unfold holds. simpl. rewrite andb_false_r.
      unfold onPoster. rewrite Hid. rewrite (Z.eqb_sym pid).
      destruct (TicketBooking.posterId B =? pid) eqn:E; simpl; [|lia].
      apply Z.eqb_eq in E. rewrite E in HP.
      assert (P = p) by congruence. subst P. lia.
  - (* updatePoster *)
    simpl in Hcut. rewrite Hp in Hcut.
    destruct (updatePoster_cases s c k b) as [E|(P & HP & E)];
      simpl in E; rewrite E in *; [split; eauto|].
    split; [exact Hkey|].
    unfold posterAt, byId in Hcut |- *. simpl in Hcut |- *.
    rewrite posterAt_onPoster in Hcut |- * by reflexivity.
    unfold posterAt, byId in Hp. simpl in Hp. rewrite Hp in Hcut |- *.
    simpl in Hcut |- *.
    eexists. split; [reflexivity|].
    unfold reserved in *. simpl. revert Hcut. unfold onPoster. rewrite Hid.
    destruct (pid =? k) eqn:Ek; [|intros _; exact Heq].
    apply Z.eqb_eq in Ek. subst k.
    assert (P = p) by (unfold posterAt, byId in HP; simpl in HP; congruence).
    subst P. simpl. unfold or_int, newSeatsLeft.
    destruct (pp_seats b) as [[z|z]|]; simpl; [| |intros _; exact Heq].
    + destruct (z =? 0) eqn:E0; simpl; [intros _; exact Heq|].
      destruct (z =? Poster.seats p) eqn:E1; simpl;
        [apply Z.eqb_eq in E1; intros _; lia|].
      intros Hcut. apply Z.ltb_ge in Hcut.
      destruct (Poster.seatsLeft p + (z - Poster.seats p) <? 0) eqn:E2.
      * apply Z.ltb_lt in E2. lia.
      * lia.
    + intros Hcut. apply Z.ltb_ge in Hcut.
      destruct (Poster.seatsLeft p + (z - Poster.seats p) <? 0) eqn:E2.
      * apply Z.ltb_lt in E2. lia.
      * lia.
Qed.

Lemma InvLo_run (ops : list Op) (s : Store) :
  Forall personsOk ops -> InvLo s -> InvLo (run s ops).
Proof.
  revert s. induction ops as [|o ops IH]; simpl; intros s Hok Hlo; [exact Hlo|].
  inversion Hok; subst. apply IH; [assumption|]. apply InvLo_step; assumption.
Qed.

Lemma InvHi_run (ops : list Op) (s : Store) :
  neverCuts s ops -> InvHi s -> InvHi (run s ops).
Proof.
  revert s. induction ops as [|o ops IH]; simpl; intros s Hnc Hhi; [exact Hhi|].
  destruct Hnc as [Hc Hnc]. apply IH; [exact Hnc|]. apply InvHi_step; assumption.
Qed.
End SeatBounds.

(** The capacity invariant of the data model, on the stored row. *)
Definition seatsInvariant (pid : Z) (s : Store) : Prop :=
  forall p, posterAt s pid = Some p ->
            0 <= Poster.seatsLeft p <= Poster.seats p.

(** A freshly created poster: [createPoster] stored [seatsLeft = seats], and
    no booking refers to it yet. *)
Definition fresh (pid : Z) (s : Store) : Prop :=
  keyed (db_ticketBookings s) /\
  (forall b, In b (rows (db_ticketBookings s)) -> TicketBooking.posterId b <> pid) /\
  exists p, posterAt s pid = Some p /\
            Poster.seatsLeft p = Poster.seats p /\ 0 <= Poster.seats p.

Lemma createPoster_fresh_row (s : Store) (c : Ctx) (b : NewPoster) :
  let r := handler (createPoster c b) s in
  code (response r) = 201 ->
  exists p, rows (db_posters (store r)) = rows (db_posters s) ++ [p] /\
            Poster.id p = lastId (db_posters s) + 1 /\
            Poster.seats p = np_seats b /\ Poster.seatsLeft p = np_seats b.
Proof.
  unfold createPoster. exec.
  destruct (Role_eqb (urole (user c)) head_admin); simpl; [|discriminate].
  destruct (find _ (rows (db_events s))) as [e|]; simpl; [|discriminate].
  destruct (Event.headId e =? uid (user c)); simpl; [|discriminate].
  replace (existsb (fun _ : Poster.t => false) (rows (db_posters s))) with false
    by (induction (rows (db_posters s)); simpl; auto).
  simpl. intros _. eexists. repeat split.
Qed.

(** Book six of ten seats, shrink the capacity to five, reject the booking. *)
Definition shrinkThenReject : list Op :=
  [ Book (mkCtx student3 10) (mkBooking 1 6 receipt);
    Reseat (mkCtx head7 20) 1 (seatsPatch 5);
    Reject (mkCtx head7 30) 1 ].

(** Book six of ten seats, shrink the capacity to eight, reject the booking. *)
Definition shrinkWithinThenReject : list Op :=
  [ Book (mkCtx student3 10) (mkBooking 1 6 receipt);
    Reseat (mkCtx head7 20) 1 (seatsPatch 8);
    Reject (mkCtx head7 30) 1 ].

Lemma storeWithPoster_fresh :
  fresh 1 (storeWithPoster (mkPoster 1 10 10)).
Proof.
  split; [split; simpl; [constructor | intros b []]|].
  split; [intros b []|].
  exists (mkPoster 1 10 10). repeat split; simpl; lia.
Defined.

(** C1, as stated, fails: from a fresh poster with ten seats, booking six,
    updating [seats] to five (the floor brings [seatsLeft] to 0) and then
    rejecting the booking leaves [seats = 5] and [seatsLeft = 6]. *)
Lemma seats_invariant_broken_by_shrink_then_reject :
  fresh 1 (storeWithPoster (mkPoster 1 10 10)) /\
  Forall personsOk shrinkThenReject /\
  option_map (fun p => (Poster.seats p, Poster.seatsLeft p))
    (posterAt (run (storeWithPoster (mkPoster 1 10 10)) shrinkThenReject) 1)
  = Some (5, 6) /\
  ~ seatsInvariant 1 (run (storeWithPoster (mkPoster 1 10 10)) shrinkThenReject).
Proof.
  split; [exact storeWithPoster_fresh|].
  split; [repeat constructor; simpl; lia|].
  split; [reflexivity|].
  intros H. specialize (H _ eq_refl). simpl in H. lia.
Qed.

(** C1 (amended). From a freshly created poster, after every sequence of
    bookTicket, approveTicket, rejectTicket and updatePoster requests in
    which no booking asks for a negative number of persons, the stored row
    has [0 <= seatsLeft]; and [seatsLeft <= seats] holds as well provided no
    updatePoster of the sequence left the poster with fewer seats than were
    taken at that moment ([seats - seatsLeft]). *)
Theorem seats_bounds_along_sequences (pid : Z) (s0 : Store) (ops : list Op) :
  fresh pid s0 ->
  Forall personsOk ops ->
  exists p, posterAt (run s0 ops) pid = Some p /\
            0 <= Poster.seatsLeft p /\
            (neverCuts pid s0 ops -> Poster.seatsLeft p <= Poster.seats p).
Proof.
  intros (Hkey & Hnone & p0 & Hp0 & Hfull & Hcap) Hok.
  assert (Hlo0 : InvLo pid s0).
  { split; [exists p0; split; [exact Hp0 | lia]|].
    intros b Hb Hpid. exfalso. exact (Hnone b Hb Hpid). }
  assert (Hhi0 : InvHi pid s0).
  { split; [exact Hkey|]. exists p0. split; [exact Hp0|].
    unfold reserved. rewrite (reservedIn_elsewhere pid _ Hnone). lia. }
  destruct (InvLo_run pid ops s0 Hok Hlo0) as [(p & Hp & Hlo) Hn].
  exists p. split; [exact Hp|]. split; [exact Hlo|].
  intros Hnc.
  destruct (InvHi_run pid ops s0 Hnc Hhi0) as [_ (p' & Hp' & Heq)].
  assert (p' = p) by congruence. subst p'.
  pose proof (reservedIn_nonneg pid _ Hn) as Hres.
  unfold reserved in Heq. lia.
Qed.

Lemma seats_bounds_along_sequences_witness :
  fresh 1 (storeWithPoster (mkPoster 1 10 10)) /\
  Forall personsOk shrinkWithinThenReject /\
  neverCuts 1 (storeWithPoster (mkPoster 1 10 10)) shrinkWithinThenReject /\
  exists p,
    posterAt (run (storeWithPoster (mkPoster 1 10 10)) shrinkWithinThenReject) 1
    = Some p /\
    0 <= Poster.seatsLeft p /\
    (neverCuts 1 (storeWithPoster (mkPoster 1 10 10)) shrinkWithinThenReject ->
     Poster.seatsLeft p <= Poster.seats p).
Proof.
  split; [exact storeWithPoster_fresh|].
  split; [repeat constructor; simpl; lia|].
  split; [simpl; repeat split|].
  apply (seats_bounds_along_sequences 1 (storeWithPoster (mkPoster 1 10 10))
           shrinkWithinThenReject).
  - exact storeWithPoster_fresh.
  - repeat constructor; simpl; lia.
Defined.

Example shrinkWithinThenReject_poster :
  option_map (fun p => (Poster.seats p, Poster.seatsLeft p))
    (posterAt (run (storeWithPoster (mkPoster 1 10 10)) shrinkWithinThenReject) 1)
  = Some (8, 8).
Proof. reflexivity. Qed.

(** ** Request approval *)

Lemma find_map_where {R} (key : R -> Z) (k k' : Z) (f : R -> R) (l : list R) :
  (forall r, key (f r) = key r) ->
  find (fun r => key r =? k') (map (fun r => if key r =? k then f r else r) l)
  = option_map (fun r => if key r =? k then f r else r)
               (find (fun r => key r =? k') l).
Proof.
  intros Hf. apply find_map_stable. intros r.
  destruct (key r =? k); [rewrite Hf|]; reflexivity.
Qed.

Lemma existsb_never {R} (l : list R) : existsb (fun _ => false) l = false.
Proof. induction l; simpl; auto. Qed.

(** A club with this name exists: the UNIQUE column of [clubs]. *)
Definition nameTaken (n : string) (s : Store) : bool :=
  existsb (fun o => String.eqb n (Club.name o)) (rows (db_clubs s)).

(** The club row that approval inserts for request [R]. *)
Definition clubOf (R : ClubRequest.t) (now : Z) (i : Z) : Club.t :=
  Club.mk i (ClubRequest.clubName R) (ClubRequest.headId R)
    (ClubRequest.goal R) (ClubRequest.description R) (ClubRequest.financing R)
    (ClubRequest.resources R) (ClubRequest.attractionMethods R) 0 now now.

(** The event row that approval inserts for request [R]. *)
Definition eventOf (R : EventRequest.t) (now : Z) (i : Z) : Event.t :=
  Event.mk i (EventRequest.clubId R) (EventRequest.headId R)
    (EventRequest.eventName R) (EventRequest.eventDate R)
    (EventRequest.location R) (EventRequest.shortDescription R)
    (EventRequest.goal R) (EventRequest.organizers R) (EventRequest.schedule R)
    (EventRequest.sponsorship R) now now.

Definition markClubRequest (k : Z) (st : Status) (now : Z) (s : Store) : Store :=
  upd clubRequests
    (mkTable (map (fun r => if ClubRequest.id r =? k
                            then ClubRequest.set_status st now r else r)
                  (rows (db_clubRequests s)))
             (lastId (db_clubRequests s))) s.

Definition markEventRequest (k : Z) (st : Status) (now : Z) (s : Store) : Store :=
  upd eventRequests
    (mkTable (map (fun r => if EventRequest.id r =? k
                            then EventRequest.set_status st now r else r)
                  (rows (db_eventRequests s)))
             (lastId (db_eventRequests s))) s.

Definition alreadyResolved (st : Status) : Response :=
  mkResponse 400 ("Request already " ++ Status_text st) None.

(** [approveClubRequest] on a pending request: the request is marked first;
    the club insert may be refused, and then nothing is undone. *)
Lemma approveClubRequest_pending (s : Store) (c : Ctx) (k : Z) (R : ClubRequest.t) :
  urole (user c) = super_admin ->
  clubRequestAt s k = Some R ->
  ClubRequest.status R = pending ->
  let r := handler (approveClubRequest c k) s in
  let s1 := markClubRequest k approved (now c) s in
  if nameTaken (ClubRequest.clubName R) s
  then response r = mkResponse 500 "Server error" (Some "UNIQUE constraint failed"%string)
       /\ store r = s1
       /\ journal r = [Update t_clubRequests]
  else response r
       = mkResponse 200 "Club request approved and club created successfully" None
       /\ store r
          = upd users
              (mkTable (map (fun u => if User.id u =? ClubRequest.headId R
                                      then User.set_role head_admin (now c) u
                                      else u)
                            (rows (db_users s)))
                       (lastId (db_users s)))
              (upd clubs
                 (mkTable (rows (db_clubs s)
                           ++ [clubOf R (now c) (lastId (db_clubs s) + 1)])
                          (lastId (db_clubs s) + 1)) s1)
       /\ journal r = [Update t_clubRequests; Insert t_clubs; Update t_users].
Proof.
  unfold clubRequestAt, byId, nameTaken, approveClubRequest. simpl.
  intros Hr Hf Hs. exec. rewrite Hr. simpl. rewrite Hf, Hs. simpl.
  destruct (existsb _ (rows (db_clubs s))); simpl; repeat split.
Qed.

Lemma rejectClubRequest_pending (s : Store) (c : Ctx) (k : Z) (R : ClubRequest.t) :
  urole (user c) = super_admin ->
  clubRequestAt s k = Some R ->
  ClubRequest.status R = pending ->
  let r := handler (rejectClubRequest c k) s in
  response r = mkResponse 200 "Club request rejected" None /\
  store r = markClubRequest k rejected (now c) s /\
  journal r = [Update t_clubRequests].
Proof.
  unfold clubRequestAt, byId, rejectClubRequest. simpl.
  intros Hr Hf Hs. exec. rewrite Hr. simpl. rewrite Hf, Hs. simpl.
  repeat split.
Qed.

Lemma approveEventRequest_pending (s : Store) (c : Ctx) (k : Z) (R : EventRequest.t) :
  urole (user c) = super_admin ->
  eventRequestAt s k = Some R ->
  EventRequest.status R = pending ->
  let r := handler (approveEventRequest c k) s in
  response r
  = mkResponse 200 "Event request approved and event created successfully" None /\
  store r = upd events
              (mkTable (rows (db_events s)
                        ++ [eventOf R (now c) (lastId (db_events s) + 1)])
                       (lastId (db_events s) + 1))
              (markEventRequest k approved (now c) s) /\
  journal r = [Update t_eventRequests; Insert t_events].
Proof.
  unfold eventRequestAt, byId, approveEventRequest. simpl.
  intros Hr Hf Hs. exec. rewrite Hr. simpl. rewrite Hf, Hs. simpl.
  rewrite existsb_never. simpl. repeat split.
Qed.

Lemma rejectEventRequest_pending (s : Store) (c : Ctx) (k : Z) (R : EventRequest.t) :
  urole (user c) = super_admin ->
  eventRequestAt s k = Some R ->
  EventRequest.status R = pending ->
  let r := handler (rejectEventRequest c k) s in
  response r = mkResponse 200 "Event request rejected" None /\
  store r = markEventRequest k rejected (now c) s /\
  journal r = [Update t_eventRequests].
Proof.
  unfold eventRequestAt, byId, rejectEventRequest. simpl.
  intros Hr Hf Hs. exec. rewrite Hr. simpl. rewrite Hf, Hs. simpl.
  repeat split.
Qed.

(** The two decisions a super admin can take on a request. *)
Inductive Verdict := approve | reject.

Definition verdictStatus (v : Verdict) : Status :=
  match v with
  | approve => approved
  | reject => rejected
  end.

Definition clubRequestCall (v : Verdict) : Ctx -> Z -> DB Response :=
  match v with
  | approve => approveClubRequest
  | reject => rejectClubRequest
  end.

Definition eventRequestCall (v : Verdict) : Ctx -> Z -> DB Response :=
  match v with
  | approve => approveEventRequest
  | reject => rejectEventRequest
  end.

(** A call on a request that is no longer pending writes nothing. *)
Lemma clubRequestCall_resolved (v : Verdict) (s : Store) (c : Ctx) (k : Z)
      (R : ClubRequest.t) :
  clubRequestAt s k = Some R ->
  ClubRequest.status R <> pending ->
  let r := handler (clubRequestCall v c k) s in
  store r = s /\ journal r = [] /\
  (urole (user c) = super_admin ->
   response r = alreadyResolved (ClubRequest.status R)).
Proof.
  unfold clubRequestAt, byId. simpl. intros Hf Hs.
  assert (E : Status_eqb (ClubRequest.status R) pending = false).
  { destruct (Status_eqb _ pending) eqn:E; [|reflexivity].
    apply Status_eqb_eq in E. contradiction. }
  destruct v; simpl; unfold approveClubRequest, rejectClubRequest; exec;
    (destruct (Role_eqb (urole (user c)) super_admin) eqn:Er; simpl;
     [ rewrite Hf, E; simpl; repeat split
     | repeat split; intros Hrole; rewrite Hrole in Er; discriminate ]).
Qed.

Lemma eventRequestCall_resolved (v : Verdict) (s : Store) (c : Ctx) (k : Z)
      (R : EventRequest.t) :
  eventRequestAt s k = Some R ->
  EventRequest.status R <> pending ->
  let r := handler (eventRequestCall v c k) s in
  store r = s /\ journal r = [] /\
  (urole (user c) = super_admin ->
   response r = alreadyResolved (EventRequest.status R)).
Proof.
  unfold eventRequestAt, byId. simpl. intros Hf Hs.
  assert (E : Status_eqb (EventRequest.status R) pending = false).
  { destruct (Status_eqb _ pending) eqn:E; [|reflexivity].
    apply Status_eqb_eq in E. contradiction. }
  destruct v; simpl; unfold approveEventRequest, rejectEventRequest; exec;
    (destruct (Role_eqb (urole (user c)) super_admin) eqn:Er; simpl;
     [ rewrite Hf, E; simpl; repeat split
     | repeat split; intros Hrole; rewrite Hrole in Er; discriminate ]).
Qed.

(** Every way a call on a request can end, as far as the request tables
    are concerned. *)
Lemma clubRequestCall_cases (v : Verdict) (s : Store) (c : Ctx) (k : Z) :
  let r := handler (clubRequestCall v c k) s in
  store r = s \/
  exists R, clubRequestAt s k = Some R /\ ClubRequest.status R = pending /\
            db_clubRequests (store r)
            = db_clubRequests (markClubRequest k (verdictStatus v) (now c) s).
Proof.
  simpl.
  destruct (Role_eqb (urole (user c)) super_admin) eqn:Er.
  - apply Role_eqb_eq in Er.
    destruct (clubRequestAt s k) as [R|] eqn:Ef.
    + destruct (Status_eqb (ClubRequest.status R) pending) eqn:Es.
      * apply Status_eqb_eq in Es. right. exists R. repeat split; [exact Es|].
        destruct v; simpl.
        -- pose proof (approveClubRequest_pending s c k R Er Ef Es) as H.
           simpl in H. destruct (nameTaken _ s);
             destruct H as (_ & -> & _); reflexivity.
        -- destruct (rejectClubRequest_pending s c k R Er Ef Es) as (_ & -> & _).
           reflexivity.
      * left. apply (clubRequestCall_resolved v s c k R Ef).
        intros H. apply Status_eqb_eq in H. congruence.
    + left. unfold clubRequestAt, byId in Ef. simpl in Ef.
      destruct v; simpl; unfold approveClubRequest, rejectClubRequest; exec;
        rewrite Er; simpl; rewrite Ef; reflexivity.
  - left. destruct v; simpl; unfold approveClubRequest, rejectClubRequest; exec;
      rewrite Er; reflexivity.
Qed.

Lemma eventRequestCall_cases (v : Verdict) (s : Store) (c : Ctx) (k : Z) :
  let r := handler (eventRequestCall v c k) s in
  store r = s \/
  exists R, eventRequestAt s k = Some R /\ EventRequest.status R = pending /\
            db_eventRequests (store r)
            = db_eventRequests (markEventRequest k (verdictStatus v) (now c) s).
Proof.
  simpl.
  destruct (Role_eqb (urole (user c)) super_admin) eqn:Er.
  - apply Role_eqb_eq in Er.
    destruct (eventRequestAt s k) as [R|] eqn:Ef.
    + destruct (Status_eqb (EventRequest.status R) pending) eqn:Es.
      * apply Status_eqb_eq in Es. right. exists R. repeat split; [exact Es|].
        destruct v; simpl.
        -- destruct (approveEventRequest_pending s c k R Er Ef Es) as (_ & -> & _).
           reflexivity.
        -- destruct (rejectEventRequest_pending s c k R Er Ef Es) as (_ & -> & _).
           reflexivity.
      * left. apply (eventRequestCall_resolved v s c k R Ef).
        intros H. apply Status_eqb_eq in H. congruence.
    + left. unfold eventRequestAt, byId in Ef. simpl in Ef.
      destruct v; simpl; unfold approveEventRequest, rejectEventRequest; exec;
        rewrite Er; simpl; rewrite Ef; reflexivity.
  - left. destruct v; simpl; unfold approveEventRequest, rejectEventRequest; exec;
      rewrite Er; reflexivity.
Qed.

(** A call moves a request's status only from pending, and only to the
    status of the verdict. *)
Lemma clubRequestCall_moves (v : Verdict) (s : Store) (c : Ctx) (k k' : Z)
      (R R' : ClubRequest.t) :
  clubRequestAt s k' = Some R ->
  clubRequestAt (store (handler (clubRequestCall v c k) s)) k' = Some R' ->
  ClubRequest.status R' <> ClubRequest.status R ->
  ClubRequest.status R = pending /\ ClubRequest.status R' = verdictStatus v.
Proof.
  intros Hf Hf' Hne.
  destruct (clubRequestCall_cases v s c k) as [E|(Q & HQ & Hpend & E)].
  - rewrite E in Hf'. congruence.
  - unfold clubRequestAt, byId in *. simpl in *. rewrite E in Hf'.
    unfold markClubRequest in Hf'. simpl in Hf'.
    rewrite (find_map_where ClubRequest.id) in Hf' by reflexivity.
    rewrite Hf in Hf'. simpl in Hf'. injection Hf' as <-.
    destruct (ClubRequest.id R =? k) eqn:Ek; [|contradiction].
    apply Z.eqb_eq in Ek.
    assert (ClubRequest.id R = k')
      by (apply find_some in Hf; apply Z.eqb_eq, Hf).
    assert (Q = R) by (subst; congruence). subst Q.
    split; [exact Hpend | reflexivity].
Qed.

Lemma eventRequestCall_moves (v : Verdict) (s : Store) (c : Ctx) (k k' : Z)
      (R R' : EventRequest.t) :
  eventRequestAt s k' = Some R ->
  eventRequestAt (store (handler (eventRequestCall v c k) s)) k' = Some R' ->
  EventRequest.status R' <> EventRequest.status R ->
  EventRequest.status R = pending /\ EventRequest.status R' = verdictStatus v.
Proof.
  intros Hf Hf' Hne.
  destruct (eventRequestCall_cases v s c k) as [E|(Q & HQ & Hpend & E)].
  - rewrite E in Hf'. congruence.
  - unfold eventRequestAt, byId in *. simpl in *. rewrite E in Hf'.
    unfold markEventRequest in Hf'. simpl in Hf'.
    rewrite (find_map_where EventRequest.id) in Hf' by reflexivity.
    rewrite Hf in Hf'. simpl in Hf'. injection Hf' as <-.
    destruct (EventRequest.id R =? k) eqn:Ek; [|contradiction].
    apply Z.eqb_eq in Ek.
    assert (EventRequest.id R = k')
      by (apply find_some in Hf; apply Z.eqb_eq, Hf).
    assert (Q = R) by (subst; congruence). subst Q.
    split; [exact Hpend | reflexivity].
Qed.

(** C5. A club or event request that is already approved or rejected is
    final: an approve or a reject call on it (either verdict [v]) leaves the
    store as it was and issues no write, and when the caller is a super admin
    the answer is 400 "Request already <status>"; and whatever request a call
    is aimed at, a request's stored status changes only from pending, and
    only to approved (approve) or rejected (reject). *)
Theorem resolved_requests_are_final (v : Verdict) (s : Store) (c : Ctx) (k : Z) :
  (forall R, clubRequestAt s k = Some R -> ClubRequest.status R <> pending ->
     let r := handler (clubRequestCall v c k) s in
     store r = s /\ journal r = [] /\
     (urole (user c) = super_admin ->
      response r = mkResponse 400 ("Request already "
                                   ++ Status_text (ClubRequest.status R)) None)) /\
  (forall R, eventRequestAt s k = Some R -> EventRequest.status R <> pending ->
     let r := handler (eventRequestCall v c k) s in
     store r = s /\ journal r = [] /\
     (urole (user c) = super_admin ->
      response r = mkResponse 400 ("Request already "
                                   ++ Status_text (EventRequest.status R)) None)) /\
  (forall k' R R',
     clubRequestAt s k' = Some R ->
     clubRequestAt (store (handler (clubRequestCall v c k) s)) k' = Some R' ->
     ClubRequest.status R' <> ClubRequest.status R ->
     ClubRequest.status R = pending /\ ClubRequest.status R' = verdictStatus v) /\
  (forall k' R R',
     eventRequestAt s k' = Some R ->
     eventRequestAt (store (handler (eventRequestCall v c k) s)) k' = Some R' ->
     EventRequest.status R' <> EventRequest.status R ->
     EventRequest.status R = pending /\ EventRequest.status R' = verdictStatus v).
Proof.
  split; [|split; [|split]].
  - intros R Hf Hs. apply (clubRequestCall_resolved v s c k R Hf Hs).
  - intros R Hf Hs. apply (eventRequestCall_resolved v s c k R Hf Hs).
  - intros k' R R'. apply clubRequestCall_moves.
  - intros k' R R'. apply eventRequestCall_moves.
Qed.

(** *** A store with requests in every state *)

Definition mkClubRequest (i headId : Z) (clubName : string) (st : Status)
  : ClubRequest.t :=
  ClubRequest.mk i "Application" headId "ann@uni.example" "555" "chat" clubName
    "Play" "A club" "Fees" None "Posters" None st 0 0.

Definition mkClub (i headId : Z) (n : string) : Club.t :=
  Club.mk i n headId "Play" "A club" "Fees" None "Posters" 0 0 0.

Definition mkEventRequest (i clubId headId : Z) (st : Status) : EventRequest.t :=
  EventRequest.mk i clubId headId "Blitz night" "2025-06-01" "Hall" "Games"
    "Fun" "Eve" "19:00 start" None "Eve" "555" None st 0 0.

(** Users 1 (super admin), 3 (student), 9 (head of club 1, "Chess Club").
    Club requests: 1 pending with the taken name "Chess Club", 2 pending with
    the free name "Go Club", 3 approved.  Event requests: 1 rejected,
    2 pending. *)
Definition requestsStore : Store :=
  mkStore
    (mkTable [mkUser 1 "root" super_admin; mkUser 3 "ann" student;
              mkUser 9 "eve" head_admin] 9)
    (mkTable [mkClubRequest 1 3 "Chess Club" pending;
              mkClubRequest 2 3 "Go Club" pending;
              mkClubRequest 3 9 "Chess Club" approved] 3)
    (mkTable [mkClub 1 9 "Chess Club"] 1)
    (mkTable [mkEventRequest 1 1 9 rejected; mkEventRequest 2 1 9 pending] 2)
    emptyTable emptyTable emptyTable emptyTable emptyTable
    emptyTable emptyTable emptyTable.

Lemma resolved_requests_are_final_witness :
  let r := handler (approveClubRequest (mkCtx admin1 40) 3) requestsStore in
  let e := handler (rejectEventRequest (mkCtx admin1 40) 1) requestsStore in
  (store r = requestsStore /\ journal r = [] /\
   response r = mkResponse 400 "Request already approved" None) /\
  (store e = requestsStore /\ journal e = [] /\
   response e = mkResponse 400 "Request already rejected" None).
Proof.
  split.
  - destruct (resolved_requests_are_final approve requestsStore (mkCtx admin1 40) 3)
      as (H & _).
    destruct (H (mkClubRequest 3 9 "Chess Club" approved) eq_refl
                ltac:(discriminate)) as (H1 & H2 & H3).
    split; [exact H1 | split; [exact H2 | exact (H3 eq_refl)]].
  - destruct (resolved_requests_are_final reject requestsStore (mkCtx admin1 40) 1)
      as (_ & H & _).
    destruct (H (mkEventRequest 1 1 9 rejected) eq_refl
                ltac:(discriminate)) as (H1 & H2 & H3).
    split; [exact H1 | split; [exact H2 | exact (H3 eq_refl)]].
Defined.

(** C3, as stated, fails: approving pending request 1, whose club name is
    already taken, is answered 500, yet the request is left approved, no
    club row of the requester exists and the requester is still a student. *)
Lemma approveClubRequest_not_atomic :
  let r := handler (approveClubRequest (mkCtx admin1 40) 1) requestsStore in
  option_map ClubRequest.status (clubRequestAt requestsStore 1) = Some pending /\
  code (response r) = 500 /\
  option_map ClubRequest.status (clubRequestAt (store r) 1) = Some approved /\
  (forall C, In C (rows (db_clubs (store r))) -> Club.headId C <> 3) /\
  option_map User.role (userAt (store r) 3) = Some student.
Proof.
  repeat split. simpl. intros C [<-|[]]. simpl. lia.
Qed.

(** C3 (amended). [approveClubRequest] by a super admin on a pending
    request performs its writes one after the other with nothing undone.
    When no club has the request's [clubName], all three take effect and the
    call answers 200.  When the name is taken, the club insert is refused and
    the call answers 500: no club row is added and no role is changed, but
    the request stays approved. *)
Theorem approveClubRequest_writes_in_sequence
    (s : Store) (c : Ctx) (k : Z) (R : ClubRequest.t) :
  urole (user c) = super_admin ->
  clubRequestAt s k = Some R ->
  ClubRequest.status R = pending ->
  let r := handler (approveClubRequest c k) s in
  clubRequestAt (store r) k = Some (ClubRequest.set_status approved (now c) R) /\
  (nameTaken (ClubRequest.clubName R) s = false ->
     code (response r) = 200 /\
     rows (db_clubs (store r))
       = rows (db_clubs s) ++ [clubOf R (now c) (lastId (db_clubs s) + 1)] /\
     rows (db_users (store r))
       = map (fun u => if User.id u =? ClubRequest.headId R
                       then User.set_role head_admin (now c) u else u)
             (rows (db_users s)) /\
     journal r = [Update t_clubRequests; Insert t_clubs; Update t_users]) /\
  (nameTaken (ClubRequest.clubName R) s = true ->
     code (response r) = 500 /\
     db_clubs (store r) = db_clubs s /\
     db_users (store r) = db_users s /\
     journal r = [Update t_clubRequests]).
Proof.
  intros Hr Hf Hs r.
  pose proof (approveClubRequest_pending s c k R Hr Hf Hs) as H. simpl in H.
  fold r in H.
  assert (Hmark : clubRequestAt (markClubRequest k approved (now c) s) k
                  = Some (ClubRequest.set_status approved (now c) R)).
  { unfold clubRequestAt, byId in *. simpl in *.
    rewrite (find_map_where ClubRequest.id) by reflexivity.
    rewrite Hf. simpl. apply find_some in Hf. destruct Hf as [_ ->].
    reflexivity. }
  destruct (nameTaken (ClubRequest.clubName R) s);
    destruct H as (Hresp & Hst & Hj); rewrite Hresp, Hst, Hj.
  - split; [exact Hmark|]. split; [discriminate|]. intros _. repeat split.
  - split; [exact Hmark|]. split; [|discriminate]. intros _. repeat split.
Qed.

Lemma approveClubRequest_writes_in_sequence_witness :
  let r2 := handler (approveClubRequest (mkCtx admin1 40) 2) requestsStore in
  let r1 := handler (approveClubRequest (mkCtx admin1 40) 1) requestsStore in
  (code (response r2) = 200 /\
   rows (db_clubs (store r2))
     = [mkClub 1 9 "Chess Club";
        clubOf (mkClubRequest 2 3 "Go Club" pending) 40 2] /\
   journal r2 = [Update t_clubRequests; Insert t_clubs; Update t_users]) /\
  (code (response r1) = 500 /\
   db_clubs (store r1) = db_clubs requestsStore /\
   journal r1 = [Update t_clubRequests]).
Proof.
  split.
  - destruct (approveClubRequest_writes_in_sequence requestsStore
                (mkCtx admin1 40) 2 (mkClubRequest 2 3 "Go Club" pending)
                eq_refl eq_refl eq_refl) as (_ & H & _).
    destruct (H eq_refl) as (H1 & H2 & _ & H4).
    split; [exact H1 | split; [exact H2 | exact H4]].
  - destruct (approveClubRequest_writes_in_sequence requestsStore
                (mkCtx admin1 40) 1 (mkClubRequest 1 3 "Chess Club" pending)
                eq_refl eq_refl eq_refl) as (_ & _ & H).
    destruct (H eq_refl) as (H1 & H2 & _ & H4).
    split; [exact H1 | split; [exact H2 | exact H4]].
Defined.

(** C7. When a super admin's [approveClubRequest] on a pending request goes
    through (the call answers 200), the store afterwards has a club row
    whose [name] is the request's [clubName] and whose [headId] is the
    requester, and the requester's user row has role head_admin. *)
Theorem approved_request_creates_club_and_head
    (s : Store) (c : Ctx) (k : Z) (R : ClubRequest.t) (U : User.t) :
  urole (user c) = super_admin ->
  clubRequestAt s k = Some R ->
  ClubRequest.status R = pending ->
  userAt s (ClubRequest.headId R) = Some U ->
  let r := handler (approveClubRequest c k) s in
  code (response r) = 200 ->
  (exists C, In C (rows (db_clubs (store r))) /\
             Club.name C = ClubRequest.clubName R /\
             Club.headId C = ClubRequest.headId R) /\
  (exists U', userAt (store r) (ClubRequest.headId R) = Some U' /\
              User.role U' = head_admin).
Proof.
  intros Hr Hf Hs HU r H200.
  pose proof (approveClubRequest_pending s c k R Hr Hf Hs) as H. simpl in H.
  fold r in H.
  destruct (nameTaken (ClubRequest.clubName R) s);
    destruct H as (Hresp & Hst & _).
  - rewrite Hresp in H200. discriminate.
  - rewrite Hst. split.
    + exists (clubOf R (now c) (lastId (db_clubs s) + 1)). simpl.
      split; [apply in_or_app; right; left; reflexivity|]. split; reflexivity.
    + exists (User.set_role head_admin (now c) U).
      unfold userAt, byId in *. simpl in *.
      rewrite (find_map_where User.id) by reflexivity.
      rewrite HU. simpl. apply find_some in HU. destruct HU as [_ ->].
      split; reflexivity.
Qed.

(** The spec's scenario with the request for "Go Club" by user 3. *)
Lemma approved_request_creates_club_and_head_witness :
  let r := handler (approveClubRequest (mkCtx admin1 40) 2) requestsStore in
  (exists C, In C (rows (db_clubs (store r))) /\
             Club.name C = "Go Club"%string /\ Club.headId C = 3) /\
  (exists U', userAt (store r) 3 = Some U' /\ User.role U' = head_admin).
Proof.
  apply (approved_request_creates_club_and_head requestsStore (mkCtx admin1 40) 2
           (mkClubRequest 2 3 "Go Club" pending) (mkUser 3 "ann" student));
    reflexivity.
Defined.

(** ** deleteClub: the cascade *)

Lemma filter_filter {R} (p q : R -> bool) (l : list R) :
  filter p (filter q l) = filter (fun r => q r && p r) l.
Proof.
  induction l as [|x l IH]; simpl; [reflexivity|].
  destruct (q x); simpl; [destruct (p x)|]; rewrite IH; reflexivity.
Qed.

(** The bookings of poster list [ps], and the likes of post list [ps]. *)
Definition bookedOn (ps : list Poster.t) (t : TicketBooking.t) : bool :=
  existsb (fun poster => TicketBooking.posterId t =? Poster.id poster) ps.

Definition likeOf (ps : list Post.t) (l : PostLike.t) : bool :=
  existsb (fun post => PostLike.postId l =? Post.id post) ps.

(** The first loop of [deleteClub]: one DELETE per poster. *)
Lemma forEach_delete_bookings (ps : list Poster.t) (s : Store) :
  forEach ps (fun poster =>
    delete ticketBookings
      (fun t => TicketBooking.posterId t =? Poster.id poster)) s
  = (Done tt,
     upd ticketBookings
       (mkTable (filter (fun t => negb (bookedOn ps t))
                        (rows (db_ticketBookings s)))
                (lastId (db_ticketBookings s))) s,
     repeat (Delete t_ticketBookings) (List.length ps)).
Proof.
  revert s. induction ps as [|x ps IH]; intros s.
  - simpl. unfold ret. f_equal. f_equal.
    destruct s as [u cr cl er ev po [rs li] pt pl cs ec rt]. simpl.
    rewrite filter_all by reflexivity. reflexivity.
  - simpl. unfold bind at 1. unfold delete at 1. simpl. rewrite IH. simpl.
    rewrite filter_filter. f_equal. f_equal. f_equal. f_equal.
    apply filter_ext. intros t. rewrite negb_orb. reflexivity.
Qed.

(** The second loop of [deleteClub]: one DELETE per post. *)
Lemma forEach_delete_likes (ps : list Post.t) (s : Store) :
  forEach ps (fun post =>
    delete postLikes (fun l => PostLike.postId l =? Post.id post)) s
  = (Done tt,
     upd postLikes
       (mkTable (filter (fun l => negb (likeOf ps l)) (rows (db_postLikes s)))
                (lastId (db_postLikes s))) s,
     repeat (Delete t_postLikes) (List.length ps)).
Proof.
  revert s. induction ps as [|x ps IH]; intros s.
  - simpl. unfold ret. f_equal. f_equal.
    destruct s as [u cr cl er ev po tb pt [rs li] cs ec rt]. simpl.
    rewrite filter_all by reflexivity. reflexivity.
  - simpl. unfold bind at 1. unfold delete at 1. simpl. rewrite IH. simpl.
    rewrite filter_filter. f_equal. f_equal. f_equal. f_equal.
    apply filter_ext. intros t. rewrite negb_orb. reflexivity.
Qed.

Definition clubAt (s : Store) (k : Z) : option Club.t := byId clubs k s.

(** The posters and posts of a club, as [deleteClub] selects them. *)
Definition postersOf (clubId : Z) (s : Store) : list Poster.t :=
  filter (fun p => Poster.clubId p =? clubId) (rows (db_posters s)).

Definition postsOf (clubId : Z) (s : Store) : list Post.t :=
  filter (fun p => clubIs clubId (Post.clubId p)) (rows (db_posts s)).

(** The statements of the cascade, in the order they are issued. *)
Definition cascade (clubId : Z) (s : Store) : list Stmt :=
  repeat (Delete t_ticketBookings) (List.length (postersOf clubId s))
  ++ repeat (Delete t_postLikes) (List.length (postsOf clubId s))
  ++ [Delete t_posts; Delete t_posters; Delete t_events;
      Delete t_eventRequests; Update t_users; Delete t_clubs].

(** The store when the cascade reaches the club's events: the bookings on
    its posters, the likes of its posts, its posts and its posters are
    gone. *)
Definition withoutPosters (clubId : Z) (s : Store) : Store :=
  mkStore
    (db_users s) (db_clubRequests s) (db_clubs s) (db_eventRequests s)
    (db_events s)
    (mkTable (filter (fun p => negb (Poster.clubId p =? clubId)) (rows (db_posters s)))
             (lastId (db_posters s)))
    (mkTable (filter (fun t => negb (bookedOn (postersOf clubId s) t))
                     (rows (db_ticketBookings s)))
             (lastId (db_ticketBookings s)))
    (mkTable (filter (fun p => negb (clubIs clubId (Post.clubId p)))
                     (rows (db_posts s)))
             (lastId (db_posts s)))
    (mkTable (filter (fun l => negb (likeOf (postsOf clubId s) l))
                     (rows (db_postLikes s)))
             (lastId (db_postLikes s)))
    (db_clubSubscriptions s) (db_eventComments s) (db_clubRatings s).

(** The store when the cascade reaches the club row: its events and event
    requests are gone as well, and the head is a student again. *)
Definition withoutEvents (clubId : Z) (K : Club.t) (now : Z) (s : Store) : Store :=
  mkStore
    (mkTable (map (fun u => if User.id u =? Club.headId K
                            then User.set_role student now u else u)
                  (rows (db_users s)))
             (lastId (db_users s)))
    (db_clubRequests s)
    (db_clubs s)
    (mkTable (filter (fun q => negb (EventRequest.clubId q =? clubId))
                     (rows (db_eventRequests s)))
             (lastId (db_eventRequests s)))
    (mkTable (filter (fun e => negb (Event.clubId e =? clubId)) (rows (db_events s)))
             (lastId (db_events s)))
    (mkTable (filter (fun p => negb (Poster.clubId p =? clubId)) (rows (db_posters s)))
             (lastId (db_posters s)))
    (mkTable (filter (fun t => negb (bookedOn (postersOf clubId s) t))
                     (rows (db_ticketBookings s)))
             (lastId (db_ticketBookings s)))
    (mkTable (filter (fun p => negb (clubIs clubId (Post.clubId p)))
                     (rows (db_posts s)))
             (lastId (db_posts s)))
    (mkTable (filter (fun l => negb (likeOf (postsOf clubId s) l))
                     (rows (db_postLikes s)))
             (lastId (db_postLikes s)))
    (db_clubSubscriptions s) (db_eventComments s) (db_clubRatings s).

(** The store that the completed cascade leaves. *)
Definition withoutClub (clubId : Z) (K : Club.t) (now : Z) (s : Store) : Store :=
  mkStore
    (mkTable (map (fun u => if User.id u =? Club.headId K
                            then User.set_role student now u else u)
                  (rows (db_users s)))
             (lastId (db_users s)))
    (db_clubRequests s)
    (mkTable (filter (fun k => negb (Club.id k =? clubId)) (rows (db_clubs s)))
             (lastId (db_clubs s)))
    (mkTable (filter (fun q => negb (EventRequest.clubId q =? clubId))
                     (rows (db_eventRequests s)))
             (lastId (db_eventRequests s)))
    (mkTable (filter (fun e => negb (Event.clubId e =? clubId)) (rows (db_events s)))
             (lastId (db_events s)))
    (mkTable (filter (fun p => negb (Poster.clubId p =? clubId)) (rows (db_posters s)))
             (lastId (db_posters s)))
    (mkTable (filter (fun t => negb (bookedOn (postersOf clubId s) t))
                     (rows (db_ticketBookings s)))
             (lastId (db_ticketBookings s)))
    (mkTable (filter (fun p => negb (clubIs clubId (Post.clubId p)))
                     (rows (db_posts s)))
             (lastId (db_posts s)))
    (mkTable (filter (fun l => negb (likeOf (postsOf clubId s) l))
                     (rows (db_postLikes s)))
             (lastId (db_postLikes s)))
    (db_clubSubscriptions s) (db_eventComments s) (db_clubRatings s).

(** What the cascade does not clear.  An event of the club is still referred
    to by a comment, or by a poster filed under another club; the club is
    still referred to by a subscription or a rating. *)
Definition eventsInUse (clubId : Z) (s : Store) : bool :=
  existsb (fun e =>
             existsb (fun p => negb (Poster.clubId p =? clubId)
                               && (Poster.eventId p =? Event.id e))
                     (rows (db_posters s))
             || names (db_eventComments s) EventComment.eventId (Event.id e))
          (filter (fun e => Event.clubId e =? clubId) (rows (db_events s))).

Definition clubInUse (clubId : Z) (s : Store) : bool :=
  names (db_clubSubscriptions s) ClubSubscription.clubId clubId
  || names (db_clubRatings s) ClubRating.clubId clubId.

Lemma delete_done {R} (h : Handle R) (p : R -> bool) (s : Store) :
  inUse h p s = false ->
  delete h p s
  = (Done tt,
     upd h (mkTable (filter (fun r => negb (p r)) (rows (sel h s)))
                    (lastId (sel h s))) s,
     [Delete (tname h)]).
Proof. intros H. unfold delete. rewrite H. reflexivity. Qed.

Lemma delete_refused {R} (h : Handle R) (p : R -> bool) (s : Store) :
  inUse h p s = true ->
  delete h p s = (Thrown "FOREIGN KEY constraint failed", s, []).
Proof. intros H. unfold delete. rewrite H. reflexivity. Qed.

Section Cleared.
Context {A B : Type}.
Variable rel : B -> A -> bool.

(** Once the rows of [L] that refer to a row of [ps] are deleted, no row of
    [ps] is referred to. *)
Lemma cleared (ps : list A) (L : list B) :
  existsb (fun r => existsb (fun l => rel l r)
                            (filter (fun l => negb (existsb (rel l) ps)) L))
          ps = false.
Proof.
  destruct (existsb _ ps) eqn:E; [|reflexivity]. exfalso.
  apply existsb_exists in E. destruct E as (r & Hr & E).
  apply existsb_exists in E. destruct E as (l & Hl & E).
  apply filter_In in Hl. destruct Hl as [_ Hl].
  apply negb_true_iff in Hl.
  assert (existsb (rel l) ps = true) by (apply existsb_exists; eauto).
  congruence.
Qed.
End Cleared.

Lemma existsb_filter {R} (f q : R -> bool) (l : list R) :
  existsb f (filter q l) = existsb (fun x => q x && f x) l.
Proof.
  induction l as [|x l IH]; simpl; [reflexivity|].
  destruct (q x); simpl; rewrite IH; reflexivity.
Qed.

Lemma existsb_same {R} (f g : R -> bool) (l : list R) :
  (forall x, In x l -> f x = g x) -> existsb f l = existsb g l.
Proof.
  induction l as [|x l IH]; simpl; intros H; [reflexivity|].
  rewrite (H x) by (left; reflexivity). f_equal. apply IH.
  intros y Hy. apply H. right. exact Hy.
Qed.

(** No row of a table filtered on [col <> k] carries [k] in [col]. *)
Lemma names_filtered {C} (col : C -> Z) (k : Z) (l : list C) (n : Z) :
  names (mkTable (filter (fun r => negb (col r =? k)) l) n) col k = false.
Proof.
  unfold names. simpl. rewrite existsb_filter.
  rewrite (existsb_same _ (fun _ => false)); [apply existsb_never|].
  intros x _. destruct (col x =? k); reflexivity.
Qed.

Lemma posts_filtered (k : Z) (l : list Post.t) :
  existsb (fun p => clubIs k (Post.clubId p))
          (filter (fun p => negb (clubIs k (Post.clubId p))) l) = false.
Proof.
  rewrite existsb_filter.
  rewrite (existsb_same _ (fun _ => false)); [apply existsb_never|].
  intros x _. destruct (clubIs k (Post.clubId x)); reflexivity.
Qed.

Lemma events_inUse (clubId : Z) (s : Store) :
  inUse events (fun e => Event.clubId e =? clubId) (withoutPosters clubId s)
  = eventsInUse clubId s.
Proof.
  unfold inUse, eventsInUse. simpl. apply existsb_same. intros e _.
  unfold names at 1. simpl. rewrite existsb_filter. reflexivity.
Qed.

Lemma club_inUse (clubId : Z) (K : Club.t) (now : Z) (s : Store) :
  clubAt s clubId = Some K ->
  inUse clubs (fun k => Club.id k =? clubId) (withoutEvents clubId K now s)
  = clubInUse clubId s.
Proof.
  unfold clubAt, byId. simpl. intros Hf.
  unfold inUse, clubInUse. simpl.
  rewrite existsb_filter.
  rewrite (existsb_same _
             (fun k => (Club.id k =? clubId)
                       && (names (db_clubSubscriptions s) ClubSubscription.clubId clubId
                           || names (db_clubRatings s) ClubRating.clubId clubId))).
  - destruct (names (db_clubSubscriptions s) ClubSubscription.clubId clubId
              || names (db_clubRatings s) ClubRating.clubId clubId).
    + apply existsb_exists. apply find_some in Hf. destruct Hf as [Hin Hid].
      exists K. split; [exact Hin|]. rewrite Hid. reflexivity.
    + rewrite (existsb_same _ (fun _ => false)); [apply existsb_never|].
      intros x _. apply andb_false_r.
  - intros k _. destruct (Club.id k =? clubId) eqn:E; [|reflexivity].
    apply Z.eqb_eq in E. rewrite E. simpl.
    rewrite !names_filtered, posts_filtered. reflexivity.
Qed.

(** The three ways a super admin's [deleteClub] of an existing club ends. *)
Lemma deleteClub_run (s : Store) (c : Ctx) (clubId : Z) (K : Club.t) :
  urole (user c) = super_admin ->
  clubAt s clubId = Some K ->
  handler (deleteClub c clubId) s
  = if eventsInUse clubId s
    then (mkResponse 500 "Server error" (Some "FOREIGN KEY constraint failed"%string),
          withoutPosters clubId s,
          repeat (Delete t_ticketBookings) (List.length (postersOf clubId s))
          ++ repeat (Delete t_postLikes) (List.length (postsOf clubId s))
          ++ [Delete t_posts; Delete t_posters])
    else if clubInUse clubId s
    then (mkResponse 500 "Server error" (Some "FOREIGN KEY constraint failed"%string),
          withoutEvents clubId K (now c) s,
          repeat (Delete t_ticketBookings) (List.length (postersOf clubId s))
          ++ repeat (Delete t_postLikes) (List.length (postsOf clubId s))
          ++ [Delete t_posts; Delete t_posters; Delete t_events;
              Delete t_eventRequests; Update t_users])
    else (mkResponse 200
            "Club deleted successfully and head admin role reset to student" None,
          withoutClub clubId K (now c) s,
          cascade clubId s).
Proof.
  intros Hr Hf. pose proof Hf as Hf'. unfold clubAt, byId in Hf'. simpl in Hf'.
  unfold deleteClub. rewrite Hr. simpl.
  unfold handler, bind at 1, get at 1. simpl. rewrite Hf'.
  unfold bind at 1, all at 1. simpl.
  unfold bind at 1. rewrite forEach_delete_bookings.
  unfold bind at 1, all at 1. simpl.
  unfold bind at 1. rewrite forEach_delete_likes.
  unfold bind at 1. rewrite delete_done by apply cleared.
  unfold bind at 1. rewrite delete_done by apply cleared.
  unfold bind at 1.
  match goal with |- context [delete events ?p ?st] =>
    change st with (withoutPosters clubId s) end.
  destruct (eventsInUse clubId s) eqn:Ee.
  - rewrite delete_refused by (rewrite events_inUse; exact Ee).
    simpl. unfold postersOf, postsOf. reflexivity.
  - rewrite delete_done by (rewrite events_inUse; exact Ee).
    unfold bind at 1. rewrite delete_done by reflexivity.
    unfold bind at 1, update at 1.
    unfold bind at 1.
    match goal with |- context [delete clubs ?p ?st] =>
      change st with (withoutEvents clubId K (now c) s) end.
    destruct (clubInUse clubId s) eqn:Ec.
    + rewrite delete_refused by (rewrite (club_inUse _ K) by exact Hf; exact Ec).
      simpl. unfold postersOf, postsOf. reflexivity.
    + rewrite delete_done by (rewrite (club_inUse _ K) by exact Hf; exact Ec).
      simpl. unfold cascade, postersOf, postsOf. reflexivity.
Qed.



(** An accepted [deleteClub]: the answer 200 is given only when nothing was
    left referring to the club or its events, and then the whole cascade has
    run. *)
Lemma deleteClub_accepted (s : Store) (c : Ctx) (clubId : Z) (K : Club.t) :
  urole (user c) = super_admin ->
  clubAt s clubId = Some K ->
  code (response (handler (deleteClub c clubId) s)) = 200 ->
  eventsInUse clubId s = false /\ clubInUse clubId s = false /\
  handler (deleteClub c clubId) s
  = (mkResponse 200
       "Club deleted successfully and head admin role reset to student" None,
     withoutClub clubId K (now c) s,
     cascade clubId s).
Proof.
  intros Hr Hf. rewrite (deleteClub_run s c clubId K Hr Hf).
  destruct (eventsInUse clubId s); [discriminate|].
  destruct (clubInUse clubId s); [discriminate|].
  repeat split.
Qed.

(** A refused one: the club row is still there. *)
Lemma deleteClub_blocked (s : Store) (c : Ctx) (clubId : Z) (K : Club.t) :
  urole (user c) = super_admin ->
  clubAt s clubId = Some K ->
  code (response (handler (deleteClub c clubId) s)) <> 200 ->
  code (response (handler (deleteClub c clubId) s)) = 500 /\
  db_clubs (store (handler (deleteClub c clubId) s)) = db_clubs s.
Proof.
  intros Hr Hf. rewrite (deleteClub_run s c clubId K Hr Hf).
  destruct (eventsInUse clubId s); [repeat split|].
  destruct (clubInUse clubId s); [repeat split|].
  intros H. contradiction H. reflexivity.
Qed.

(** *** A campus with two clubs *)

Definition mkPosterOf (i clubId headId seats seatsLeft : Z) : Poster.t :=
  Poster.mk i clubId clubId headId "Open day" "2025-05-01" "Hall" "18:00"
            "Welcome" seats seatsLeft 100 None 0 0.

Definition mkEvent (i clubId headId : Z) : Event.t :=
  Event.mk i clubId headId "Blitz night" "2025-06-01" "Hall" "Games" "Fun"
           "Eve" "19:00 start" None 0 0.

Definition mkTicket (i posterId userId n : Z) (st : Status) : TicketBooking.t :=
  TicketBooking.mk i posterId userId n receipt st 0 0.

Definition mkPost (i : Z) (clubId : option Z) (userId likes : Z) : Post.t :=
  Post.mk i clubId userId "News" "Hello" None likes 0 0.

(** Club 1 "Chess Club" (head 7) and club 2 "Go Club" (head 9), each with
    event, event request, poster and post of the same number; user 3 booked
    on both posters and likes posts 1 and 2; post 3 belongs to no club and
    is liked by user 7. *)
Definition campusStore : Store :=
  mkStore
    (mkTable [mkUser 1 "root" super_admin; mkUser 3 "ann" student;
              mkUser 7 "bob" head_admin; mkUser 9 "eve" head_admin] 9)
    (mkTable [mkClubRequest 1 7 "Chess Club" approved;
              mkClubRequest 2 9 "Go Club" approved] 2)
    (mkTable [mkClub 1 7 "Chess Club"; mkClub 2 9 "Go Club"] 2)
    (mkTable [mkEventRequest 1 1 7 approved; mkEventRequest 2 2 9 pending] 2)
    (mkTable [mkEvent 1 1 7; mkEvent 2 2 9] 2)
    (mkTable [mkPosterOf 1 1 7 10 8; mkPosterOf 2 2 9 20 19] 2)
    (mkTable [mkTicket 1 1 3 2 pending; mkTicket 2 2 3 1 approved] 2)
    (mkTable [mkPost 1 (Some 1) 7 1; mkPost 2 (Some 2) 9 1; mkPost 3 None 3 1] 3)
    (mkTable [PostLike.mk 1 1 3 0; PostLike.mk 2 2 3 0; PostLike.mk 3 3 7 0] 3)
    emptyTable emptyTable emptyTable.

(** The same campus where student 3 has rated club 1, and where student 3
    has commented on event 1. *)
Definition ratedCampus : Store :=
  upd clubRatings (mkTable [ClubRating.mk 1 1 3 5 None 0 0] 1) campusStore.



(** What is left of [ratedCampus] when the delete of club 1 is refused at
    the last statement: the club, without its events and event requests, and
    with a head who is a student again. *)
Example deleteClub_refused_leaves_half_a_club :
  let r := handler (deleteClub (mkCtx admin1 90) 1) ratedCampus in
  journal r = [Delete t_ticketBookings; Delete t_postLikes; Delete t_posts;
               Delete t_posters; Delete t_events; Delete t_eventRequests;
               Update t_users] /\
  rows (db_clubs (store r)) = [mkClub 1 7 "Chess Club"; mkClub 2 9 "Go Club"] /\
  rows (db_events (store r)) = [mkEvent 2 2 9] /\
  option_map User.role (userAt (store r) 7) = Some student.
Proof. repeat split. Qed.

(** ** toggleLikePost *)

(** The like rows of one user on one post. *)
Definition likeBy (postId userId : Z) (l : PostLike.t) : bool :=
  (PostLike.postId l =? postId) && (PostLike.userId l =? userId).

Definition setLikes (postId n now : Z) (q : Post.t) : Post.t :=
  if Post.id q =? postId then Post.set_likes n now q else q.

Lemma find_filter_negb {R} (p : R -> bool) (l : list R) :
  find p (filter (fun r => negb (p r)) l) = None.
Proof.
  induction l as [|x l IH]; simpl; [reflexivity|].
  destruct (p x) eqn:E; simpl; [exact IH | rewrite E; exact IH].
Qed.

(** First branch: no like yet, one is inserted and the counter goes up. *)
Lemma toggleLikePost_likes (s : Store) (c : Ctx) (postId : Z) (p : Post.t) :
  postAt s postId = Some p ->
  find (likeBy postId (uid (user c))) (rows (db_postLikes s)) = None ->
  handler (toggleLikePost c postId) s
  = (mkResponse 200 "Post liked successfully" None,
     upd posts
       (mkTable (map (setLikes postId (Post.likes p + 1) (now c))
                     (rows (db_posts s)))
                (lastId (db_posts s)))
       (upd postLikes
          (mkTable (rows (db_postLikes s)
                    ++ [PostLike.mk (lastId (db_postLikes s) + 1) postId
                                    (uid (user c)) (now c)])
                   (lastId (db_postLikes s) + 1)) s),
     [Insert t_postLikes; Update t_posts]).
Proof.
  unfold postAt, byId, likeBy, toggleLikePost. simpl. intros Hp Hl.
  exec. rewrite Hp, Hl. rewrite existsb_never. reflexivity.
Qed.

(** Second branch: the user's like rows are deleted, the counter goes down. *)
Lemma toggleLikePost_unlikes (s : Store) (c : Ctx) (postId : Z) (p : Post.t)
      (l : PostLike.t) :
  postAt s postId = Some p ->
  find (likeBy postId (uid (user c))) (rows (db_postLikes s)) = Some l ->
  handler (toggleLikePost c postId) s
  = (mkResponse 200 "Post unliked successfully" None,
     upd posts
       (mkTable (map (setLikes postId (Post.likes p - 1) (now c))
                     (rows (db_posts s)))
                (lastId (db_posts s)))
       (upd postLikes
          (mkTable (filter (fun x => negb (likeBy postId (uid (user c)) x))
                           (rows (db_postLikes s)))
                   (lastId (db_postLikes s))) s),
     [Delete t_postLikes; Update t_posts]).
Proof.
  unfold postAt, byId, likeBy, toggleLikePost. simpl. intros Hp Hl.
  exec. rewrite Hp, Hl. reflexivity.
Qed.

Lemma setLikes_twice (postId n m now1 now2 : Z) (l : list Post.t) :
  map (setLikes postId m now2) (map (setLikes postId n now1) l)
  = map (setLikes postId m now2) l.
Proof.
  rewrite map_map. apply map_ext. intros q. unfold setLikes.
  destruct (Post.id q =? postId) eqn:E; simpl; rewrite E; reflexivity.
Qed.

Lemma postAt_setLikes (s : Store) (T : Table PostLike.t) (postId n now : Z)
      (p : Post.t) :
  postAt s postId = Some p ->
  postAt (upd posts (mkTable (map (setLikes postId n now) (rows (db_posts s)))
                             (lastId (db_posts s)))
                    (upd postLikes T s)) postId
  = Some (Post.set_likes n now p).
Proof.
  unfold postAt, byId. simpl. intros Hp. unfold setLikes.
  rewrite (find_map_where Post.id) by reflexivity. rewrite Hp. simpl.
  apply find_some in Hp. destruct Hp as [_ ->]. reflexivity.
Qed.

(** Two successive toggles by the same user on the same post. *)
Lemma toggleLikePost_twice_from_unliked
      (s : Store) (c1 c2 : Ctx) (postId : Z) (p : Post.t) :
  uid (user c2) = uid (user c1) ->
  postAt s postId = Some p ->
  find (likeBy postId (uid (user c1))) (rows (db_postLikes s)) = None ->
  let r1 := handler (toggleLikePost c1 postId) s in
  handler (toggleLikePost c2 postId) (store r1)
  = (mkResponse 200 "Post unliked successfully" None,
     upd posts
       (mkTable (map (setLikes postId (Post.likes p) (now c2)) (rows (db_posts s)))
                (lastId (db_posts s)))
       (upd postLikes
          (mkTable (rows (db_postLikes s)) (lastId (db_postLikes s) + 1)) s),
     [Delete t_postLikes; Update t_posts]).
Proof.
  intros Hu Hp Hl r1. subst r1.
  rewrite (toggleLikePost_likes s c1 postId p Hp Hl). unfold store. simpl fst. simpl snd.
  set (new := PostLike.mk (lastId (db_postLikes s) + 1) postId (uid (user c1)) (now c1)).
  rewrite (toggleLikePost_unlikes _ c2 postId
             (Post.set_likes (Post.likes p + 1) (now c1) p) new).
  - simpl. rewrite setLikes_twice. rewrite filter_app. simpl.
    rewrite Hu. unfold likeBy at 2. simpl. rewrite !Z.eqb_refl. simpl.
    rewrite app_nil_r.
    rewrite filter_all.
    + replace (Post.likes p + 1 - 1) with (Post.likes p) by lia. reflexivity.
    + intros x Hx. rewrite (proj1 (find_none_forall _ _) Hl x Hx). reflexivity.
  - apply postAt_setLikes. exact Hp.
  - simpl. rewrite Hu. rewrite (find_app_none _ _ _ Hl). simpl.
    unfold likeBy. simpl. rewrite !Z.eqb_refl. reflexivity.
Qed.

Lemma toggleLikePost_twice_from_liked
      (s : Store) (c1 c2 : Ctx) (postId : Z) (p : Post.t) (l : PostLike.t) :
  uid (user c2) = uid (user c1) ->
  postAt s postId = Some p ->
  find (likeBy postId (uid (user c1))) (rows (db_postLikes s)) = Some l ->
  let r1 := handler (toggleLikePost c1 postId) s in
  handler (toggleLikePost c2 postId) (store r1)
  = (mkResponse 200 "Post liked successfully" None,
     upd posts
       (mkTable (map (setLikes postId (Post.likes p) (now c2)) (rows (db_posts s)))
                (lastId (db_posts s)))
       (upd postLikes
          (mkTable (filter (fun x => negb (likeBy postId (uid (user c1)) x))
                           (rows (db_postLikes s))
                    ++ [PostLike.mk (lastId (db_postLikes s) + 1) postId
                                    (uid (user c1)) (now c2)])
                   (lastId (db_postLikes s) + 1)) s),
     [Insert t_postLikes; Update t_posts]).
Proof.
  intros Hu Hp Hl r1. subst r1.
  rewrite (toggleLikePost_unlikes s c1 postId p l Hp Hl). unfold store. simpl fst. simpl snd.
  rewrite (toggleLikePost_likes _ c2 postId
             (Post.set_likes (Post.likes p - 1) (now c1) p)).
  - simpl. rewrite setLikes_twice. rewrite Hu.
    replace (Post.likes p - 1 + 1) with (Post.likes p) by lia. reflexivity.
  - apply postAt_setLikes. exact Hp.
  - simpl. rewrite Hu. apply find_filter_negb.
Qed.

(** C9, as stated, fails: user 3 already likes post 1; after two toggles
    the counter is back at 1, but the like row with id 1 is gone and a row
    with id 4 stands in its place, and the post row carries a new
    [updatedAt]: the store is not the one the calls started from. *)
Lemma toggleLikePost_twice_not_identity :
  let r1 := handler (toggleLikePost (mkCtx student3 50) 1) campusStore in
  let r2 := handler (toggleLikePost (mkCtx student3 60) 1) (store r1) in
  postAt campusStore 1 = Some (mkPost 1 (Some 1) 7 1) /\
  rows (db_postLikes campusStore)
    = [PostLike.mk 1 1 3 0; PostLike.mk 2 2 3 0; PostLike.mk 3 3 7 0] /\
  rows (db_postLikes (store r2))
    = [PostLike.mk 2 2 3 0; PostLike.mk 3 3 7 0; PostLike.mk 4 1 3 60] /\
  postAt (store r2) 1 = Some (Post.set_likes 1 60 (mkPost 1 (Some 1) 7 1)) /\
  rows (db_postLikes (store r2)) <> rows (db_postLikes campusStore) /\
  rows (db_posts (store r2)) <> rows (db_posts campusStore).
Proof.
  repeat split; simpl; discriminate.
Qed.

(** C9 (amended). For every user and every existing post, two successive
    [toggleLikePost] calls by that user on that post both answer 200 and
    return the post's [likes] counter to its original value; the post row
    differs from the original one in [updatedAt] only, and no table other
    than posts and post likes is written.  When the user had no like row on
    the post, the second call removes the row created by the first and the
    like rows are the original ones.  When the user had one, the first call
    removes it and the second inserts a new row for the same user and post,
    with a new id. *)
Theorem toggleLikePost_twice_restores_counter
    (s : Store) (c1 c2 : Ctx) (postId : Z) (p : Post.t) :
  uid (user c2) = uid (user c1) ->
  postAt s postId = Some p ->
  let r1 := handler (toggleLikePost c1 postId) s in
  let r2 := handler (toggleLikePost c2 postId) (store r1) in
  let mine := likeBy postId (uid (user c1)) in
  code (response r1) = 200 /\ code (response r2) = 200 /\
  postAt (store r2) postId = Some (Post.set_likes (Post.likes p) (now c2) p) /\
  rows (db_posts (store r2))
    = map (setLikes postId (Post.likes p) (now c2)) (rows (db_posts s)) /\
  (find mine (rows (db_postLikes s)) = None ->
     rows (db_postLikes (store r1))
       = rows (db_postLikes s)
         ++ [PostLike.mk (lastId (db_postLikes s) + 1) postId (uid (user c1))
                         (now c1)] /\
     rows (db_postLikes (store r2)) = rows (db_postLikes s)) /\
  (find mine (rows (db_postLikes s)) <> None ->
     rows (db_postLikes (store r1))
       = filter (fun l => negb (mine l)) (rows (db_postLikes s)) /\
     rows (db_postLikes (store r2))
       = filter (fun l => negb (mine l)) (rows (db_postLikes s))
         ++ [PostLike.mk (lastId (db_postLikes s) + 1) postId (uid (user c1))
                         (now c2)]) /\
  db_users (store r2) = db_users s /\
  db_clubRequests (store r2) = db_clubRequests s /\
  db_clubs (store r2) = db_clubs s /\
  db_eventRequests (store r2) = db_eventRequests s /\
  db_events (store r2) = db_events s /\
  db_posters (store r2) = db_posters s /\
  db_ticketBookings (store r2) = db_ticketBookings s.
Proof.
  intros Hu Hp r1 r2 mine.
  destruct (find mine (rows (db_postLikes s))) as [l|] eqn:Hl; subst mine.
  - pose proof (toggleLikePost_twice_from_liked s c1 c2 postId p l Hu Hp Hl) as H2.
    pose proof (toggleLikePost_unlikes s c1 postId p l Hp Hl) as H1.
    simpl in H2. fold r1 in H1, H2. fold r2 in H2. rewrite H1, H2.
    split; [reflexivity|]. split; [reflexivity|].
    split; [apply postAt_setLikes; exact Hp|].
    split; [reflexivity|].
    split; [discriminate|].
    split; [intros _; split; reflexivity|].
    repeat split.
  - pose proof (toggleLikePost_twice_from_unliked s c1 c2 postId p Hu Hp Hl) as H2.
    pose proof (toggleLikePost_likes s c1 postId p Hp Hl) as H1.
    simpl in H2. fold r1 in H1, H2. fold r2 in H2. rewrite H1, H2.
    split; [reflexivity|]. split; [reflexivity|].
    split; [apply postAt_setLikes; exact Hp|].
    split; [reflexivity|].
    split; [intros _; split; reflexivity|].
    split; [intros H; contradiction|].
    repeat split.
Qed.

(** User 7 does not like post 1 yet: like, then unlike. *)
Lemma toggleLikePost_twice_restores_counter_witness :
  let r1 := handler (toggleLikePost (mkCtx head7 50) 1) campusStore in
  let r2 := handler (toggleLikePost (mkCtx head7 60) 1) (store r1) in
  code (response r1) = 200 /\ code (response r2) = 200 /\
  postAt (store r2) 1 = Some (Post.set_likes 1 60 (mkPost 1 (Some 1) 7 1)) /\
  rows (db_postLikes (store r1))
    = rows (db_postLikes campusStore) ++ [PostLike.mk 4 1 7 50] /\
  rows (db_postLikes (store r2)) = rows (db_postLikes campusStore).
Proof.
  destruct (toggleLikePost_twice_restores_counter campusStore
              (mkCtx head7 50) (mkCtx head7 60) 1 (mkPost 1 (Some 1) 7 1)
              eq_refl eq_refl)
    as (H1 & H2 & H3 & _ & H5 & _).
  destruct (H5 eq_refl) as (H6 & H7).
  split; [exact H1|]. split; [exact H2|]. split; [exact H3|].
  split; [exact H6 | exact H7].
Defined.

(** * Further properties of the controllers *)

(** ** Seat accounting *)

(** The [if (seatsLeft < 0) seatsLeft = 0] of [updatePoster] takes effect on
    poster [pid]: the request is an update of that poster by its head admin
    whose [seats] is truthy, is not the stored value, and brings [seatsLeft]
    below 0. *)
Definition floors (pid : Z) (s : Store) (o : Op) : bool :=
  match o with
  | Reseat c k b =>
      (k =? pid)
      && match posterAt s k, pp_seats b with
         | Some p, Some v =>
             Role_eqb (urole (user c)) head_admin
             && (Poster.headId p =? uid (user c))
             && truthy_int (Some v)
             && differs v (Poster.seats p)
             && (Poster.seatsLeft p + (numberOf v - Poster.seats p) <? 0)
         | _, _ => false
         end
  | _ => false
  end.

Fixpoint neverFloors (pid : Z) (s : Store) (ops : list Op) : Prop :=
  match ops with
  | [] => True
  | o :: ops' => floors pid s o = false /\ neverFloors pid (step s o) ops'
  end.

(** An [updatePoster] either writes nothing or is the owner's update. *)
Lemma updatePoster_outcome (s : Store) (c : Ctx) (posterId : Z) (b : PosterPatch) :
  let s' := store (handler (updatePoster c posterId b) s) in
  s' = s \/
  exists P, posterAt s posterId = Some P /\
    urole (user c) = head_admin /\
    Poster.headId P = uid (user c) /\
    s' = upd posters
           (mkTable (map (onPoster posterId (patchPoster b P (now c)))
                         (rows (db_posters s)))
                    (lastId (db_posters s))) s.
Proof.
  unfold posterAt, byId, updatePoster. simpl. exec.
  destruct (find _ (rows (db_posters s))) as [P|] eqn:Ep;
    [|left; reflexivity].
  destruct (Role_eqb (urole (user c)) head_admin) eqn:Er; simpl;
    [|left; reflexivity].
  destruct (Poster.headId P =? uid (user c)) eqn:Eo; simpl;
    [|left; reflexivity].
  right. exists P. apply Role_eqb_eq in Er. apply Z.eqb_eq in Eo.
  repeat split; assumption.
Qed.

Lemma exact_step (pid : Z) (s : Store) (o : Op) :
  floors pid s o = false -> InvHi pid s -> InvHi pid (step s o).
Proof.
  intros Hfl Hhi.
  destruct o as [c b|c k|c k|c k b];
    try (apply InvHi_step; [reflexivity | exact Hhi]).
  destruct Hhi as [Hkey (p & Hp & Heq)].
  assert (Hid : Poster.id p = pid) by (apply (posterAt_id s), Hp).
  simpl.
  destruct (updatePoster_outcome s c k b) as [E|(P & HP & Hr & Ho & E)];
    simpl in E; rewrite E; [split; eauto|].
  split; [exact Hkey|].
  unfold posterAt, byId. simpl.
  rewrite posterAt_onPoster by reflexivity.
  pose proof Hp as Hp'. unfold posterAt, byId in Hp'. simpl in Hp'.
  rewrite Hp'. simpl.
  eexists. split; [reflexivity|].
  unfold reserved in *. simpl. unfold onPoster. rewrite Hid.
  destruct (pid =? k) eqn:Ek; [|exact Heq].
  apply Z.eqb_eq in Ek. subst k.
  assert (P = p) by congruence. subst P.
  simpl in Hfl. rewrite Z.eqb_refl, Hp, Hr, Ho, Z.eqb_refl in Hfl.
  simpl in Hfl |- *. unfold or_int, newSeatsLeft.
  destruct (pp_seats b) as [[z|z]|]; simpl in Hfl |- *; [| |exact Heq].
  - destruct (z =? 0) eqn:E0; simpl in Hfl |- *; [exact Heq|].
    destruct (z =? Poster.seats p) eqn:E1; simpl in Hfl |- *;
      [apply Z.eqb_eq in E1; lia|].
    rewrite Hfl. apply Z.ltb_ge in Hfl. lia.
  - rewrite Hfl. apply Z.ltb_ge in Hfl. lia.
Qed.

Lemma exact_run (pid : Z) (ops : list Op) (s : Store) :
  neverFloors pid s ops -> InvHi pid s -> InvHi pid (run s ops).
Proof.
  revert s. induction ops as [|o ops IH]; simpl; intros s Hnf Hhi; [exact Hhi|].
  destruct Hnf as [Hfl Hnf]. apply IH; [exact Hnf|].
  apply exact_step; assumption.
Qed.

(** X1. From a freshly created poster, along every sequence of bookings,
    approvals, rejections and poster updates, each served before the next
    one starts, in which the floor of [updatePoster] never takes effect on
    that poster, the counter is exact: [seatsLeft] plus the persons of the
    poster's pending and approved bookings is [seats]. *)
Theorem seats_accounting_exact (pid : Z) (s0 : Store) (ops : list Op) :
  fresh pid s0 ->
  neverFloors pid s0 ops ->
  exists p, posterAt (run s0 ops) pid = Some p /\
            Poster.seatsLeft p + reserved pid (run s0 ops) = Poster.seats p.
Proof.
  intros (Hkey & Hnone & p0 & Hp0 & Hfull & _) Hnf.
  assert (Hhi0 : InvHi pid s0).
  { split; [exact Hkey|]. exists p0. split; [exact Hp0|].
    unfold reserved. rewrite (reservedIn_elsewhere pid _ Hnone). lia. }
  destruct (exact_run pid ops s0 Hnf Hhi0) as [_ H]. exact H.
Qed.

(** Booking minus five, booking fifteen, rejecting the first booking, then
    an update of a poster that does not exist: [seatsLeft] is negative on the
    way, no floor takes effect, and the counter stays exact. *)
Definition overbookThenMiss : list Op :=
  [ Book (mkCtx student3 10) (mkBooking 1 (-5) receipt);
    Book (mkCtx student3 11) (mkBooking 1 15 receipt);
    Reject (mkCtx head7 30) 1;
    Reseat (mkCtx head7 40) 2 (seatsPatch 3) ].

Lemma seats_accounting_exact_witness :
  (exists p,
     posterAt (run (storeWithPoster (mkPoster 1 10 10)) shrinkWithinThenReject) 1
     = Some p /\
     Poster.seatsLeft p
     + reserved 1 (run (storeWithPoster (mkPoster 1 10 10)) shrinkWithinThenReject)
     = Poster.seats p) /\
  (exists p,
     posterAt (run (storeWithPoster (mkPoster 1 10 10)) overbookThenMiss) 1
     = Some p /\
     Poster.seatsLeft p
     + reserved 1 (run (storeWithPoster (mkPoster 1 10 10)) overbookThenMiss)
     = Poster.seats p).
Proof.
  split.
  - apply (seats_accounting_exact 1 (storeWithPoster (mkPoster 1 10 10))
             shrinkWithinThenReject).
    + exact storeWithPoster_fresh.
    + simpl. repeat split.
  - apply (seats_accounting_exact 1 (storeWithPoster (mkPoster 1 10 10))
             overbookThenMiss).
    + exact storeWithPoster_fresh.
    + simpl. repeat split.
Defined.

(** ** createPoster *)

Definition eventAt (s : Store) (k : Z) : option Event.t := byId events k s.

(** The poster row that [createPoster] inserts. *)
Definition newPoster (c : Ctx) (b : NewPoster) (e : Event.t) (i : Z) : Poster.t :=
  Poster.mk i (np_eventId b) (Event.clubId e) (uid (user c))
    (np_eventTitle b) (np_eventDate b) (np_location b) (np_time b)
    (np_description b) (np_seats b) (np_seats b) (np_price b) (np_image b)
    (now c) (now c).

Lemma createPoster_accepted (s : Store) (c : Ctx) (b : NewPoster) (e : Event.t) :
  urole (user c) = head_admin ->
  eventAt s (np_eventId b) = Some e ->
  Event.headId e = uid (user c) ->
  handler (createPoster c b) s
  = (mkResponse 201 "Poster created successfully" None,
     upd posters
       (mkTable (rows (db_posters s)
                 ++ [newPoster c b e (lastId (db_posters s) + 1)])
                (lastId (db_posters s) + 1)) s,
     [Insert t_posters]).
Proof.
  unfold eventAt, byId, createPoster. simpl. intros Hr He Ho.
  exec. rewrite Hr. simpl. rewrite He, Ho, Z.eqb_refl. simpl.
  rewrite existsb_never. reflexivity.
Qed.

Lemma createPoster_cases (s : Store) (c : Ctx) (b : NewPoster) :
  (code (response (handler (createPoster c b) s)) <> 201 /\
   store (handler (createPoster c b) s) = s /\
   journal (handler (createPoster c b) s) = []) \/
  (exists e, urole (user c) = head_admin /\
             eventAt s (np_eventId b) = Some e /\
             Event.headId e = uid (user c)).
Proof.
  unfold eventAt, byId, createPoster. simpl.
  destruct (Role_eqb (urole (user c)) head_admin) eqn:Er; exec;
    [|left; repeat split; discriminate].
  apply Role_eqb_eq in Er.
  destruct (find _ (rows (db_events s))) as [e|] eqn:Ee;
    [|left; repeat split; discriminate].
  destruct (Event.headId e =? uid (user c)) eqn:Eo; simpl;
    [|left; repeat split; discriminate].
  right. exists e. apply Z.eqb_eq in Eo. auto.
Qed.

(** X2. [createPoster] answers 201 exactly when the caller carries the
    role head_admin and is the head of the event the poster is for; in
    every other case it answers something else and writes nothing. *)
Theorem createPoster_only_for_own_event (s : Store) (c : Ctx) (b : NewPoster) :
  let r := handler (createPoster c b) s in
  (code (response r) = 201 <->
   urole (user c) = head_admin /\
   exists e, eventAt s (np_eventId b) = Some e /\ Event.headId e = uid (user c)) /\
  (code (response r) <> 201 -> store r = s /\ journal r = []).
Proof.
  simpl. destruct (createPoster_cases s c b) as [(Hne & Hs & Hj)|(e & Hr & He & Ho)].
  - split; [split|auto].
    + intros H. contradiction.
    + intros (Hr & e & He & Ho).
      rewrite (createPoster_accepted s c b e Hr He Ho) in Hne.
      exfalso. apply Hne. reflexivity.
  - rewrite (createPoster_accepted s c b e Hr He Ho). split; [split|].
    + intros _. eauto.
    + reflexivity.
    + intros H. exfalso. apply H. reflexivity.
Qed.

Lemma createPoster_only_for_own_event_witness :
  let s := campusStore in
  let mine := handler (createPoster (mkCtx head7 5)
                (mkNewPoster 1 "Open day" "2025-05-01" "Hall" "18:00" "Welcome"
                             30 100 None)) s in
  let theirs := handler (createPoster (mkCtx head7 5)
                (mkNewPoster 2 "Open day" "2025-05-01" "Hall" "18:00" "Welcome"
                             30 100 None)) s in
  code (response mine) = 201 /\ (store theirs = s /\ journal theirs = []).
Proof.
  split.
  - apply (proj1 (createPoster_only_for_own_event campusStore (mkCtx head7 5)
                    (mkNewPoster 1 "Open day" "2025-05-01" "Hall" "18:00"
                                 "Welcome" 30 100 None))).
    split; [reflexivity|]. exists (mkEvent 1 1 7). split; reflexivity.
  - apply (proj2 (createPoster_only_for_own_event campusStore (mkCtx head7 5)
                    (mkNewPoster 2 "Open day" "2025-05-01" "Hall" "18:00"
                                 "Welcome" 30 100 None))).
    simpl. discriminate.
Defined.

(** Ids of the posters table were handed out by its counter, and every
    booking refers to a poster id that was handed out. *)
Definition postersKeyed (s : Store) : Prop :=
  (forall p, In p (rows (db_posters s)) -> Poster.id p <= lastId (db_posters s)) /\
  (forall t, In t (rows (db_ticketBookings s)) ->
             TicketBooking.posterId t <= lastId (db_posters s)).

Lemma find_absent_key {R} (key : R -> Z) (k : Z) (l : list R) :
  (forall r, In r l -> key r < k) -> find (fun r => key r =? k) l = None.
Proof.
  intros H. apply find_none_forall. intros r Hr. apply Z.eqb_neq.
  specialize (H r Hr). lia.
Qed.

(** X3. An accepted [createPoster] stores a fresh poster: the new row is
    found under the next id, belongs to the event's club and to the caller,
    has [seatsLeft = seats], and no booking refers to it; so the bounds on
    the seat counter start from it. *)
Theorem createPoster_stores_fresh_poster
    (s : Store) (c : Ctx) (b : NewPoster) (e : Event.t) :
  urole (user c) = head_admin ->
  eventAt s (np_eventId b) = Some e ->
  Event.headId e = uid (user c) ->
  postersKeyed s ->
  keyed (db_ticketBookings s) ->
  0 <= np_seats b ->
  let r := handler (createPoster c b) s in
  let k := lastId (db_posters s) + 1 in
  posterAt (store r) k = Some (newPoster c b e k) /\
  Poster.clubId (newPoster c b e k) = Event.clubId e /\
  Poster.headId (newPoster c b e k) = uid (user c) /\
  Poster.seatsLeft (newPoster c b e k) = Poster.seats (newPoster c b e k) /\
  fresh k (store r).
Proof.
  intros Hr He Ho [Hp Ht] Hkey Hseats r k. subst r.
  rewrite (createPoster_accepted s c b e Hr He Ho). unfold store. simpl fst. simpl snd.
  assert (Hfound : posterAt
            (upd posters (mkTable (rows (db_posters s) ++ [newPoster c b e k]) k) s) k
          = Some (newPoster c b e k)).
  { unfold posterAt, byId. simpl. rewrite find_app_none.
    - simpl. rewrite Z.eqb_refl. reflexivity.
    - apply (find_absent_key Poster.id). intros p Hin. apply Hp in Hin.
      subst k. lia. }
  split; [exact Hfound|].
  split; [reflexivity|]. split; [reflexivity|]. split; [reflexivity|].
  split; [exact Hkey|]. split.
  - simpl. intros t Hin Heq. apply Ht in Hin. subst k. lia.
  - exists (newPoster c b e k).
    split; [exact Hfound|]. split; [reflexivity | exact Hseats].
Qed.

Lemma campusStore_postersKeyed : postersKeyed campusStore.
Proof.
  split; simpl; intros x Hx;
    repeat (destruct Hx as [<-|Hx]; [simpl; lia|]); destruct Hx.
Defined.

Lemma campusStore_keyed : keyed (db_ticketBookings campusStore).
Proof.
  split; simpl.
  - repeat constructor; simpl; intuition lia.
  - intros x Hx. repeat (destruct Hx as [<-|Hx]; [simpl; lia|]). destruct Hx.
Defined.

Lemma createPoster_stores_fresh_poster_witness :
  let b := mkNewPoster 1 "Open day" "2025-05-01" "Hall" "18:00" "Welcome"
                       30 100 None in
  let r := handler (createPoster (mkCtx head7 5) b) campusStore in
  posterAt (store r) 3 = Some (newPoster (mkCtx head7 5) b (mkEvent 1 1 7) 3) /\
  Poster.clubId (newPoster (mkCtx head7 5) b (mkEvent 1 1 7) 3) = 1 /\
  Poster.headId (newPoster (mkCtx head7 5) b (mkEvent 1 1 7) 3) = 7 /\
  Poster.seatsLeft (newPoster (mkCtx head7 5) b (mkEvent 1 1 7) 3)
  = Poster.seats (newPoster (mkCtx head7 5) b (mkEvent 1 1 7) 3) /\
  fresh 3 (store r).
Proof.
  apply (createPoster_stores_fresh_poster campusStore (mkCtx head7 5)
           (mkNewPoster 1 "Open day" "2025-05-01" "Hall" "18:00" "Welcome"
                        30 100 None) (mkEvent 1 1 7)).
  - reflexivity.
  - reflexivity.
  - reflexivity.
  - exact campusStore_postersKeyed.
  - exact campusStore_keyed.
  - simpl. lia.
Defined.

(** ** updatePoster: who may write, and what is never written *)

(** X4. [updatePoster] answers 404 when the poster does not exist and 403
    when the caller is not a head admin or is not the poster's head; in both
    cases nothing is written. *)
Theorem updatePoster_refused_unless_owner
    (s : Store) (c : Ctx) (posterId : Z) (b : PosterPatch) :
  let r := handler (updatePoster c posterId b) s in
  (posterAt s posterId = None ->
     response r = mkResponse 404 "Poster not found" None
     /\ store r = s /\ journal r = []) /\
  (forall P, posterAt s posterId = Some P ->
     urole (user c) <> head_admin \/ Poster.headId P <> uid (user c) ->
     response r = mkResponse 403 "Unauthorized access" None
     /\ store r = s /\ journal r = []).
Proof.
  unfold posterAt, byId, updatePoster. simpl. split.
  - intros Hf. exec. rewrite Hf. repeat split.
  - intros P Hf Hno. exec. rewrite Hf.
    destruct (Role_eqb (urole (user c)) head_admin) eqn:Er; simpl;
      [|repeat split].
    destruct (Poster.headId P =? uid (user c)) eqn:Eo; simpl; [|repeat split].
    exfalso. apply Role_eqb_eq in Er. apply Z.eqb_eq in Eo.
    destruct Hno; contradiction.
Qed.

Lemma updatePoster_refused_unless_owner_witness :
  let r := handler (updatePoster (mkCtx head7 50) 2 (seatsPatch 1)) campusStore in
  response r = mkResponse 403 "Unauthorized access" None
  /\ store r = campusStore /\ journal r = [].
Proof.
  apply (proj2 (updatePoster_refused_unless_owner campusStore (mkCtx head7 50) 2
                  (seatsPatch 1)) (mkPosterOf 2 2 9 20 19) eq_refl).
  right. simpl. lia.
Defined.

(** The patch with no field. *)
Definition emptyPatch : PosterPatch :=
  mkPosterPatch None None None None None None None None.

Lemma updatePoster_accepted
      (s : Store) (c : Ctx) (posterId : Z) (b : PosterPatch) (P : Poster.t) :
  posterAt s posterId = Some P ->
  urole (user c) = head_admin ->
  Poster.headId P = uid (user c) ->
  handler (updatePoster c posterId b) s
  = (mkResponse 200 "Poster updated successfully" None,
     upd posters
       (mkTable (map (onPoster posterId (patchPoster b P (now c)))
                     (rows (db_posters s)))
                (lastId (db_posters s))) s,
     [Update t_posters]).
Proof.
  unfold posterAt, byId, updatePoster. simpl. intros Hf Hr Ho.
  exec. rewrite Hf, Hr, Ho, Z.eqb_refl. reflexivity.
Qed.

(** X5. An accepted [updatePoster] never changes the poster's [id],
    [eventId], [clubId], [headId] or [createdAt], leaves every poster with
    another id and every other table as they were, and with an empty body it
    changes nothing but [updatedAt]. *)
Theorem updatePoster_keeps_identity
    (s : Store) (c : Ctx) (posterId : Z) (b : PosterPatch) (P : Poster.t) :
  posterAt s posterId = Some P ->
  urole (user c) = head_admin ->
  Poster.headId P = uid (user c) ->
  let r := handler (updatePoster c posterId b) s in
  (exists P', posterAt (store r) posterId = Some P' /\
     Poster.id P' = Poster.id P /\ Poster.eventId P' = Poster.eventId P /\
     Poster.clubId P' = Poster.clubId P /\ Poster.headId P' = Poster.headId P /\
     Poster.createdAt P' = Poster.createdAt P /\
     (b = emptyPatch -> P' = Poster.set_seatsLeft (Poster.seatsLeft P) (now c) P)) /\
  (forall k, k <> posterId -> posterAt (store r) k = posterAt s k) /\
  db_ticketBookings (store r) = db_ticketBookings s /\
  db_events (store r) = db_events s /\
  db_clubs (store r) = db_clubs s /\
  db_users (store r) = db_users s.
Proof.
  intros Hf Hr Ho r. subst r.
  rewrite (updatePoster_accepted s c posterId b P Hf Hr Ho).
  unfold store. simpl fst. simpl snd.
  split; [|split; [|repeat split]].
  - exists (patchPoster b P (now c) P). split.
    + unfold posterAt, byId in *. simpl in *.
      rewrite posterAt_onPoster by reflexivity. rewrite Hf. simpl.
      unfold onPoster. apply find_some in Hf. destruct Hf as [_ ->]. reflexivity.
    + repeat split. intros ->. destruct P; reflexivity.
  - intros k Hk. unfold posterAt, byId in *. simpl in *.
    rewrite posterAt_onPoster by reflexivity.
    destruct (find (fun p => Poster.id p =? k) (rows (db_posters s))) as [q|] eqn:Eq;
      [|reflexivity].
    simpl. unfold onPoster. apply find_some in Eq. destruct Eq as [_ Eq].
    apply Z.eqb_eq in Eq. rewrite Eq.
    destruct (k =? posterId) eqn:E; [apply Z.eqb_eq in E; contradiction|].
    reflexivity.
Qed.

Lemma updatePoster_keeps_identity_witness :
  let r := handler (updatePoster (mkCtx head7 50) 1 emptyPatch) campusStore in
  (exists P', posterAt (store r) 1 = Some P' /\
     Poster.id P' = 1 /\ Poster.eventId P' = 1 /\
     Poster.clubId P' = 1 /\ Poster.headId P' = 7 /\
     Poster.createdAt P' = 0 /\
     (emptyPatch = emptyPatch ->
      P' = Poster.set_seatsLeft 8 50 (mkPosterOf 1 1 7 10 8))) /\
  (forall k, k <> 1 -> posterAt (store r) k = posterAt campusStore k) /\
  db_ticketBookings (store r) = db_ticketBookings campusStore /\
  db_events (store r) = db_events campusStore /\
  db_clubs (store r) = db_clubs campusStore /\
  db_users (store r) = db_users campusStore.
Proof.
  apply (updatePoster_keeps_identity campusStore (mkCtx head7 50) 1 emptyPatch
           (mkPosterOf 1 1 7 10 8));
    reflexivity.
Defined.

(** ** Ticket decisions *)

Definition ticketCall (v : Verdict) : Ctx -> Z -> DB Response :=
  match v with
  | approve => approveTicket
  | reject => rejectTicket
  end.

Definition notYourTicket (v : Verdict) : string :=
  match v with
  | approve => "You can only approve tickets for your own events"
  | reject => "You can only reject tickets for your own events"
  end.

(** X6. The refusals of [approveTicket] and [rejectTicket], in the order
    the controllers test them: 403 for a caller who is not a head admin, 404
    for a missing booking, 404 for a booking whose poster is missing, 403 for
    the head of another poster, 400 "Ticket already <status>" for a booking
    that is not pending.  None of them writes. *)
Theorem ticket_decision_refusals (v : Verdict) (s : Store) (c : Ctx) (k : Z) :
  let r := handler (ticketCall v c k) s in
  (urole (user c) <> head_admin ->
     response r = mkResponse 403 "Unauthorized access" None
     /\ store r = s /\ journal r = []) /\
  (urole (user c) = head_admin -> ticketAt s k = None ->
     response r = mkResponse 404 "Ticket booking not found" None
     /\ store r = s /\ journal r = []) /\
  (urole (user c) = head_admin ->
   forall B, ticketAt s k = Some B ->
     (posterAt s (TicketBooking.posterId B) = None ->
        response r = mkResponse 404 "Associated poster not found" None
        /\ store r = s /\ journal r = []) /\
     (forall P, posterAt s (TicketBooking.posterId B) = Some P ->
        (Poster.headId P <> uid (user c) ->
           response r = mkResponse 403 (notYourTicket v) None
           /\ store r = s /\ journal r = []) /\
        (Poster.headId P = uid (user c) ->
         TicketBooking.status B <> pending ->
           response r = mkResponse 400
                          ("Ticket already "
                           ++ Status_text (TicketBooking.status B)) None
           /\ store r = s /\ journal r = []))).
Proof.
  unfold ticketAt, posterAt, byId. simpl.
  split; [|split].
  - intros Hr.
    assert (E : Role_eqb (urole (user c)) head_admin = false).
    { destruct (Role_eqb _ _) eqn:E; [|reflexivity].
      apply Role_eqb_eq in E. contradiction. }
    destruct v; simpl; unfold approveTicket, rejectTicket; exec; rewrite E;
      repeat split.
  - intros Hr Ht.
    destruct v; simpl; unfold approveTicket, rejectTicket; exec;
      rewrite Hr; simpl; rewrite Ht; repeat split.
  - intros Hr B Ht. split.
    + intros Hp.
      destruct v; simpl; unfold approveTicket, rejectTicket; exec;
        rewrite Hr; simpl; rewrite Ht, Hp; repeat split.
    + intros P Hp. split.
      * intros Ho. apply Z.eqb_neq in Ho.
        destruct v; simpl; unfold approveTicket, rejectTicket; exec;
          rewrite Hr; simpl; rewrite Ht, Hp, Ho; repeat split.
      * intros Ho Hs.
        assert (E : Status_eqb (TicketBooking.status B) pending = false).
        { destruct (Status_eqb _ _) eqn:E; [|reflexivity].
          apply Status_eqb_eq in E. contradiction. }
        destruct v; simpl; unfold approveTicket, rejectTicket; exec;
          rewrite Hr; simpl; rewrite Ht, Hp, Ho, Z.eqb_refl, E; repeat split.
Qed.

(** Head 7 on the ticket of head 9's poster, and head 9 on that ticket,
    which is approved already. *)
Lemma ticket_decision_refusals_witness :
  let r7 := handler (rejectTicket (mkCtx head7 50) 2) campusStore in
  let r9 := handler (rejectTicket (mkCtx (mkAuth 9 head_admin) 50) 2) campusStore in
  (response r7
   = mkResponse 403 "You can only reject tickets for your own events" None
   /\ store r7 = campusStore /\ journal r7 = []) /\
  (response r9 = mkResponse 400 "Ticket already approved" None
   /\ store r9 = campusStore /\ journal r9 = []).
Proof.
  split.
  - destruct (ticket_decision_refusals reject campusStore (mkCtx head7 50) 2)
      as (_ & _ & H).
    destruct (H eq_refl (mkTicket 2 2 3 1 approved) eq_refl) as (_ & H').
    destruct (H' (mkPosterOf 2 2 9 20 19) eq_refl) as (H1 & _).
    apply H1. simpl. lia.
  - destruct (ticket_decision_refusals reject campusStore
                (mkCtx (mkAuth 9 head_admin) 50) 2) as (_ & _ & H).
    destruct (H eq_refl (mkTicket 2 2 3 1 approved) eq_refl) as (_ & H').
    destruct (H' (mkPosterOf 2 2 9 20 19) eq_refl) as (_ & H2).
    apply H2; [reflexivity | discriminate].
Defined.

Lemma ticketCall_cases (v : Verdict) (s : Store) (c : Ctx) (k : Z) :
  (store (handler (ticketCall v c k) s) = s /\
   journal (handler (ticketCall v c k) s) = []) \/
  exists B P, urole (user c) = head_admin /\
              ticketAt s k = Some B /\
              posterAt s (TicketBooking.posterId B) = Some P /\
              Poster.headId P = uid (user c) /\
              TicketBooking.status B = pending.
Proof.
  destruct (ticket_decision_refusals v s c k) as (H1 & H2 & H3).
  destruct (Role_eqb (urole (user c)) head_admin) eqn:Er.
  - apply Role_eqb_eq in Er.
    destruct (ticketAt s k) as [B|] eqn:Et; [|left; apply (H2 Er eq_refl)].
    destruct (H3 Er B eq_refl) as (H4 & H5).
    destruct (posterAt s (TicketBooking.posterId B)) as [P|] eqn:Ep;
      [|left; apply (H4 eq_refl)].
    destruct (H5 P eq_refl) as (H6 & H7).
    destruct (Z.eq_dec (Poster.headId P) (uid (user c))) as [Ho|Ho];
      [|left; apply (H6 Ho)].
    destruct (Status_eqb (TicketBooking.status B) pending) eqn:Es.
    + apply Status_eqb_eq in Es. right. exists B, P. auto.
    + left. apply (H7 Ho). intros H. apply Status_eqb_eq in H. congruence.
  - left. apply H1. intros H. apply Role_eqb_eq in H. congruence.
Qed.

(** The store after an accepted decision. *)
Lemma ticketCall_accepted (v : Verdict) (s : Store) (c : Ctx) (k : Z)
      (B : TicketBooking.t) (P : Poster.t) :
  urole (user c) = head_admin ->
  ticketAt s k = Some B ->
  posterAt s (TicketBooking.posterId B) = Some P ->
  Poster.headId P = uid (user c) ->
  TicketBooking.status B = pending ->
  code (response (handler (ticketCall v c k) s)) = 200 /\
  ticketAt (store (handler (ticketCall v c k) s)) k
  = Some (TicketBooking.set_status (verdictStatus v) (now c) B) /\
  posterAt (store (handler (ticketCall v c k) s)) (TicketBooking.posterId B)
  = Some match v with
         | approve => P
         | reject =>
             Poster.set_seatsLeft
               (Poster.seatsLeft P + TicketBooking.numberOfPersons B) (now c) P
         end.
Proof.
  intros Hr Ht Hp Ho Hs. destruct v; simpl.
  - destruct (approveTicket_accepted s c k B P Hr Ht Hp Ho Hs) as (-> & -> & _).
    split; [reflexivity|]. split; [|exact Hp].
    unfold ticketAt, byId in *. simpl in *.
    rewrite ticketAt_onTicket by reflexivity. rewrite Ht. simpl.
    unfold onTicket. apply find_some in Ht. destruct Ht as [_ ->]. reflexivity.
  - destruct (rejectTicket_accepted s c k B P Hr Ht Hp Ho Hs) as (-> & -> & _).
    split; [reflexivity|]. split.
    + unfold ticketAt, byId in *. simpl in *.
      rewrite ticketAt_onTicket by reflexivity. rewrite Ht. simpl.
      unfold onTicket. apply find_some in Ht. destruct Ht as [_ ->]. reflexivity.
    + rewrite (posterAt_after _ s _ _ _ P) by (reflexivity || exact Hp).
      unfold onPoster. rewrite (posterAt_id s _ P Hp), Z.eqb_refl. reflexivity.
Qed.

(** X7. A ticket is decided once: after an approval or a rejection that
    took effect, the booking carries the verdict's status, and any further
    approve or reject call on it, by any caller, changes nothing; in
    particular a rejection gives the seats back once only. *)
Theorem decided_ticket_stays_decided
    (v v' : Verdict) (s : Store) (c c' : Ctx) (k : Z) :
  let r1 := handler (ticketCall v c k) s in
  journal r1 <> [] ->
  let r2 := handler (ticketCall v' c' k) (store r1) in
  (exists B, ticketAt (store r1) k = Some B /\
             TicketBooking.status B = verdictStatus v) /\
  store r2 = store r1 /\ journal r2 = [].
Proof.
  intros r1 Hj r2.
  destruct (ticketCall_cases v s c k) as [[_ E]|(B & P & Hr & Ht & Hp & Ho & Hs)].
  - fold r1 in E. contradiction.
  - destruct (ticketCall_accepted v s c k B P Hr Ht Hp Ho Hs) as (_ & Ht1 & _).
    fold r1 in Ht1. split.
    + eexists. split; [exact Ht1|]. reflexivity.
    + destruct (ticketCall_cases v' (store r1) c' k)
        as [E|(B' & P' & _ & Ht' & _ & _ & Hs')]; [exact E|].
      exfalso. rewrite Ht1 in Ht'. injection Ht' as <-.
      simpl in Hs'. destruct v; discriminate.
Qed.

Lemma decided_ticket_stays_decided_witness :
  let r1 := handler (rejectTicket (mkCtx head7 50) 1) campusStore in
  let r2 := handler (rejectTicket (mkCtx head7 60) 1) (store r1) in
  (exists B, ticketAt (store r1) 1 = Some B /\
             TicketBooking.status B = rejected) /\
  store r2 = store r1 /\ journal r2 = [] /\
  option_map Poster.seatsLeft (posterAt (store r2) 1) = Some 10.
Proof.
  destruct (decided_ticket_stays_decided reject reject campusStore
              (mkCtx head7 50) (mkCtx head7 60) 1) as (H1 & H2 & H3).
  - simpl. discriminate.
  - split; [exact H1|]. split; [exact H2|]. split; [exact H3|]. reflexivity.
Defined.

(** ** Booking followed by a decision *)

Section BookThenDecide.
Variables (s : Store) (c ch : Ctx) (b : Booking) (P : Poster.t).
Hypothesis Hkey : keyed (db_ticketBookings s).
Hypothesis Hproof : truthy_str (bk_paymentProof b) = true.
Hypothesis Hposter : posterAt s (bk_posterId b) = Some P.
Hypothesis Hroom : bk_numberOfPersons b <= Poster.seatsLeft P.
Hypothesis Hhead : urole (user ch) = head_admin.
Hypothesis Hown : Poster.headId P = uid (user ch).

Let k := lastId (db_ticketBookings s) + 1.
Let s1 := store (handler (bookTicket c b) s).

(** The booking is stored under the next id, and the seats are taken. *)
Lemma booked_ticket_found :
  code (response (handler (bookTicket c b) s)) = 201 /\
  ticketAt s1 k = Some (newBooking c b k) /\
  posterAt s1 (bk_posterId b)
  = Some (Poster.set_seatsLeft
            (Poster.seatsLeft P - bk_numberOfPersons b) (now c) P).
Proof.
  subst s1 k.
  destruct (bookTicket_accepted s c b P Hproof Hposter Hroom) as (-> & -> & _).
  split; [reflexivity|]. split.
  - unfold ticketAt, byId. simpl. rewrite find_app_none.
    + simpl. rewrite Z.eqb_refl. reflexivity.
    + apply (find_absent_key TicketBooking.id). intros t Ht.
      apply (proj2 Hkey) in Ht. lia.
  - pose proof Hposter as Hp. unfold posterAt, byId in Hp |- *. simpl in Hp |- *.
    rewrite posterAt_onPoster by reflexivity. rewrite Hp. simpl.
    unfold onPoster. apply find_some in Hp. destruct Hp as [_ ->]. reflexivity.
Qed.

Lemma booked_then_decided (v : Verdict) :
  code (response (handler (ticketCall v ch k) s1)) = 200 /\
  ticketAt (store (handler (ticketCall v ch k) s1)) k
  = Some (TicketBooking.set_status (verdictStatus v) (now ch) (newBooking c b k)) /\
  posterAt (store (handler (ticketCall v ch k) s1)) (bk_posterId b)
  = Some (Poster.set_seatsLeft
            match v with
            | approve => Poster.seatsLeft P - bk_numberOfPersons b
            | reject => Poster.seatsLeft P
            end
            match v with
            | approve => now c
            | reject => now ch
            end P).
Proof.
  destruct booked_ticket_found as (_ & Ht & Hp).
  destruct (ticketCall_accepted v s1 ch k (newBooking c b k) _ Hhead Ht Hp Hown eq_refl)
    as (H200 & Ht2 & Hp2).
  split; [exact H200|]. split; [exact Ht2|].
  simpl in Hp2. rewrite Hp2. destruct v; [reflexivity|].
  f_equal. destruct P; unfold Poster.set_seatsLeft; simpl. f_equal. lia.
Qed.
End BookThenDecide.

(** X8. Booking and rejection are a round trip on the seat counter: when a
    booking is accepted and the poster's head then rejects it, the booking is
    found rejected under the id it was given and the poster row is the
    original one again, [seatsLeft] included, except for [updatedAt]. *)
Theorem book_then_reject_restores_poster
    (s : Store) (c ch : Ctx) (b : Booking) (P : Poster.t) :
  keyed (db_ticketBookings s) ->
  truthy_str (bk_paymentProof b) = true ->
  posterAt s (bk_posterId b) = Some P ->
  bk_numberOfPersons b <= Poster.seatsLeft P ->
  urole (user ch) = head_admin ->
  Poster.headId P = uid (user ch) ->
  let k := lastId (db_ticketBookings s) + 1 in
  let r1 := handler (bookTicket c b) s in
  let r2 := handler (rejectTicket ch k) (store r1) in
  code (response r1) = 201 /\ code (response r2) = 200 /\
  ticketAt (store r2) k
  = Some (TicketBooking.set_status rejected (now ch) (newBooking c b k)) /\
  posterAt (store r2) (bk_posterId b)
  = Some (Poster.set_seatsLeft (Poster.seatsLeft P) (now ch) P).
Proof.
  intros Hkey Hpr Hp Hle Hh Ho k r1 r2.
  destruct (booked_ticket_found s c b P Hkey Hpr Hp Hle) as (H201 & _).
  destruct (booked_then_decided s c ch b P Hkey Hpr Hp Hle Hh Ho reject)
    as (H200 & Ht & Hp2).
  split; [exact H201|]. split; [exact H200|]. split; [exact Ht | exact Hp2].
Qed.

Lemma book_then_reject_restores_poster_witness :
  let r1 := handler (bookTicket (mkCtx student3 40) (mkBooking 1 5 receipt))
                    campusStore in
  let r2 := handler (rejectTicket (mkCtx head7 50) 3) (store r1) in
  code (response r1) = 201 /\ code (response r2) = 200 /\
  ticketAt (store r2) 3
  = Some (TicketBooking.set_status rejected 50
            (newBooking (mkCtx student3 40) (mkBooking 1 5 receipt) 3)) /\
  posterAt (store r2) 1 = Some (Poster.set_seatsLeft 8 50 (mkPosterOf 1 1 7 10 8)).
Proof.
  apply (book_then_reject_restores_poster campusStore (mkCtx student3 40)
           (mkCtx head7 50) (mkBooking 1 5 receipt) (mkPosterOf 1 1 7 10 8)).
  - exact campusStore_keyed.
  - reflexivity.
  - reflexivity.
  - simpl. lia.
  - reflexivity.
  - reflexivity.
Defined.

(** X9. Approval leaves the seats taken: when a booking is accepted and the
    poster's head then approves it, the booking is found approved and the
    poster row is the one the booking left, with [seatsLeft] lowered by the
    booked number of persons. *)
Theorem book_then_approve_keeps_seats_taken
    (s : Store) (c ch : Ctx) (b : Booking) (P : Poster.t) :
  keyed (db_ticketBookings s) ->
  truthy_str (bk_paymentProof b) = true ->
  posterAt s (bk_posterId b) = Some P ->
  bk_numberOfPersons b <= Poster.seatsLeft P ->
  urole (user ch) = head_admin ->
  Poster.headId P = uid (user ch) ->
  let k := lastId (db_ticketBookings s) + 1 in
  let r1 := handler (bookTicket c b) s in
  let r2 := handler (approveTicket ch k) (store r1) in
  code (response r2) = 200 /\
  ticketAt (store r2) k
  = Some (TicketBooking.set_status approved (now ch) (newBooking c b k)) /\
  posterAt (store r2) (bk_posterId b)
  = Some (Poster.set_seatsLeft
            (Poster.seatsLeft P - bk_numberOfPersons b) (now c) P) /\
  db_posters (store r2) = db_posters (store r1).
Proof.
  intros Hkey Hpr Hp Hle Hh Ho k r1 r2.
  destruct (booked_ticket_found s c b P Hkey Hpr Hp Hle) as (_ & Ht1 & Hp1).
  destruct (booked_then_decided s c ch b P Hkey Hpr Hp Hle Hh Ho approve)
    as (H200 & Ht & Hp2).
  split; [exact H200|]. split; [exact Ht|]. split; [exact Hp2|].
  subst r2.
  destruct (approveTicket_accepted (store r1) ch k _ _ Hh Ht1 Hp1 Ho eq_refl)
    as (_ & -> & _).
  reflexivity.
Qed.

Lemma book_then_approve_keeps_seats_taken_witness :
  let r1 := handler (bookTicket (mkCtx student3 40) (mkBooking 1 5 receipt))
                    campusStore in
  let r2 := handler (approveTicket (mkCtx head7 50) 3) (store r1) in
  code (response r2) = 200 /\
  ticketAt (store r2) 3
  = Some (TicketBooking.set_status approved 50
            (newBooking (mkCtx student3 40) (mkBooking 1 5 receipt) 3)) /\
  posterAt (store r2) 1 = Some (Poster.set_seatsLeft (8 - 5) 40 (mkPosterOf 1 1 7 10 8)) /\
  db_posters (store r2) = db_posters (store r1).
Proof.
  apply (book_then_approve_keeps_seats_taken campusStore (mkCtx student3 40)
           (mkCtx head7 50) (mkBooking 1 5 receipt) (mkPosterOf 1 1 7 10 8)).
  - exact campusStore_keyed.
  - reflexivity.
  - reflexivity.
  - simpl. lia.
  - reflexivity.
  - reflexivity.
Defined.

(** ** deleteClub: refusals and what is left behind *)

(** X10. [deleteClub] answers 403 to a caller who is not a super admin and
    404 for a club that does not exist, writing nothing.  On an existing
    club a super admin is answered 200 or 500.  After a 200 the club is not
    found any more, so a second delete of the same id is answered 404 and
    writes nothing; after a 500 the club row is still there. *)
Theorem deleteClub_refused_or_gone (s : Store) (c : Ctx) (clubId : Z) :
  let r := handler (deleteClub c clubId) s in
  (urole (user c) <> super_admin ->
     r = (mkResponse 403 "Only super admins can delete clubs" None, s, [])) /\
  (urole (user c) = super_admin -> clubAt s clubId = None ->
     r = (mkResponse 404 "Club not found" None, s, [])) /\
  (urole (user c) = super_admin -> clubAt s clubId <> None ->
     (code (response r) = 200 \/ code (response r) = 500) /\
     (code (response r) = 200 ->
        clubAt (store r) clubId = None /\
        forall c', urole (user c') = super_admin ->
          handler (deleteClub c' clubId) (store r)
          = (mkResponse 404 "Club not found" None, store r, [])) /\
     (code (response r) = 500 ->
        clubAt (store r) clubId = clubAt s clubId)).
Proof.
  assert (Hmissing : forall s' c', urole (user c') = super_admin ->
            clubAt s' clubId = None ->
            handler (deleteClub c' clubId) s'
            = (mkResponse 404 "Club not found" None, s', [])).
  { intros s' c' Hr Hf. unfold clubAt, byId in Hf. simpl in Hf.
    unfold deleteClub. exec. rewrite Hr. simpl. rewrite Hf. reflexivity. }
  simpl. split; [|split].
  - intros Hr. unfold deleteClub. exec.
    destruct (Role_eqb (urole (user c)) super_admin) eqn:E; [|reflexivity].
    apply Role_eqb_eq in E. contradiction.
  - intros Hr Hf. apply Hmissing; assumption.
  - intros Hr Hf. destruct (clubAt s clubId) as [K|] eqn:EK; [|contradiction].
    split; [|split].
    + destruct (Z.eq_dec (code (response (handler (deleteClub c clubId) s))) 200)
        as [H|H]; [left; exact H | right].
      apply (deleteClub_blocked s c clubId K Hr EK H).
    + intros H200.
      destruct (deleteClub_accepted s c clubId K Hr EK H200) as (_ & _ & ->).
      unfold store. simpl fst. simpl snd.
      assert (Hgone : clubAt (withoutClub clubId K (now c) s) clubId = None).
      { unfold clubAt, byId. simpl.
        apply (find_filter_negb (fun k => Club.id k =? clubId)). }
      split; [exact Hgone|]. intros c' Hr'. apply Hmissing; assumption.
    + intros H500.
      assert (Hne : code (response (handler (deleteClub c clubId) s)) <> 200)
        by (rewrite H500; discriminate).
      destruct (deleteClub_blocked s c clubId K Hr EK Hne) as (_ & Hsame).
      unfold clubAt, byId. simpl. rewrite Hsame. exact EK.
Qed.

Lemma deleteClub_refused_or_gone_witness :
  let r := handler (deleteClub (mkCtx admin1 90) 1) campusStore in
  let r' := handler (deleteClub (mkCtx admin1 90) 1) ratedCampus in
  handler (deleteClub (mkCtx head7 90) 1) campusStore
  = (mkResponse 403 "Only super admins can delete clubs" None, campusStore, []) /\
  handler (deleteClub (mkCtx admin1 90) 5) campusStore
  = (mkResponse 404 "Club not found" None, campusStore, []) /\
  code (response r) = 200 /\
  clubAt (store r) 1 = None /\
  handler (deleteClub (mkCtx admin1 95) 1) (store r)
  = (mkResponse 404 "Club not found" None, store r, []) /\
  code (response r') = 500 /\
  clubAt (store r') 1 = Some (mkClub 1 7 "Chess Club").
Proof.
  split; [|split].
  - apply (proj1 (deleteClub_refused_or_gone campusStore (mkCtx head7 90) 1)).
    simpl. discriminate.
  - apply (proj1 (proj2 (deleteClub_refused_or_gone campusStore
                           (mkCtx admin1 90) 5)));
      reflexivity.
  - destruct (deleteClub_refused_or_gone campusStore (mkCtx admin1 90) 1)
      as (_ & _ & H).
    destruct (H eq_refl ltac:(simpl; discriminate)) as (_ & H200 & _).
    destruct (H200 eq_refl) as (H1 & H2).
    split; [reflexivity|]. split; [exact H1|].
    split; [apply (H2 (mkCtx admin1 95) eq_refl)|].
    destruct (deleteClub_refused_or_gone ratedCampus (mkCtx admin1 90) 1)
      as (_ & _ & H').
    destruct (H' eq_refl ltac:(simpl; discriminate)) as (_ & _ & H500).
    split; [reflexivity | exact (H500 eq_refl)].
Defined.

(** Every booking refers to a stored poster, every like to a stored post,
    and every poster to a stored event of the poster's club. *)
Definition referencesResolve (s : Store) : Prop :=
  (forall t, In t (rows (db_ticketBookings s)) ->
     exists p, In p (rows (db_posters s)) /\ Poster.id p = TicketBooking.posterId t) /\
  (forall l, In l (rows (db_postLikes s)) ->
     exists p, In p (rows (db_posts s)) /\ Post.id p = PostLike.postId l) /\
  (forall p, In p (rows (db_posters s)) ->
     exists e, In e (rows (db_events s)) /\ Event.id e = Poster.eventId p /\
               Event.clubId e = Poster.clubId p).

Lemma existsb_false_not_in {R} (q : R -> bool) (l : list R) (x : R) :
  existsb q l = false -> In x l -> q x = false.
Proof.
  intros H Hin. destruct (q x) eqn:E; [|reflexivity].
  assert (existsb q l = true) by (apply existsb_exists; eauto). congruence.
Qed.

(** X11. After an accepted [deleteClub] (one answered 200) no poster,
    event, event request or post of that club is left, no subscription or
    rating refers to it, and the cascade leaves no dangling reference among
    the tables it handles: if before every booking referred to a stored
    poster, every like to a stored post and every poster to an event of its
    club, the same holds afterwards. *)
Theorem deleteClub_leaves_no_reference
    (s : Store) (c : Ctx) (clubId : Z) (K : Club.t) :
  urole (user c) = super_admin ->
  clubAt s clubId = Some K ->
  code (response (handler (deleteClub c clubId) s)) = 200 ->
  let s' := store (handler (deleteClub c clubId) s) in
  (forall p, In p (rows (db_posters s')) -> Poster.clubId p <> clubId) /\
  (forall e, In e (rows (db_events s')) -> Event.clubId e <> clubId) /\
  (forall q, In q (rows (db_eventRequests s')) -> EventRequest.clubId q <> clubId) /\
  (forall p, In p (rows (db_posts s')) -> Post.clubId p <> Some clubId) /\
  (forall x, In x (rows (db_clubSubscriptions s')) ->
     ClubSubscription.clubId x <> clubId) /\
  (forall x, In x (rows (db_clubRatings s')) -> ClubRating.clubId x <> clubId) /\
  (referencesResolve s -> referencesResolve s').
Proof.
  intros Hr Hf H200 s'. subst s'.
  destruct (deleteClub_accepted s c clubId K Hr Hf H200) as (_ & Huse & ->).
  apply orb_false_iff in Huse. destruct Huse as [Hsub Hrat].
  unfold store. simpl fst. simpl snd.
  split; [|split; [|split; [|split; [|split; [|split]]]]]; simpl.
  - intros p Hp. apply filter_In in Hp. destruct Hp as [_ Hp].
    apply negb_true_iff, Z.eqb_neq in Hp. exact Hp.
  - intros e He. apply filter_In in He. destruct He as [_ He].
    apply negb_true_iff, Z.eqb_neq in He. exact He.
  - intros q Hq. apply filter_In in Hq. destruct Hq as [_ Hq].
    apply negb_true_iff, Z.eqb_neq in Hq. exact Hq.
  - intros p Hp. apply filter_In in Hp. destruct Hp as [_ Hp].
    apply negb_true_iff in Hp. intros E. rewrite E in Hp. simpl in Hp.
    rewrite Z.eqb_refl in Hp. discriminate.
  - intros x Hx E.
    pose proof (existsb_false_not_in _ _ x Hsub Hx) as H. simpl in H.
    rewrite E, Z.eqb_refl in H. discriminate.
  - intros x Hx E.
    pose proof (existsb_false_not_in _ _ x Hrat Hx) as H. simpl in H.
    rewrite E, Z.eqb_refl in H. discriminate.
  - intros (Hb & Hl & He). split; [|split]; simpl.
    + intros t Ht. apply filter_In in Ht. destruct Ht as [Ht Hkeep].
      apply negb_true_iff in Hkeep.
      destruct (Hb t Ht) as (p & Hp & Hid). exists p. split; [|exact Hid].
      apply filter_In. split; [exact Hp|]. apply negb_true_iff.
      destruct (Poster.clubId p =? clubId) eqn:E; [|reflexivity].
      exfalso.
      assert (Hin : In p (postersOf clubId s))
        by (apply filter_In; split; assumption).
      pose proof (existsb_false_not_in _ _ p Hkeep Hin) as H. simpl in H.
      rewrite Hid, Z.eqb_refl in H. discriminate.
    + intros l Hin. apply filter_In in Hin. destruct Hin as [Hin Hkeep].
      apply negb_true_iff in Hkeep.
      destruct (Hl l Hin) as (p & Hp & Hid). exists p. split; [|exact Hid].
      apply filter_In. split; [exact Hp|]. apply negb_true_iff.
      destruct (clubIs clubId (Post.clubId p)) eqn:E; [|reflexivity].
      exfalso.
      assert (Hin' : In p (postsOf clubId s))
        by (apply filter_In; split; assumption).
      pose proof (existsb_false_not_in _ _ p Hkeep Hin') as H. simpl in H.
      rewrite Hid, Z.eqb_refl in H. discriminate.
    + intros p Hp. apply filter_In in Hp. destruct Hp as [Hp Hkeep].
      destruct (He p Hp) as (e & Hin & Hid & Hclub). exists e.
      split; [|split; assumption].
      apply filter_In. split; [exact Hin|]. rewrite Hclub. exact Hkeep.
Qed.

Lemma campusStore_referencesResolve : referencesResolve campusStore.
Proof.
  split; [|split]; simpl; intros x Hx.
  - destruct Hx as [<-|[<-|[]]]; eexists; split;
      [left; reflexivity | reflexivity | right; left; reflexivity | reflexivity].
  - destruct Hx as [<-|[<-|[<-|[]]]]; eexists; split;
      [left; reflexivity | reflexivity
      | right; left; reflexivity | reflexivity
      | right; right; left; reflexivity | reflexivity].
  - destruct Hx as [<-|[<-|[]]]; eexists; split;
      [left; reflexivity | split; reflexivity
      | right; left; reflexivity | split; reflexivity].
Defined.

Lemma deleteClub_leaves_no_reference_witness :
  let s' := store (handler (deleteClub (mkCtx admin1 90) 1) campusStore) in
  (forall p, In p (rows (db_posters s')) -> Poster.clubId p <> 1) /\
  referencesResolve s'.
Proof.
  destruct (deleteClub_leaves_no_reference campusStore (mkCtx admin1 90) 1
              (mkClub 1 7 "Chess Club") eq_refl eq_refl eq_refl)
    as (H1 & _ & _ & _ & _ & _ & H5).
  split; [exact H1 | exact (H5 campusStore_referencesResolve)].
Defined.

(** ** toggleLikePost: the counter and the like rows *)

Lemma toggleLikePost_missing (s : Store) (c : Ctx) (postId : Z) :
  postAt s postId = None ->
  handler (toggleLikePost c postId) s
  = (mkResponse 404 "Post not found" None, s, []).
Proof.
  unfold postAt, byId, toggleLikePost. simpl. intros Hp. exec. rewrite Hp.
  reflexivity.
Qed.

Section LikesCounted.
Variable pid : Z.

(** The like rows of post [pid]. *)
Definition likesOf (l : list PostLike.t) : list PostLike.t :=
  filter (fun x => PostLike.postId x =? pid) l.

(** The [likes] column of post [pid] is the number of its like rows, and no
    user has more than one like row on it. *)
Definition LikesCounted (s : Store) : Prop :=
  (exists p, postAt s pid = Some p /\
             Post.likes p = Z.of_nat (List.length (likesOf (rows (db_postLikes s))))) /\
  (forall u, (List.length (filter (likeBy pid u) (rows (db_postLikes s))) <= 1)%nat).

Lemma filter_none_of_find {R} (q : R -> bool) (l : list R) :
  find q l = None -> filter q l = [].
Proof.
  induction l as [|x l IH]; simpl; [reflexivity|].
  destruct (q x); [discriminate | exact IH].
Qed.

Lemma filter_some_of_find {R} (q : R -> bool) (l : list R) (x : R) :
  find q l = Some x -> (1 <= List.length (filter q l))%nat.
Proof.
  induction l as [|y l IH]; simpl; [discriminate|].
  destruct (q y); simpl; [lia | exact IH].
Qed.

Lemma filter_filter_shorter {R} (f g : R -> bool) (l : list R) :
  (List.length (filter f (filter g l)) <= List.length (filter f l))%nat.
Proof.
  induction l as [|x l IH]; simpl; [lia|].
  destruct (g x); simpl; destruct (f x); simpl; lia.
Qed.

Lemma likesOf_split (u : Z) (l : list PostLike.t) :
  List.length (likesOf l)
  = (List.length (filter (likeBy pid u) l)
     + List.length (likesOf (filter (fun x => negb (likeBy pid u x)) l)))%nat.
Proof.
  unfold likesOf, likeBy.
  induction l as [|x l IH]; simpl; [reflexivity|].
  destruct (PostLike.postId x =? pid) eqn:E1;
    destruct (PostLike.userId x =? u) eqn:E2; simpl; rewrite ?E1; simpl; lia.
Qed.

Lemma likesOf_elsewhere (q u : Z) (l : list PostLike.t) :
  q <> pid ->
  likesOf (filter (fun x => negb (likeBy q u x)) l) = likesOf l.
Proof.
  intros Hq. unfold likesOf. rewrite filter_filter. apply filter_ext.
  intros x. unfold likeBy.
  destruct (PostLike.postId x =? pid) eqn:E; [|apply andb_false_r].
  apply Z.eqb_eq in E.
  destruct (PostLike.postId x =? q) eqn:E'; [|reflexivity].
  apply Z.eqb_eq in E'. congruence.
Qed.

Lemma postAt_other_setLikes (s : Store) (T : Table PostLike.t) (q n now : Z) :
  q <> pid ->
  postAt (upd posts (mkTable (map (setLikes q n now) (rows (db_posts s)))
                             (lastId (db_posts s)))
                    (upd postLikes T s)) pid
  = postAt s pid.
Proof.
  intros Hq. unfold postAt, byId. simpl. unfold setLikes.
  rewrite (find_map_where Post.id) by reflexivity.
  destruct (find (fun r => Post.id r =? pid) (rows (db_posts s))) as [p|] eqn:E;
    [|reflexivity].
  simpl. apply find_some in E. destruct E as [_ E]. apply Z.eqb_eq in E.
  rewrite E. destruct (pid =? q) eqn:E'; [|reflexivity].
  apply Z.eqb_eq in E'. congruence.
Qed.

Lemma LikesCounted_toggle (s : Store) (c : Ctx) (q : Z) :
  LikesCounted s -> LikesCounted (store (handler (toggleLikePost c q) s)).
Proof.
  intros [(p & Hp & Hcount) Huniq].
  destruct (postAt s q) as [pq|] eqn:Hq;
    [|rewrite (toggleLikePost_missing s c q Hq); split; eauto].
  destruct (find (likeBy q (uid (user c))) (rows (db_postLikes s))) as [l|] eqn:Hl.
  - (* unlike *)
    rewrite (toggleLikePost_unlikes s c q pq l Hq Hl).
    unfold store. cbn [fst snd]. split.
    + destruct (Z.eq_dec q pid) as [->|Hne].
      * assert (pq = p) by congruence. subst pq.
        rewrite (postAt_setLikes s _ pid _ _ p Hp).
        eexists. split; [reflexivity|]. simpl.
        pose proof (likesOf_split (uid (user c)) (rows (db_postLikes s))) as Hs.
        pose proof (filter_some_of_find _ _ _ Hl) as H1.
        pose proof (Huniq (uid (user c))) as H2. lia.
      * rewrite (postAt_other_setLikes s _ q _ _ Hne).
        exists p. split; [exact Hp|]. simpl.
        rewrite (likesOf_elsewhere q _ _ Hne). exact Hcount.
    + intros u. simpl.
      pose proof (filter_filter_shorter (likeBy pid u)
                    (fun x => negb (likeBy q (uid (user c)) x))
                    (rows (db_postLikes s))) as H.
      pose proof (Huniq u). lia.
  - (* like *)
    rewrite (toggleLikePost_likes s c q pq Hq Hl).
    unfold store. cbn [fst snd]. split.
    + destruct (Z.eq_dec q pid) as [->|Hne].
      * assert (pq = p) by congruence. subst pq.
        rewrite (postAt_setLikes s _ pid _ _ p Hp).
        eexists. split; [reflexivity|]. simpl.
        unfold likesOf in *. rewrite filter_app, length_app. simpl.
        rewrite Z.eqb_refl. simpl. lia.
      * rewrite (postAt_other_setLikes s _ q _ _ Hne).
        exists p. split; [exact Hp|]. simpl.
        unfold likesOf in *. rewrite filter_app, length_app. simpl.
        destruct (q =? pid) eqn:E; [apply Z.eqb_eq in E; contradiction|].
        simpl. lia.
    + intros u. simpl. rewrite filter_app, length_app. simpl.
      unfold likeBy at 2. simpl.
      destruct ((q =? pid) && (uid (user c) =? u)) eqn:E; simpl.
      * apply andb_true_iff in E. destruct E as [E1 E2].
        apply Z.eqb_eq in E1. apply Z.eqb_eq in E2. subst q u.
        rewrite (filter_none_of_find _ _ Hl). simpl. lia.
      * pose proof (Huniq u). lia.
Qed.
End LikesCounted.

(** The store after a sequence of like requests, each by some caller on
    some post. *)
Definition toggles (s : Store) (calls : list (Ctx * Z)) : Store :=
  fold_left (fun s x => store (handler (toggleLikePost (fst x) (snd x)) s)) calls s.

(** X12. [toggleLikePost] keeps the like counter honest: if the [likes]
    column of a post equals the number of its like rows and no user has more
    than one like row on it, the same holds after any sequence of like
    requests by any callers on any posts. *)
Theorem toggles_keep_likes_counted (pid : Z) (calls : list (Ctx * Z)) (s : Store) :
  LikesCounted pid s -> LikesCounted pid (toggles s calls).
Proof.
  revert s. induction calls as [|x calls IH]; simpl; intros s H; [exact H|].
  apply IH. apply LikesCounted_toggle. exact H.
Qed.

Lemma campusStore_likes_counted : LikesCounted 1 campusStore.
Proof.
  split.
  - exists (mkPost 1 (Some 1) 7 1). split; reflexivity.
  - intros u. simpl. unfold likeBy. simpl.
    match goal with |- context [if ?b then _ else _] => destruct b end;
      simpl; lia.
Defined.

Lemma toggles_keep_likes_counted_witness :
  LikesCounted 1
    (toggles campusStore
       [(mkCtx head7 50, 1); (mkCtx student3 51, 1); (mkCtx student3 52, 2);
        (mkCtx head7 53, 1)]).
Proof.
  apply (toggles_keep_likes_counted 1 _ campusStore).
  exact campusStore_likes_counted.
Defined.

(** ** Requests: rejection and event approval *)

(** X13. Rejecting a request creates nothing and promotes nobody: for every
    caller and request id, [rejectClubRequest] and [rejectEventRequest] leave
    the clubs, events and users tables (and every table but the request
    table itself) as they were; on a pending request a super admin gets 200
    and the request is stored as rejected. *)
Theorem rejection_writes_only_the_request (s : Store) (c : Ctx) (k : Z) :
  let rc := handler (rejectClubRequest c k) s in
  let re := handler (rejectEventRequest c k) s in
  (db_clubs (store rc) = db_clubs s /\ db_users (store rc) = db_users s /\
   db_events (store rc) = db_events s /\
   db_eventRequests (store rc) = db_eventRequests s /\
   db_posters (store rc) = db_posters s) /\
  (db_clubs (store re) = db_clubs s /\ db_users (store re) = db_users s /\
   db_events (store re) = db_events s /\
   db_clubRequests (store re) = db_clubRequests s /\
   db_posters (store re) = db_posters s) /\
  (urole (user c) = super_admin ->
   (forall R, clubRequestAt s k = Some R -> ClubRequest.status R = pending ->
      code (response rc) = 200 /\
      clubRequestAt (store rc) k
      = Some (ClubRequest.set_status rejected (now c) R)) /\
   (forall R, eventRequestAt s k = Some R -> EventRequest.status R = pending ->
      code (response re) = 200 /\
      eventRequestAt (store re) k
      = Some (EventRequest.set_status rejected (now c) R))).
Proof.
  simpl. split; [|split].
  - destruct (Role_eqb (urole (user c)) super_admin) eqn:Er.
    + apply Role_eqb_eq in Er.
      destruct (clubRequestAt s k) as [R|] eqn:Ef.
      * destruct (Status_eqb (ClubRequest.status R) pending) eqn:Es.
        -- apply Status_eqb_eq in Es.
           destruct (rejectClubRequest_pending s c k R Er Ef Es) as (_ & -> & _).
           repeat split.
        -- assert (Hs : ClubRequest.status R <> pending)
             by (intros H; apply Status_eqb_eq in H; congruence).
           destruct (clubRequestCall_resolved reject s c k R Ef Hs) as (E & _).
           simpl in E. rewrite E. repeat split.
      * unfold clubRequestAt, byId in Ef. simpl in Ef.
        unfold rejectClubRequest. exec. rewrite Er. simpl. rewrite Ef.
        repeat split.
    + unfold rejectClubRequest. exec. rewrite Er. repeat split.
  - destruct (Role_eqb (urole (user c)) super_admin) eqn:Er.
    + apply Role_eqb_eq in Er.
      destruct (eventRequestAt s k) as [R|] eqn:Ef.
      * destruct (Status_eqb (EventRequest.status R) pending) eqn:Es.
        -- apply Status_eqb_eq in Es.
           destruct (rejectEventRequest_pending s c k R Er Ef Es) as (_ & -> & _).
           repeat split.
        -- assert (Hs : EventRequest.status R <> pending)
             by (intros H; apply Status_eqb_eq in H; congruence).
           destruct (eventRequestCall_resolved reject s c k R Ef Hs) as (E & _).
           simpl in E. rewrite E. repeat split.
      * unfold eventRequestAt, byId in Ef. simpl in Ef.
        unfold rejectEventRequest. exec. rewrite Er. simpl. rewrite Ef.
        repeat split.
    + unfold rejectEventRequest. exec. rewrite Er. repeat split.
  - intros Hr. split.
    + intros R Hf Hs.
      destruct (rejectClubRequest_pending s c k R Hr Hf Hs) as (-> & -> & _).
      split; [reflexivity|].
      unfold clubRequestAt, byId in *. simpl in *.
      rewrite (find_map_where ClubRequest.id) by reflexivity.
      rewrite Hf. simpl. apply find_some in Hf. destruct Hf as [_ ->].
      reflexivity.
    + intros R Hf Hs.
      destruct (rejectEventRequest_pending s c k R Hr Hf Hs) as (-> & -> & _).
      split; [reflexivity|].
      unfold eventRequestAt, byId in *. simpl in *.
      rewrite (find_map_where EventRequest.id) by reflexivity.
      rewrite Hf. simpl. apply find_some in Hf. destruct Hf as [_ ->].
      reflexivity.
Qed.

Lemma rejection_writes_only_the_request_witness :
  let rc := handler (rejectClubRequest (mkCtx admin1 40) 2) requestsStore in
  let re := handler (rejectEventRequest (mkCtx admin1 40) 2) requestsStore in
  (code (response rc) = 200 /\
   clubRequestAt (store rc) 2
   = Some (ClubRequest.set_status rejected 40 (mkClubRequest 2 3 "Go Club" pending))) /\
  (code (response re) = 200 /\
   eventRequestAt (store re) 2
   = Some (EventRequest.set_status rejected 40 (mkEventRequest 2 1 9 pending))).
Proof.
  destruct (rejection_writes_only_the_request requestsStore (mkCtx admin1 40) 2)
    as (_ & _ & H).
  destruct (H eq_refl) as (Hc & He).
  split.
  - apply (Hc (mkClubRequest 2 3 "Go Club" pending)); reflexivity.
  - apply (He (mkEventRequest 2 1 9 pending)); reflexivity.
Defined.

(** Ids of the events table were handed out by its counter. *)
Definition eventsKeyed (s : Store) : Prop :=
  forall e, In e (rows (db_events s)) -> Event.id e <= lastId (db_events s).

(** X14. Approving a pending event request cannot fail: a super admin gets
    200, the request is stored as approved, exactly one event row is added,
    copying the request's club, head, name, date, place and programme, and no
    user's role changes; the event is found under its new id. *)
Theorem approveEventRequest_creates_event
    (s : Store) (c : Ctx) (k : Z) (R : EventRequest.t) :
  urole (user c) = super_admin ->
  eventRequestAt s k = Some R ->
  EventRequest.status R = pending ->
  eventsKeyed s ->
  let r := handler (approveEventRequest c k) s in
  let i := lastId (db_events s) + 1 in
  code (response r) = 200 /\
  eventRequestAt (store r) k = Some (EventRequest.set_status approved (now c) R) /\
  rows (db_events (store r)) = rows (db_events s) ++ [eventOf R (now c) i] /\
  eventAt (store r) i = Some (eventOf R (now c) i) /\
  Event.clubId (eventOf R (now c) i) = EventRequest.clubId R /\
  Event.headId (eventOf R (now c) i) = EventRequest.headId R /\
  db_users (store r) = db_users s /\
  db_clubs (store r) = db_clubs s.
Proof.
  intros Hr Hf Hs Hkey r i. subst r.
  destruct (approveEventRequest_pending s c k R Hr Hf Hs) as (-> & -> & _).
  split; [reflexivity|]. split.
  - unfold eventRequestAt, byId in *. simpl in *.
    rewrite (find_map_where EventRequest.id) by reflexivity.
    rewrite Hf. simpl. apply find_some in Hf. destruct Hf as [_ ->].
    reflexivity.
  - split; [reflexivity|]. split; [|repeat split].
    unfold eventAt, byId. simpl. rewrite find_app_none.
    + simpl. subst i. rewrite Z.eqb_refl. reflexivity.
    + apply (find_absent_key Event.id). intros e He. apply Hkey in He.
      subst i. lia.
Qed.

(** The requests store with the event of club 1 in place. *)
Definition requestsStoreWithEvent : Store :=
  upd events (mkTable [mkEvent 1 1 9] 1) requestsStore.

Lemma requestsStoreWithEvent_keyed : eventsKeyed requestsStoreWithEvent.
Proof. intros e [<-|[]]. simpl. lia. Defined.

Lemma approveEventRequest_creates_event_witness :
  let r := handler (approveEventRequest (mkCtx admin1 40) 2) requestsStoreWithEvent in
  code (response r) = 200 /\
  eventRequestAt (store r) 2
  = Some (EventRequest.set_status approved 40 (mkEventRequest 2 1 9 pending)) /\
  rows (db_events (store r))
  = [mkEvent 1 1 9; eventOf (mkEventRequest 2 1 9 pending) 40 2] /\
  eventAt (store r) 2 = Some (eventOf (mkEventRequest 2 1 9 pending) 40 2) /\
  Event.clubId (eventOf (mkEventRequest 2 1 9 pending) 40 2) = 1 /\
  Event.headId (eventOf (mkEventRequest 2 1 9 pending) 40 2) = 9 /\
  db_users (store r) = db_users requestsStoreWithEvent /\
  db_clubs (store r) = db_clubs requestsStoreWithEvent.
Proof.
  apply (approveEventRequest_creates_event requestsStoreWithEvent
           (mkCtx admin1 40) 2 (mkEventRequest 2 1 9 pending)).
  - reflexivity.
  - reflexivity.
  - reflexivity.
  - exact requestsStoreWithEvent_keyed.
Defined.

(** X15. From request to poster: once a pending event request has been
    approved, the request's head (signed in as head admin) can create a
    poster for the new event; the poster belongs to the request's club and
    starts with [seatsLeft = seats]. *)
Theorem approved_event_can_get_a_poster
    (s : Store) (c ch : Ctx) (k : Z) (R : EventRequest.t) (b : NewPoster) :
  urole (user c) = super_admin ->
  eventRequestAt s k = Some R ->
  EventRequest.status R = pending ->
  eventsKeyed s ->
  urole (user ch) = head_admin ->
  uid (user ch) = EventRequest.headId R ->
  np_eventId b = lastId (db_events s) + 1 ->
  let s1 := store (handler (approveEventRequest c k) s) in
  let r := handler (createPoster ch b) s1 in
  code (response r) = 201 /\
  exists p, rows (db_posters (store r)) = rows (db_posters s) ++ [p] /\
            Poster.eventId p = lastId (db_events s) + 1 /\
            Poster.clubId p = EventRequest.clubId R /\
            Poster.headId p = EventRequest.headId R /\
            Poster.seats p = np_seats b /\ Poster.seatsLeft p = np_seats b.
Proof.
  intros Hr Hf Hs Hkey Hh Hu Hb s1 r.
  destruct (approveEventRequest_creates_event s c k R Hr Hf Hs Hkey)
    as (_ & _ & _ & He & _).
  fold s1 in He. rewrite <- Hb in He.
  assert (Ho : Event.headId (eventOf R (now c) (np_eventId b)) = uid (user ch))
    by (simpl; congruence).
  subst r. rewrite (createPoster_accepted s1 ch b _ Hh He Ho).
  split; [reflexivity|].
  eexists. split.
  - unfold store. simpl. subst s1.
    destruct (approveEventRequest_pending s c k R Hr Hf Hs) as (_ & -> & _).
    reflexivity.
  - simpl. repeat split; congruence.
Qed.

Lemma approved_event_can_get_a_poster_witness :
  let b := mkNewPoster 2 "Blitz" "2025-06-01" "Hall" "19:00" "Games" 40 50 None in
  let s1 := store (handler (approveEventRequest (mkCtx admin1 40) 2)
                           requestsStoreWithEvent) in
  let r := handler (createPoster (mkCtx (mkAuth 9 head_admin) 41) b) s1 in
  code (response r) = 201 /\
  exists p, rows (db_posters (store r)) = rows (db_posters requestsStoreWithEvent) ++ [p] /\
            Poster.eventId p = 1 + 1 /\ Poster.clubId p = 1 /\
            Poster.headId p = 9 /\
            Poster.seats p = 40 /\ Poster.seatsLeft p = 40.
Proof.
  apply (approved_event_can_get_a_poster requestsStoreWithEvent
           (mkCtx admin1 40) (mkCtx (mkAuth 9 head_admin) 41) 2
           (mkEventRequest 2 1 9 pending)
           (mkNewPoster 2 "Blitz" "2025-06-01" "Hall" "19:00" "Games" 40 50 None)).
  - reflexivity.
  - reflexivity.
  - reflexivity.
  - exact requestsStoreWithEvent_keyed.
  - reflexivity.
  - reflexivity.
  - reflexivity.
Defined.

(** * The remaining controllers of the cited files *)

(** [res.status(code).json(data)] where [data] is rows rather than a
    message. *)
Inductive Reply (A : Type) :=
| Sent (code : Z) (data : A)
| Said (r : Response).
Arguments Sent {A} _ _.
Arguments Said {A} _.

Definition say {A} (c : Z) (m : string) : DB (Reply A) :=
  ret (Said (mkResponse c m None)).

Definition send {A} (c : Z) (data : A) : DB (Reply A) := ret (Sent c data).

(** The [try]/[catch] wrapper of a controller that answers with rows. *)
Definition handlerR {A} (body : DB (Reply A)) (s : Store)
  : Reply A * Store * list Stmt :=
  match body s with
  | (Done r, s', j) => (r, s', j)
  | (Thrown e, s', j) => (Said (mkResponse 500 "Server error" (Some e)), s', j)
  end.

(** An exception raised by the controller's own code. *)
Definition throw {A} (e : string) : DB A := fun s => (Thrown e, s, []).

(** [a.leftJoin(b, on)]: every row of [a] with each matching row of [b], or
    with NULL when none matches. *)
Definition leftJoin {A B} (l : list A) (r : list B) (on : A -> B -> bool)
  : list (A * option B) :=
  flat_map (fun a =>
              match filter (on a) r with
              | [] => [(a, None)]
              | ms => map (fun b => (a, Some b)) ms
              end) l.

(** ** clubRequestController.js, the other controllers *)

(** Body of [POST /api/club-requests]. *)
Record NewClubRequest := mkNewClubRequest {
  nc_title : string; nc_clubName : string; nc_goal : string;
  nc_description : string; nc_financing : string;
  nc_resources : option string; nc_phone : string;
  nc_communication : string; nc_attractionMethods : string;
  nc_comment : option string }.

Definition createClubRequest (c : Ctx) (b : NewClubRequest) : DB Response :=
  let userId := uid (user c) in
  user <- get users (fun u => User.id u =? userId) ;;
  match user with
  | None => throw "Cannot read properties of undefined (reading 'email')"
  | Some user =>
      insert clubRequests (fun i =>
        ClubRequest.mk i (nc_title b) userId (User.email user) (nc_phone b)
          (nc_communication b) (nc_clubName b) (nc_goal b) (nc_description b)
          (nc_financing b) (nc_resources b) (nc_attractionMethods b)
          (nc_comment b) pending (now c) (now c)) ;;;
      json 201 "Club request submitted successfully"
  end.

Definition getAllClubRequests (c : Ctx) : DB (Reply (list ClubRequest.t)) :=
  if negb (Role_eqb (urole (user c)) super_admin)
  then say 403 "Unauthorized access"
  else
    requests <- all clubRequests (fun _ => true) ;;
    send 200 requests.

Definition getClubRequestById (c : Ctx) (requestId : Z)
  : DB (Reply ClubRequest.t) :=
  request <- get clubRequests (fun r => ClubRequest.id r =? requestId) ;;
  match request with
  | None => say 404 "Club request not found"
  | Some request =>
      if negb (Role_eqb (urole (user c)) super_admin)
         && negb (uid (user c) =? ClubRequest.headId request)
      then say 403 "Unauthorized access"
      else send 200 request
  end.

Definition getUserClubRequests (c : Ctx) : DB (Reply (list ClubRequest.t)) :=
  let userId := uid (user c) in
  requests <- all clubRequests (fun r => ClubRequest.headId r =? userId) ;;
  send 200 requests.

(** ** eventRequestController.js, the other controllers *)

Definition getEventRequestById (c : Ctx) (requestId : Z)
  : DB (Reply EventRequest.t) :=
  request <- get eventRequests (fun r => EventRequest.id r =? requestId) ;;
  match request with
  | None => say 404 "Event request not found"
  | Some request =>
      if negb (Role_eqb (urole (user c)) super_admin)
         && negb (uid (user c) =? EventRequest.headId request)
      then say 403 "Unauthorized access"
      else send 200 request
  end.

Definition getUserEventRequests (c : Ctx) : DB (Reply (list EventRequest.t)) :=
  if negb (Role_eqb (urole (user c)) head_admin)
  then say 403 "Unauthorized access"
  else
    let userId := uid (user c) in
    requests <- all eventRequests (fun r => EventRequest.headId r =? userId) ;;
    send 200 requests.

(** Body of [POST /api/event-requests]. *)
Record NewEventRequest := mkNewEventRequest {
  ne_eventName : string; ne_eventDate : string; ne_location : string;
  ne_shortDescription : string; ne_goal : string; ne_organizers : string;
  ne_schedule : string; ne_sponsorship : option string;
  ne_clubHead : string; ne_phone : string; ne_comment : option string }.

(** [createEventRequest], with [file] the name under which the upload
    middleware stored the image, when there is one.  The answer comes with
    the file names handed to [deleteFile].  The [image] value passed to
    [.values] has no column in [event_requests] and is not stored. *)
Definition createEventRequest (c : Ctx) (file : option string)
           (b : NewEventRequest) : DB (Response * list string) :=
  if negb (Role_eqb (urole (user c)) head_admin)
  then ret (mkResponse 403 "Only head admins can create event requests" None, [])
  else
    let userId := uid (user c) in
    club <- get clubs (fun k => Club.headId k =? userId) ;;
    match club with
    | None =>
        ret (mkResponse 404 "You do not have a club" None,
             match file with
             | Some f => [f]
             | None => []
             end)
    | Some club =>
        insert eventRequests (fun i =>
          EventRequest.mk i (Club.id club) userId (ne_eventName b)
            (ne_eventDate b) (ne_location b) (ne_shortDescription b)
            (ne_goal b) (ne_organizers b) (ne_schedule b) (ne_sponsorship b)
            (ne_clubHead b) (ne_phone b) (ne_comment b) pending
            (now c) (now c)) ;;;
        ret (mkResponse 201 "Event request submitted successfully" None, [])
    end.

(** The [catch] of a controller that received an upload: the file is
    deleted and the answer is 500. *)
Definition handlerU (file : option string) (body : DB (Response * list string))
           (s : Store) : (Response * list string) * Store * list Stmt :=
  match body s with
  | (Done r, s', j) => (r, s', j)
  | (Thrown e, s', j) =>
      ((mkResponse 500 "Server error" (Some e),
        match file with
        | Some f => [f]
        | None => []
        end), s', j)
  end.

(** ** ticketController.js, the listings *)

(** One row of [GET /api/tickets/pending]. *)
Record PendingTicket := mkPendingTicket {
  pt_id : Z; pt_numberOfPersons : Z; pt_paymentProof : option string;
  pt_createdAt : Z;
  pt_poster : option (Z * string * string);
  pt_user : option (Z * string * string * string) }.

Definition getPendingTickets (c : Ctx) : DB (Reply (list PendingTicket)) :=
  if negb (Role_eqb (urole (user c)) head_admin)
  then say 403 "Unauthorized access"
  else
    let headId := uid (user c) in
    fun s =>
      let joined :=
        leftJoin
          (leftJoin (rows (db_ticketBookings s)) (rows (db_posters s))
             (fun t p => TicketBooking.posterId t =? Poster.id p))
          (rows (db_users s))
          (fun tp u => TicketBooking.userId (fst tp) =? User.id u) in
      let kept :=
        filter (fun x =>
                  match snd (fst x) with
                  | Some p => Poster.headId p =? headId
                  | None => false
                  end
                  && Status_eqb (TicketBooking.status (fst (fst x))) pending)
               joined in
      send 200
        (map (fun x =>
                mkPendingTicket
                  (TicketBooking.id (fst (fst x)))
                  (TicketBooking.numberOfPersons (fst (fst x)))
                  (TicketBooking.paymentProof (fst (fst x)))
                  (TicketBooking.createdAt (fst (fst x)))
                  (option_map (fun p => (Poster.id p, Poster.eventTitle p,
                                         Poster.eventDate p))
                              (snd (fst x)))
                  (option_map (fun u => (User.id u, User.name u,
                                         User.surname u, User.email u))
                              (snd x)))
             kept) s.

(** One row of [GET /api/tickets]. *)
Record UserTicket := mkUserTicket {
  ut_id : Z; ut_numberOfPersons : Z; ut_status : Status; ut_createdAt : Z;
  ut_poster : option (Z * string * string * string * string * Z) }.

Definition getUserTickets (c : Ctx) : DB (Reply (list UserTicket)) :=
  let userId := uid (user c) in
  fun s =>
    let joined :=
      leftJoin (rows (db_ticketBookings s)) (rows (db_posters s))
               (fun t p => TicketBooking.posterId t =? Poster.id p) in
    let kept := filter (fun x => TicketBooking.userId (fst x) =? userId) joined in
    send 200
      (map (fun x =>
              mkUserTicket
                (TicketBooking.id (fst x))
                (TicketBooking.numberOfPersons (fst x))
                (TicketBooking.status (fst x))
                (TicketBooking.createdAt (fst x))
                (option_map (fun p => (Poster.id p, Poster.eventTitle p,
                                       Poster.eventDate p, Poster.location p,
                                       Poster.time p, Poster.price p))
                            (snd x)))
           kept) s.

(** ** clubController.js, the other writers and readers *)

(** Body of [PUT /api/clubs/:id]. *)
Record ClubPatch := mkClubPatch {
  cp_goal : option string; cp_description : option string;
  cp_financing : option string; cp_resources : option string;
  cp_attractionMethods : option string }.

(** [resources || club.resources] on the nullable column. *)
Definition or_opt (x : option string) (y : option string) : option string :=
  if truthy_str x then x else y.

(** The [.set({...})] of [updateClub]. *)
Definition patchClub (b : ClubPatch) (club : Club.t) (now : Z) (row : Club.t)
  : Club.t :=
  Club.mk (Club.id row) (Club.name row) (Club.headId row)
    (or_str (cp_goal b) (Club.goal club))
    (or_str (cp_description b) (Club.description club))
    (or_str (cp_financing b) (Club.financing club))
    (or_opt (cp_resources b) (Club.resources club))
    (or_str (cp_attractionMethods b) (Club.attractionMethods club))
    (Club.rating row) (Club.createdAt row) now.

Definition updateClub (c : Ctx) (clubId : Z) (b : ClubPatch) : DB Response :=
  let userId := uid (user c) in
  club <- get clubs (fun k => Club.id k =? clubId) ;;
  match club with
  | None => json 404 "Club not found"
  | Some club =>
      if negb (Role_eqb (urole (user c)) head_admin)
         || negb (Club.headId club =? userId)
      then json 403 "Unauthorized access"
      else
        update clubs (patchClub b club (now c)) (fun k => Club.id k =? clubId) ;;;
        json 200 "Club updated successfully"
  end.

Definition getUserClub (c : Ctx) : DB (Reply Club.t) :=
  let userId := uid (user c) in
  if negb (Role_eqb (urole (user c)) head_admin)
  then say 403 "Only head admins can access their club"
  else
    club <- get clubs (fun k => Club.headId k =? userId) ;;
    match club with
    | None => say 404 "Club not found"
    | Some club => send 200 club
    end.

(** ** postController.js, the other writers *)

(** Body of [PUT /api/posts/:id]; [image] may be sent as [null]. *)
Record PostPatch := mkPostPatch {
  po_title : option string; po_content : option string;
  po_image : option (option string) }.

Definition patchPost (b : PostPatch) (post : Post.t) (now : Z) (row : Post.t)
  : Post.t :=
  Post.mk (Post.id row) (Post.clubId row) (Post.userId row)
    (or_str (po_title b) (Post.title post))
    (or_str (po_content b) (Post.content post))
    (match po_image b with
     | Some image => image
     | None => Post.image post
     end)
    (Post.likes row) (Post.createdAt row) now.

Definition updatePost (c : Ctx) (postId : Z) (b : PostPatch) : DB Response :=
  let userId := uid (user c) in
  post <- get posts (fun p => Post.id p =? postId) ;;
  match post with
  | None => json 404 "Post not found"
  | Some post =>
      if negb (Post.userId post =? userId)
         && negb (Role_eqb (urole (user c)) super_admin)
      then json 403 "Unauthorized access"
      else
        update posts (patchPost b post (now c)) (fun p => Post.id p =? postId) ;;;
        json 200 "Post updated successfully"
  end.

(** [if (postLikes)] tests the imported table object, which is always
    there. *)
Definition deletePost (c : Ctx) (postId : Z) : DB Response :=
  let userId := uid (user c) in
  post <- get posts (fun p => Post.id p =? postId) ;;
  match post with
  | None => json 404 "Post not found"
  | Some post =>
      if negb (Post.userId post =? userId)
         && negb (Role_eqb (urole (user c)) super_admin)
      then json 403 "Unauthorized access"
      else
        delete postLikes (fun l => PostLike.postId l =? postId) ;;;
        delete posts (fun p => Post.id p =? postId) ;;;
        json 200 "Post deleted successfully"
  end.

(** [getFileUrl] of fileUploadService.js. *)
Definition getFileUrl (filename : option string) : option string :=
  match filename with
  | Some f => if String.eqb f "" then None else Some ("/uploads/" ++ f)%string
  | None => None
  end.

(** Body of [POST /api/posts]. *)
Record NewPost := mkNewPost { nw_title : string; nw_content : string }.

Definition createPost (c : Ctx) (file : option string) (b : NewPost)
  : DB (Response * list string) :=
  let userId := uid (user c) in
  let image := match file with
               | Some f => getFileUrl (Some f)
               | None => None
               end in
  clubId <-
    (if Role_eqb (urole (user c)) head_admin
     then
       club <- get clubs (fun k => Club.headId k =? userId) ;;
       match club with
       | Some club => ret (Some (Club.id club))
       | None => ret None
       end
     else ret None) ;;
  insert posts (fun i =>
    Post.mk i clubId userId (nw_title b) (nw_content b) image 0
            (now c) (now c)) ;;;
  ret (mkResponse 201 "Post created successfully" None, []).

(** ** middleware/auth.js *)

(** What [authorize(roles)] does with the request: call [next()] or answer. *)
Inductive Gate :=
| Next
| Stop (r : Response).

Definition authorize (roles : list Role) (user : option AuthUser) : Gate :=
  match user with
  | None => Stop (mkResponse 401 "Authentication required" None)
  | Some u =>
      if negb (Nat.eqb (List.length roles) 0)
         && negb (existsb (Role_eqb (urole u)) roles)
      then Stop (mkResponse 403 "Unauthorized access" None)
      else Next
  end.

(** ** Club requests: submitting and reading *)

(** Ids of the club requests table were handed out by its counter. *)
Definition clubRequestsKeyed (s : Store) : Prop :=
  forall r, In r (rows (db_clubRequests s)) ->
            ClubRequest.id r <= lastId (db_clubRequests s).

(** The request row that [createClubRequest] inserts for user row [U]. *)
Definition newClubRequest (c : Ctx) (b : NewClubRequest) (U : User.t) (i : Z)
  : ClubRequest.t :=
  ClubRequest.mk i (nc_title b) (uid (user c)) (User.email U) (nc_phone b)
    (nc_communication b) (nc_clubName b) (nc_goal b) (nc_description b)
    (nc_financing b) (nc_resources b) (nc_attractionMethods b) (nc_comment b)
    pending (now c) (now c).

Lemma createClubRequest_accepted (s : Store) (c : Ctx) (b : NewClubRequest)
      (U : User.t) :
  userAt s (uid (user c)) = Some U ->
  handler (createClubRequest c b) s
  = (mkResponse 201 "Club request submitted successfully" None,
     upd clubRequests
       (mkTable (rows (db_clubRequests s)
                 ++ [newClubRequest c b U (lastId (db_clubRequests s) + 1)])
                (lastId (db_clubRequests s) + 1)) s,
     [Insert t_clubRequests]).
Proof.
  unfold userAt, byId, createClubRequest. simpl. intros HU.
  exec. rewrite HU. rewrite existsb_never. reflexivity.
Qed.

Lemma getClubRequestById_run (s : Store) (c : Ctx) (k : Z) :
  handlerR (getClubRequestById c k) s
  = (match clubRequestAt s k with
     | None => Said (mkResponse 404 "Club request not found" None)
     | Some R =>
         if negb (Role_eqb (urole (user c)) super_admin)
            && negb (uid (user c) =? ClubRequest.headId R)
         then Said (mkResponse 403 "Unauthorized access" None)
         else Sent 200 R
     end, s, []).
Proof.
  unfold clubRequestAt, byId, getClubRequestById, handlerR, say, send. exec.
  destruct (find _ (rows (db_clubRequests s))) as [R|]; [|reflexivity].
  destruct (negb _ && negb _); reflexivity.
Qed.

Lemma getEventRequestById_run (s : Store) (c : Ctx) (k : Z) :
  handlerR (getEventRequestById c k) s
  = (match eventRequestAt s k with
     | None => Said (mkResponse 404 "Event request not found" None)
     | Some R =>
         if negb (Role_eqb (urole (user c)) super_admin)
            && negb (uid (user c) =? EventRequest.headId R)
         then Said (mkResponse 403 "Unauthorized access" None)
         else Sent 200 R
     end, s, []).
Proof.
  unfold eventRequestAt, byId, getEventRequestById, handlerR, say, send. exec.
  destruct (find _ (rows (db_eventRequests s))) as [R|]; [|reflexivity].
  destruct (negb _ && negb _); reflexivity.
Qed.

(** X16. A request is shown to its submitter and to super admins only:
    [getClubRequestById] and [getEventRequestById] send a request exactly
    when it is stored under that id and the caller is a super admin or the
    request's head; they write nothing. *)
Theorem request_read_access (s : Store) (c : Ctx) (k : Z) :
  (forall R,
     fst (fst (handlerR (getClubRequestById c k) s)) = Sent 200 R <->
     clubRequestAt s k = Some R /\
     (urole (user c) = super_admin \/ uid (user c) = ClubRequest.headId R)) /\
  (forall R,
     fst (fst (handlerR (getEventRequestById c k) s)) = Sent 200 R <->
     eventRequestAt s k = Some R /\
     (urole (user c) = super_admin \/ uid (user c) = EventRequest.headId R)) /\
  snd (fst (handlerR (getClubRequestById c k) s)) = s /\
  snd (handlerR (getClubRequestById c k) s) = [] /\
  snd (fst (handlerR (getEventRequestById c k) s)) = s /\
  snd (handlerR (getEventRequestById c k) s) = [].
Proof.
  rewrite getClubRequestById_run, getEventRequestById_run. simpl.
  split; [|split; [|repeat split]].
  - intros R. destruct (clubRequestAt s k) as [Q|]; [|split; [discriminate|intros [H _]; discriminate]].
    destruct (Role_eqb (urole (user c)) super_admin) eqn:Er; simpl.
    + apply Role_eqb_eq in Er. split.
      * intros H. injection H as ->. auto.
      * intros [H _]. injection H as ->. reflexivity.
    + destruct (uid (user c) =? ClubRequest.headId Q) eqn:Eo; simpl.
      * apply Z.eqb_eq in Eo. split.
        -- intros H. injection H as ->. auto.
        -- intros [H _]. injection H as ->. reflexivity.
      * split; [discriminate|]. intros [H [H'|H']].
        -- apply Role_eqb_eq in H'. congruence.
        -- injection H as ->. apply Z.eqb_neq in Eo. contradiction.
  - intros R. destruct (eventRequestAt s k) as [Q|]; [|split; [discriminate|intros [H _]; discriminate]].
    destruct (Role_eqb (urole (user c)) super_admin) eqn:Er; simpl.
    + apply Role_eqb_eq in Er. split.
      * intros H. injection H as ->. auto.
      * intros [H _]. injection H as ->. reflexivity.
    + destruct (uid (user c) =? EventRequest.headId Q) eqn:Eo; simpl.
      * apply Z.eqb_eq in Eo. split.
        -- intros H. injection H as ->. auto.
        -- intros [H _]. injection H as ->. reflexivity.
      * split; [discriminate|]. intros [H [H'|H']].
        -- apply Role_eqb_eq in H'. congruence.
        -- injection H as ->. apply Z.eqb_neq in Eo. contradiction.
Qed.

Lemma request_read_access_witness :
  fst (fst (handlerR (getClubRequestById (mkCtx student3 5) 2) requestsStore))
  = Sent 200 (mkClubRequest 2 3 "Go Club" pending) /\
  fst (fst (handlerR (getEventRequestById (mkCtx admin1 5) 1) requestsStore))
  = Sent 200 (mkEventRequest 1 1 9 rejected).
Proof.
  split.
  - apply (proj1 (request_read_access requestsStore (mkCtx student3 5) 2)).
    split; [reflexivity|]. right. reflexivity.
  - apply (proj1 (proj2 (request_read_access requestsStore (mkCtx admin1 5) 1))).
    split; [reflexivity|]. left. reflexivity.
Defined.

(** X17. Submitting is a round trip: for a caller with a user row,
    [createClubRequest] answers 201 and stores a pending request under the
    next id, owned by the caller and carrying the e-mail of the caller's user
    row; the caller reads it back with [getClubRequestById] and finds it last
    in [getUserClubRequests], and a caller who is neither the submitter nor a
    super admin is answered 403. *)
Theorem createClubRequest_round_trip
    (s : Store) (c : Ctx) (b : NewClubRequest) (U : User.t) :
  userAt s (uid (user c)) = Some U ->
  clubRequestsKeyed s ->
  let r := handler (createClubRequest c b) s in
  let k := lastId (db_clubRequests s) + 1 in
  let R := newClubRequest c b U k in
  code (response r) = 201 /\
  clubRequestAt (store r) k = Some R /\
  ClubRequest.status R = pending /\
  handlerR (getClubRequestById c k) (store r) = (Sent 200 R, store r, []) /\
  handlerR (getUserClubRequests c) (store r)
  = (Sent 200 (filter (fun q => ClubRequest.headId q =? uid (user c))
                      (rows (db_clubRequests s)) ++ [R]), store r, []) /\
  (forall c', urole (user c') <> super_admin -> uid (user c') <> uid (user c) ->
     handlerR (getClubRequestById c' k) (store r)
     = (Said (mkResponse 403 "Unauthorized access" None), store r, [])).
Proof.
  intros HU Hkey r k R. subst r R k.
  rewrite (createClubRequest_accepted s c b U HU).
  unfold store, response. cbn [fst snd].
  assert (Hfound : clubRequestAt
            (upd clubRequests
               (mkTable (rows (db_clubRequests s)
                         ++ [newClubRequest c b U (lastId (db_clubRequests s) + 1)])
                        (lastId (db_clubRequests s) + 1)) s)
            (lastId (db_clubRequests s) + 1)
          = Some (newClubRequest c b U (lastId (db_clubRequests s) + 1))).
  { unfold clubRequestAt, byId. simpl. rewrite find_app_none.
    - simpl. rewrite Z.eqb_refl. reflexivity.
    - apply (find_absent_key ClubRequest.id). intros q Hq. apply Hkey in Hq.
      lia. }
  split; [reflexivity|]. split; [exact Hfound|]. split; [reflexivity|].
  split; [|split].
  - rewrite getClubRequestById_run. rewrite Hfound. simpl.
    rewrite Z.eqb_refl. simpl. rewrite andb_false_r. reflexivity.
  - unfold getUserClubRequests, handlerR, send. exec.
    rewrite filter_app. simpl. rewrite Z.eqb_refl. reflexivity.
  - intros c' Hr Hu. rewrite getClubRequestById_run. rewrite Hfound. simpl.
    destruct (Role_eqb (urole (user c')) super_admin) eqn:Er;
      [apply Role_eqb_eq in Er; contradiction|].
    destruct (uid (user c') =? uid (user c)) eqn:Eo;
      [apply Z.eqb_eq in Eo; contradiction|].
    reflexivity.
Qed.

Definition chessRequest : NewClubRequest :=
  mkNewClubRequest "Application" "Draughts Club" "Play" "A club" "Fees" None
                   "555" "chat" "Posters" None.

Lemma requestsStore_clubRequestsKeyed : clubRequestsKeyed requestsStore.
Proof.
  intros r Hr. simpl in Hr.
  repeat (destruct Hr as [<-|Hr]; [simpl; lia|]). destruct Hr.
Defined.

Lemma createClubRequest_round_trip_witness :
  let r := handler (createClubRequest (mkCtx student3 20) chessRequest) requestsStore in
  let R := newClubRequest (mkCtx student3 20) chessRequest (mkUser 3 "ann" student) 4 in
  code (response r) = 201 /\
  clubRequestAt (store r) 4 = Some R /\
  ClubRequest.status R = pending /\
  handlerR (getClubRequestById (mkCtx student3 20) 4) (store r)
  = (Sent 200 R, store r, []).
Proof.
  destruct (createClubRequest_round_trip requestsStore (mkCtx student3 20)
              chessRequest (mkUser 3 "ann" student) eq_refl
              requestsStore_clubRequestsKeyed) as (H1 & H2 & H3 & H4 & _).
  split; [exact H1|]. split; [exact H2|]. split; [exact H3 | exact H4].
Defined.

(** A caller without a user row: reading [user.email] throws, the answer is
    500 and nothing is stored. *)
Lemma createClubRequest_without_user (s : Store) (c : Ctx) (b : NewClubRequest) :
  userAt s (uid (user c)) = None ->
  code (response (handler (createClubRequest c b) s)) = 500 /\
  store (handler (createClubRequest c b) s) = s /\
  journal (handler (createClubRequest c b) s) = [].
Proof.
  unfold userAt, byId, createClubRequest, throw. simpl. intros HU.
  exec. rewrite HU. repeat split.
Qed.

(** X18. From application to club: when a user with a user row submits a
    club request whose name no club has, and a super admin approves it, the
    approval answers 200, a club with the requested name and the submitter as
    head is stored, and the submitter's user row has role head_admin. *)
Theorem submitted_request_becomes_club
    (s : Store) (c ca : Ctx) (b : NewClubRequest) (U : User.t) :
  userAt s (uid (user c)) = Some U ->
  clubRequestsKeyed s ->
  nameTaken (nc_clubName b) s = false ->
  urole (user ca) = super_admin ->
  let s1 := store (handler (createClubRequest c b) s) in
  let r := handler (approveClubRequest ca (lastId (db_clubRequests s) + 1)) s1 in
  code (response r) = 200 /\
  (exists K, In K (rows (db_clubs (store r))) /\
             Club.name K = nc_clubName b /\ Club.headId K = uid (user c)) /\
  userAt (store r) (uid (user c)) = Some (User.set_role head_admin (now ca) U).
Proof.
  intros HU Hkey Hfree Ha s1 r.
  destruct (createClubRequest_round_trip s c b U HU Hkey) as (_ & Hf & Hp & _).
  fold s1 in Hf.
  pose proof (approveClubRequest_pending s1 ca _ _ Ha Hf Hp) as H. simpl in H.
  fold r in H.
  assert (Hclubs : db_clubs s1 = db_clubs s /\ db_users s1 = db_users s).
  { subst s1. rewrite (createClubRequest_accepted s c b U HU). split; reflexivity. }
  destruct Hclubs as [Hclubs Husers].
  assert (Hfree1 : nameTaken (nc_clubName b) s1 = false)
    by (unfold nameTaken; rewrite Hclubs; exact Hfree).
  rewrite Hfree1 in H. destruct H as (-> & -> & _).
  split; [reflexivity|]. split.
  - eexists. split; [simpl; apply in_or_app; right; left; reflexivity|].
    split; reflexivity.
  - unfold userAt, byId in *. simpl in *. rewrite Husers.
    rewrite (find_map_where User.id) by reflexivity.
    rewrite HU. simpl. apply find_some in HU. destruct HU as [_ ->].
    reflexivity.
Qed.

Lemma submitted_request_becomes_club_witness :
  let s1 := store (handler (createClubRequest (mkCtx student3 20) chessRequest)
                           requestsStore) in
  let r := handler (approveClubRequest (mkCtx admin1 30) 4) s1 in
  code (response r) = 200 /\
  (exists K, In K (rows (db_clubs (store r))) /\
             Club.name K = "Draughts Club"%string /\ Club.headId K = 3) /\
  userAt (store r) 3 = Some (User.set_role head_admin 30 (mkUser 3 "ann" student)).
Proof.
  apply (submitted_request_becomes_club requestsStore (mkCtx student3 20)
           (mkCtx admin1 30) chessRequest (mkUser 3 "ann" student)).
  - reflexivity.
  - exact requestsStore_clubRequestsKeyed.
  - reflexivity.
  - reflexivity.
Defined.

(** ** Ticket listings *)

Section LeftJoin.
Context {A B : Type}.
Variables (l : list A) (r : list B) (on : A -> B -> bool).

Lemma leftJoin_in_some (a : A) (b : B) :
  In (a, Some b) (leftJoin l r on) <-> In a l /\ In b r /\ on a b = true.
Proof.
  unfold leftJoin. rewrite in_flat_map. split.
  - intros (a0 & Ha0 & Hin).
    destruct (filter (on a0) r) as [|m ms] eqn:E.
    + destruct Hin as [Hin|[]]. discriminate.
    + apply in_map_iff in Hin. destruct Hin as (b0 & Heq & Hb0).
      injection Heq as -> ->. rewrite <- E in Hb0. apply filter_In in Hb0.
      tauto.
  - intros (Ha & Hb & Hon). exists a. split; [exact Ha|].
    assert (Hin : In b (filter (on a) r)) by (apply filter_In; auto).
    destruct (filter (on a) r) as [|m ms]; [destruct Hin|].
    apply in_map_iff. exists b. split; [reflexivity | exact Hin].
Qed.

Lemma leftJoin_in_fst (a : A) (ob : option B) :
  In (a, ob) (leftJoin l r on) -> In a l.
Proof.
  unfold leftJoin. rewrite in_flat_map. intros (a0 & Ha0 & Hin).
  destruct (filter (on a0) r) as [|m ms].
  - destruct Hin as [Hin|[]]. injection Hin as -> _. exact Ha0.
  - apply in_map_iff in Hin. destruct Hin as (b0 & Heq & _).
    injection Heq as -> _. exact Ha0.
Qed.

Lemma leftJoin_in_none (a : A) :
  In (a, None) (leftJoin l r on) ->
  In a l /\ forall b, In b r -> on a b = false.
Proof.
  unfold leftJoin. rewrite in_flat_map. intros (a0 & Ha0 & Hin).
  destruct (filter (on a0) r) as [|m ms] eqn:E.
  - destruct Hin as [Hin|[]]. injection Hin as ->. split; [exact Ha0|].
    intros b Hb. destruct (on a b) eqn:Eb; [|reflexivity].
    assert (Hf : In b (filter (on a) r)) by (apply filter_In; auto).
    rewrite E in Hf. destruct Hf.
  - apply in_map_iff in Hin. destruct Hin as (b0 & Heq & _). discriminate.
Qed.

Lemma leftJoin_total (a : A) :
  In a l -> exists ob, In (a, ob) (leftJoin l r on).
Proof.
  intros Ha. unfold leftJoin.
  destruct (filter (on a) r) as [|m ms] eqn:E.
  - exists None. apply in_flat_map. exists a. split; [exact Ha|].
    rewrite E. left. reflexivity.
  - exists (Some m). apply in_flat_map. exists a. split; [exact Ha|].
    rewrite E. left. reflexivity.
Qed.
End LeftJoin.

Lemma find_of_NoDup {R} (key : R -> Z) (l : list R) (x : R) :
  NoDup (map key l) -> In x l ->
  find (fun r => key r =? key x) l = Some x.
Proof.
  induction l as [|y l IH]; simpl; intros Hnd Hin; [destruct Hin|].
  inversion Hnd as [|? ? Hy Hl]; subst.
  destruct Hin as [->|Hin]; [rewrite Z.eqb_refl; reflexivity|].
  destruct (key y =? key x) eqn:E; [|apply IH; assumption].
  apply Z.eqb_eq in E. exfalso. apply Hy. rewrite E. apply in_map. exact Hin.
Qed.

(** The rows [getPendingTickets] sends. *)
Definition pendingFor (c : Ctx) (s : Store) : list PendingTicket :=
  match fst (fst (handlerR (getPendingTickets c) s)) with
  | Sent _ data => data
  | Said _ => []
  end.

(** X19. The pending list is the head's to-do list: for a head admin,
    [getPendingTickets] answers 200 without writing; every row it sends is a
    booking that this caller can approve and can reject (both calls answer
    200), and every pending booking on a poster of the caller is in the
    list. *)
Theorem pending_list_is_decidable_by_caller (s : Store) (c : Ctx) :
  urole (user c) = head_admin ->
  NoDup (map TicketBooking.id (rows (db_ticketBookings s))) ->
  NoDup (map Poster.id (rows (db_posters s))) ->
  handlerR (getPendingTickets c) s = (Sent 200 (pendingFor c s), s, []) /\
  (forall x, In x (pendingFor c s) ->
     code (response (handler (approveTicket c (pt_id x)) s)) = 200 /\
     code (response (handler (rejectTicket c (pt_id x)) s)) = 200) /\
  (forall t P, In t (rows (db_ticketBookings s)) ->
     TicketBooking.status t = pending ->
     posterAt s (TicketBooking.posterId t) = Some P ->
     Poster.headId P = uid (user c) ->
     exists x, In x (pendingFor c s) /\ pt_id x = TicketBooking.id t /\
               pt_numberOfPersons x = TicketBooking.numberOfPersons t).
Proof.
  intros Hr Hnt Hnp.
  assert (Hrun : handlerR (getPendingTickets c) s = (Sent 200 (pendingFor c s), s, [])).
  { unfold pendingFor, getPendingTickets, handlerR, send, say, ret.
    rewrite Hr. reflexivity. }
  split; [exact Hrun|].
  unfold pendingFor, getPendingTickets, handlerR, send, say, ret.
  rewrite Hr. cbn [Role_eqb negb fst snd]. split.
  - intros x Hx. apply in_map_iff in Hx. destruct Hx as ([[t op] ou] & <- & Hk).
    apply filter_In in Hk. destruct Hk as [Hj Hc]. cbn [fst snd] in Hc.
    apply andb_true_iff in Hc. destruct Hc as [Hown Hpend].
    destruct op as [p|]; [|discriminate].
    apply Z.eqb_eq in Hown. apply Status_eqb_eq in Hpend.
    assert (Hj1 : In (t, Some p)
                     (leftJoin (rows (db_ticketBookings s)) (rows (db_posters s))
                        (fun t p => TicketBooking.posterId t =? Poster.id p))).
    { destruct ou as [u|].
      - apply leftJoin_in_some in Hj. apply Hj.
      - apply leftJoin_in_fst in Hj. exact Hj. }
    apply leftJoin_in_some in Hj1. destruct Hj1 as (Ht & Hp & Hon).
    apply Z.eqb_eq in Hon.
    assert (HtAt : ticketAt s (TicketBooking.id t) = Some t)
      by (apply (find_of_NoDup TicketBooking.id); assumption).
    assert (HpAt : posterAt s (TicketBooking.posterId t) = Some p)
      by (rewrite Hon; apply (find_of_NoDup Poster.id); assumption).
    unfold pt_id. cbn [fst snd]. split.
    + destruct (approveTicket_accepted s c _ t p Hr HtAt HpAt Hown Hpend) as (E & _).
      rewrite E. reflexivity.
    + destruct (rejectTicket_accepted s c _ t p Hr HtAt HpAt Hown Hpend) as (E & _).
      rewrite E. reflexivity.
  - intros t P Ht Hpend HP Hown.
    assert (HPin : In P (rows (db_posters s)) /\ Poster.id P = TicketBooking.posterId t).
    { unfold posterAt, byId in HP. simpl in HP. apply find_some in HP.
      destruct HP as [H1 H2]. apply Z.eqb_eq in H2. auto. }
    destruct HPin as [HPin HPid].
    assert (Hj1 : In (t, Some P)
                     (leftJoin (rows (db_ticketBookings s)) (rows (db_posters s))
                        (fun t p => TicketBooking.posterId t =? Poster.id p))).
    { apply leftJoin_in_some. repeat split; [assumption..|].
      apply Z.eqb_eq. congruence. }
    destruct (leftJoin_total _ (rows (db_users s))
                (fun tp u => TicketBooking.userId (fst tp) =? User.id u)
                (t, Some P) Hj1) as (ou & Hj2).
    eexists. split.
    + apply in_map_iff. exists ((t, Some P), ou). split; [reflexivity|].
      apply filter_In. split; [exact Hj2|]. cbn [fst snd].
      rewrite Hown, Z.eqb_refl, Hpend. reflexivity.
    + split; reflexivity.
Qed.

Lemma campusStore_posters_distinct :
  NoDup (map Poster.id (rows (db_posters campusStore))).
Proof. simpl. repeat constructor; simpl; intuition lia. Defined.

Lemma pending_list_is_decidable_by_caller_witness :
  pendingFor (mkCtx head7 50) campusStore
  = [mkPendingTicket 1 2 receipt 0
       (Some (1, "Open day"%string, "2025-05-01"%string))
       (Some (3, "ann"%string, ""%string, "ann@uni.example"%string))] /\
  (forall x, In x (pendingFor (mkCtx head7 50) campusStore) ->
     code (response (handler (approveTicket (mkCtx head7 50) (pt_id x)) campusStore)) = 200 /\
     code (response (handler (rejectTicket (mkCtx head7 50) (pt_id x)) campusStore)) = 200).
Proof.
  split; [reflexivity|].
  apply (pending_list_is_decidable_by_caller campusStore (mkCtx head7 50)).
  - reflexivity.
  - exact (proj1 campusStore_keyed).
  - exact campusStore_posters_distinct.
Defined.

(** The rows [getUserTickets] sends. *)
Definition ticketsOf (c : Ctx) (s : Store) : list UserTicket :=
  match fst (fst (handlerR (getUserTickets c) s)) with
  | Sent _ data => data
  | Said _ => []
  end.

(** The [poster] object of a listed ticket. *)
Definition posterDetails (p : Poster.t)
  : Z * string * string * string * string * Z :=
  (Poster.id p, Poster.eventTitle p, Poster.eventDate p, Poster.location p,
   Poster.time p, Poster.price p).

(** X20. A booking shows up in the booker's list: after an accepted
    [bookTicket], [getUserTickets] of the same caller sends the row of the new
    booking: its id, status pending, the booked number of persons, the
    instant of the booking, and the id, title, date, location, time and price
    of the booked poster.  And every row the listing sends is a stored
    booking of the caller, with its own columns, carried with the details of
    a stored poster whose id is the booking's [posterId]; it is sent without
    poster only if no stored poster has that id. *)
Theorem booked_ticket_is_listed
    (s : Store) (c : Ctx) (b : Booking) (P : Poster.t) :
  truthy_str (bk_paymentProof b) = true ->
  posterAt s (bk_posterId b) = Some P ->
  bk_numberOfPersons b <= Poster.seatsLeft P ->
  let s1 := store (handler (bookTicket c b) s) in
  handlerR (getUserTickets c) s1 = (Sent 200 (ticketsOf c s1), s1, []) /\
  In (mkUserTicket (lastId (db_ticketBookings s) + 1) (bk_numberOfPersons b)
                   pending (now c) (Some (posterDetails P)))
     (ticketsOf c s1) /\
  (forall x, In x (ticketsOf c s1) ->
     exists t, In t (rows (db_ticketBookings s1)) /\
               TicketBooking.userId t = uid (user c) /\
               ut_id x = TicketBooking.id t /\
               ut_numberOfPersons x = TicketBooking.numberOfPersons t /\
               ut_status x = TicketBooking.status t /\
               ut_createdAt x = TicketBooking.createdAt t /\
               match ut_poster x with
               | Some d =>
                   exists p, In p (rows (db_posters s1)) /\
                             Poster.id p = TicketBooking.posterId t /\
                             d = posterDetails p
               | None =>
                   forall p, In p (rows (db_posters s1)) ->
                             Poster.id p <> TicketBooking.posterId t
               end).
Proof.
  intros Hpr HP Hle s1.
  split; [reflexivity|]. split.
  - subst s1.
    destruct (bookTicket_accepted s c b P Hpr HP Hle) as (_ & -> & _).
    unfold ticketsOf, getUserTickets, handlerR, send, ret. cbn [fst snd].
    set (k := lastId (db_ticketBookings s) + 1).
    set (P' := onPoster (bk_posterId b)
                 (Poster.set_seatsLeft (Poster.seatsLeft P - bk_numberOfPersons b)
                    (now c)) P).
    assert (Hid : Poster.id P = bk_posterId b) by (apply (posterAt_id s), HP).
    assert (Hsame : posterDetails P' = posterDetails P).
    { subst P'. unfold onPoster. rewrite Hid, Z.eqb_refl. reflexivity. }
    apply in_map_iff. exists (newBooking c b k, Some P'). split.
    + simpl. unfold posterDetails in Hsame. rewrite Hsame. reflexivity.
    + apply filter_In. split.
      * apply leftJoin_in_some. simpl. split; [|split].
        -- apply in_or_app. right. left. reflexivity.
        -- apply in_map. unfold posterAt, byId in HP. simpl in HP.
           apply find_some in HP. apply HP.
        -- subst P'. unfold onPoster. rewrite Hid, Z.eqb_refl.
           simpl. apply Z.eqb_eq. symmetry. exact Hid.
      * simpl. apply Z.eqb_refl.
  - intros x Hx. unfold ticketsOf, getUserTickets, handlerR, send, ret in Hx.
    cbn [fst snd] in Hx. apply in_map_iff in Hx.
    destruct Hx as ([t op] & <- & Hk). apply filter_In in Hk.
    destruct Hk as [Hj Hu]. exists t.
    split; [exact (leftJoin_in_fst _ _ _ _ _ Hj)|].
    split; [apply Z.eqb_eq; exact Hu|].
    repeat (split; [reflexivity|]).
    destruct op as [p|]; simpl.
    + apply leftJoin_in_some in Hj. destruct Hj as (_ & Hp & Hon).
      exists p. split; [exact Hp|]. split; [|reflexivity].
      apply Z.eqb_eq in Hon. symmetry. exact Hon.
    + apply leftJoin_in_none in Hj. destruct Hj as (_ & Hnone).
      intros p Hp E. specialize (Hnone p Hp). simpl in Hnone.
      rewrite E, Z.eqb_refl in Hnone. discriminate.
Qed.

Lemma booked_ticket_is_listed_witness :
  let s1 := store (handler (bookTicket (mkCtx student3 40) (mkBooking 2 4 receipt))
                           campusStore) in
  In (mkUserTicket 3 4 pending 40
        (Some (2, "Open day", "2025-05-01", "Hall", "18:00", 100)%string))
     (ticketsOf (mkCtx student3 40) s1) /\
  ticketsOf (mkCtx student3 40) s1
  = [mkUserTicket 1 2 pending 0
       (Some (1, "Open day", "2025-05-01", "Hall", "18:00", 100)%string);
     mkUserTicket 2 1 approved 0
       (Some (2, "Open day", "2025-05-01", "Hall", "18:00", 100)%string);
     mkUserTicket 3 4 pending 40
       (Some (2, "Open day", "2025-05-01", "Hall", "18:00", 100)%string)].
Proof.
  split; [|reflexivity].
  apply (proj1 (proj2 (booked_ticket_is_listed campusStore (mkCtx student3 40)
                         (mkBooking 2 4 receipt) (mkPosterOf 2 2 9 20 19)
                         eq_refl eq_refl ltac:(simpl; lia)))).
Defined.

(** ** updateClub *)

Lemma updateClub_accepted (s : Store) (c : Ctx) (clubId : Z) (b : ClubPatch)
      (K : Club.t) :
  clubAt s clubId = Some K ->
  urole (user c) = head_admin ->
  Club.headId K = uid (user c) ->
  handler (updateClub c clubId b) s
  = (mkResponse 200 "Club updated successfully" None,
     upd clubs
       (mkTable (map (fun k => if Club.id k =? clubId
                               then patchClub b K (now c) k else k)
                     (rows (db_clubs s)))
                (lastId (db_clubs s))) s,
     [Update t_clubs]).
Proof.
  unfold clubAt, byId, updateClub. simpl. intros Hf Hr Ho.
  exec. rewrite Hf, Hr, Ho, Z.eqb_refl. reflexivity.
Qed.

(** X21. [updateClub] is the owning head's alone, and it cannot rename or
    hand over a club: a missing club is 404, any caller but the club's head
    with role head_admin is 403, both without writing; an accepted update
    answers 200 and leaves the club's [id], [name], [headId], [rating] and
    [createdAt], every other club and every other table as they were. *)
Theorem updateClub_keeps_name_and_head
    (s : Store) (c : Ctx) (clubId : Z) (b : ClubPatch) :
  let r := handler (updateClub c clubId b) s in
  (clubAt s clubId = None ->
     r = (mkResponse 404 "Club not found" None, s, [])) /\
  (forall K, clubAt s clubId = Some K ->
     (urole (user c) <> head_admin \/ Club.headId K <> uid (user c) ->
        r = (mkResponse 403 "Unauthorized access" None, s, [])) /\
     (urole (user c) = head_admin -> Club.headId K = uid (user c) ->
        code (response r) = 200 /\
        (exists K', clubAt (store r) clubId = Some K' /\
           Club.id K' = Club.id K /\ Club.name K' = Club.name K /\
           Club.headId K' = Club.headId K /\ Club.rating K' = Club.rating K /\
           Club.createdAt K' = Club.createdAt K) /\
        (forall k, k <> clubId -> clubAt (store r) k = clubAt s k) /\
        db_users (store r) = db_users s /\
        db_events (store r) = db_events s /\
        db_posters (store r) = db_posters s /\
        db_posts (store r) = db_posts s)).
Proof.
  simpl. split.
  - unfold clubAt, byId, updateClub. simpl. intros Hf. exec. rewrite Hf.
    reflexivity.
  - intros K Hf. split.
    + intros Hno. unfold clubAt, byId, updateClub in *. simpl in *. exec.
      rewrite Hf.
      destruct (Role_eqb (urole (user c)) head_admin) eqn:Er; simpl;
        [|reflexivity].
      destruct (Club.headId K =? uid (user c)) eqn:Eo; simpl; [|reflexivity].
      exfalso. apply Role_eqb_eq in Er. apply Z.eqb_eq in Eo.
      destruct Hno; contradiction.
    + intros Hr Ho. rewrite (updateClub_accepted s c clubId b K Hf Hr Ho).
      unfold store, response. cbn [fst snd].
      split; [reflexivity|]. split; [|split; [|repeat split]].
      * exists (patchClub b K (now c) K). split; [|repeat split].
        unfold clubAt, byId in *. simpl in *.
        rewrite (find_map_where Club.id) by reflexivity.
        rewrite Hf. simpl. apply find_some in Hf. destruct Hf as [_ ->].
        reflexivity.
      * intros k Hk. unfold clubAt, byId in *. simpl in *.
        rewrite (find_map_where Club.id) by reflexivity.
        destruct (find (fun q => Club.id q =? k) (rows (db_clubs s))) as [q|] eqn:Eq;
          [|reflexivity].
        simpl. apply find_some in Eq. destruct Eq as [_ Eq].
        apply Z.eqb_eq in Eq. rewrite Eq.
        destruct (k =? clubId) eqn:E; [apply Z.eqb_eq in E; contradiction|].
        reflexivity.
Qed.

Lemma updateClub_keeps_name_and_head_witness :
  let b := mkClubPatch (Some "Win"%string) None None None None in
  handler (updateClub (mkCtx head7 50) 2 b) campusStore
  = (mkResponse 403 "Unauthorized access" None, campusStore, []) /\
  code (response (handler (updateClub (mkCtx head7 50) 1 b) campusStore)) = 200 /\
  option_map (fun k => (Club.name k, Club.headId k, Club.goal k))
    (clubAt (store (handler (updateClub (mkCtx head7 50) 1 b) campusStore)) 1)
  = Some ("Chess Club"%string, 7, "Win"%string).
Proof.
  split; [|split].
  - destruct (updateClub_keeps_name_and_head campusStore (mkCtx head7 50) 2
                (mkClubPatch (Some "Win"%string) None None None None)) as (_ & H).
    apply (H (mkClub 2 9 "Go Club") eq_refl). right. simpl. lia.
  - destruct (updateClub_keeps_name_and_head campusStore (mkCtx head7 50) 1
                (mkClubPatch (Some "Win"%string) None None None None)) as (_ & H).
    apply (H (mkClub 1 7 "Chess Club") eq_refl); reflexivity.
  - reflexivity.
Defined.

(** ** deletePost and updatePost *)

(** Once the likes of a post are deleted, nothing refers to the post. *)
Lemma post_free (s : Store) (postId : Z) (L : list PostLike.t) (n : Z) :
  inUse posts (fun p => Post.id p =? postId)
        (upd postLikes
           (mkTable (filter (fun l => negb (PostLike.postId l =? postId)) L) n) s)
  = false.
Proof.
  unfold inUse. simpl. rewrite existsb_filter.
  rewrite (existsb_same _ (fun _ => false)); [apply existsb_never|].
  intros x _. destruct (Post.id x =? postId) eqn:E; [|reflexivity].
  apply Z.eqb_eq in E. rewrite E. simpl. apply names_filtered.
Qed.

Lemma deletePost_accepted (s : Store) (c : Ctx) (postId : Z) (p : Post.t) :
  postAt s postId = Some p ->
  Post.userId p = uid (user c) \/ urole (user c) = super_admin ->
  handler (deletePost c postId) s
  = (mkResponse 200 "Post deleted successfully" None,
     upd posts
       (mkTable (filter (fun q => negb (Post.id q =? postId)) (rows (db_posts s)))
                (lastId (db_posts s)))
       (upd postLikes
          (mkTable (filter (fun l => negb (PostLike.postId l =? postId))
                           (rows (db_postLikes s)))
                   (lastId (db_postLikes s))) s),
     [Delete t_postLikes; Delete t_posts]).
Proof.
  unfold postAt, byId. simpl. intros Hp Hmay.
  assert (Hgo : negb (Post.userId p =? uid (user c))
                && negb (Role_eqb (urole (user c)) super_admin) = false).
  { destruct Hmay as [Hu|Hr].
    - rewrite Hu, Z.eqb_refl. reflexivity.
    - rewrite Hr. apply andb_false_r. }
  unfold deletePost, handler. unfold bind at 1, get at 1. simpl.
  rewrite Hp, Hgo.
  unfold bind at 1. rewrite delete_done by reflexivity.
  unfold bind at 1. rewrite delete_done by apply post_free.
  reflexivity.
Qed.

Lemma deletePost_refused (s : Store) (c : Ctx) (postId : Z) (p : Post.t) :
  postAt s postId = Some p ->
  Post.userId p <> uid (user c) -> urole (user c) <> super_admin ->
  handler (deletePost c postId) s
  = (mkResponse 403 "Unauthorized access" None, s, []).
Proof.
  unfold postAt, byId, deletePost. simpl. intros Hp Hu Hr. exec. rewrite Hp.
  apply Z.eqb_neq in Hu. rewrite Hu.
  destruct (Role_eqb (urole (user c)) super_admin) eqn:E; [|reflexivity].
  apply Role_eqb_eq in E. contradiction.
Qed.

(** X22. [deletePost] is for the author and for super admins: anyone else
    is answered 403 and nothing is written.  An accepted delete answers 200,
    removes the post and every like on it and nothing else; afterwards the
    post is not found, no like refers to it, and liking it is answered
    404. *)
Theorem deletePost_removes_post_and_likes
    (s : Store) (c : Ctx) (postId : Z) (p : Post.t) :
  postAt s postId = Some p ->
  let r := handler (deletePost c postId) s in
  (Post.userId p <> uid (user c) -> urole (user c) <> super_admin ->
     r = (mkResponse 403 "Unauthorized access" None, s, [])) /\
  (Post.userId p = uid (user c) \/ urole (user c) = super_admin ->
     code (response r) = 200 /\
     rows (db_posts (store r))
     = filter (fun q => negb (Post.id q =? postId)) (rows (db_posts s)) /\
     rows (db_postLikes (store r))
     = filter (fun l => negb (PostLike.postId l =? postId)) (rows (db_postLikes s)) /\
     postAt (store r) postId = None /\
     (forall l, In l (rows (db_postLikes (store r))) -> PostLike.postId l <> postId) /\
     (forall c', handler (toggleLikePost c' postId) (store r)
                 = (mkResponse 404 "Post not found" None, store r, [])) /\
     db_users (store r) = db_users s /\ db_clubs (store r) = db_clubs s /\
     db_posters (store r) = db_posters s /\
     db_ticketBookings (store r) = db_ticketBookings s).
Proof.
  intros Hp r. subst r. split.
  - intros Hu Hr. apply (deletePost_refused s c postId p Hp Hu Hr).
  - intros Hmay. rewrite (deletePost_accepted s c postId p Hp Hmay).
    unfold store, response. cbn [fst snd].
    assert (Hgone : postAt
              (upd posts
                 (mkTable (filter (fun q => negb (Post.id q =? postId))
                                  (rows (db_posts s))) (lastId (db_posts s)))
                 (upd postLikes
                    (mkTable (filter (fun l => negb (PostLike.postId l =? postId))
                                     (rows (db_postLikes s)))
                             (lastId (db_postLikes s))) s)) postId = None).
    { unfold postAt, byId. simpl.
      apply (find_filter_negb (fun q => Post.id q =? postId)). }
    split; [reflexivity|]. split; [reflexivity|]. split; [reflexivity|].
    split; [exact Hgone|]. split; [|split; [|repeat split]].
    + simpl. intros l Hl. apply filter_In in Hl. destruct Hl as [_ Hl].
      apply negb_true_iff, Z.eqb_neq in Hl. exact Hl.
    + intros c'. apply toggleLikePost_missing. exact Hgone.
Qed.

Lemma deletePost_removes_post_and_likes_witness :
  let r := handler (deletePost (mkCtx head7 50) 1) campusStore in
  handler (deletePost (mkCtx student3 50) 1) campusStore
  = (mkResponse 403 "Unauthorized access" None, campusStore, []) /\
  code (response r) = 200 /\
  rows (db_posts (store r)) = [mkPost 2 (Some 2) 9 1; mkPost 3 None 3 1] /\
  rows (db_postLikes (store r)) = [PostLike.mk 2 2 3 0; PostLike.mk 3 3 7 0].
Proof.
  split.
  - apply (proj1 (deletePost_removes_post_and_likes campusStore
                    (mkCtx student3 50) 1 (mkPost 1 (Some 1) 7 1) eq_refl));
      simpl; [lia | discriminate].
  - destruct (proj2 (deletePost_removes_post_and_likes campusStore
                       (mkCtx head7 50) 1 (mkPost 1 (Some 1) 7 1) eq_refl)
                    (or_introl eq_refl)) as (H1 & H2 & H3 & _).
    split; [exact H1|]. split; [exact H2 | exact H3].
Defined.

Lemma updatePost_cases (s : Store) (c : Ctx) (postId : Z) (b : PostPatch) :
  (store (handler (updatePost c postId b) s) = s /\
   journal (handler (updatePost c postId b) s) = [] /\
   code (response (handler (updatePost c postId b) s)) <> 200) \/
  exists p, postAt s postId = Some p /\
    (Post.userId p = uid (user c) \/ urole (user c) = super_admin) /\
    handler (updatePost c postId b) s
    = (mkResponse 200 "Post updated successfully" None,
       upd posts
         (mkTable (map (fun q => if Post.id q =? postId
                                 then patchPost b p (now c) q else q)
                       (rows (db_posts s)))
                  (lastId (db_posts s))) s,
       [Update t_posts]).
Proof.
  unfold postAt, byId, updatePost. simpl. exec.
  destruct (find _ (rows (db_posts s))) as [p|] eqn:Ep;
    [|left; repeat split; discriminate].
  destruct (Post.userId p =? uid (user c)) eqn:Eu; simpl.
  - right. exists p. apply Z.eqb_eq in Eu. auto.
  - destruct (Role_eqb (urole (user c)) super_admin) eqn:Er; simpl.
    + right. exists p. apply Role_eqb_eq in Er. auto.
    + left. repeat split; discriminate.
Qed.

(** X23. [updatePost] is for the author and for super admins, and it never
    touches the like counter: a call that is not answered 200 writes nothing,
    a 200 means the caller is the post's author or a super admin, and in
    every case each post keeps its [likes], [userId] and [clubId], the like
    rows are untouched, and a counter that matched its like rows still
    does. *)
Theorem updatePost_keeps_likes
    (s : Store) (c : Ctx) (postId : Z) (b : PostPatch) :
  let r := handler (updatePost c postId b) s in
  (code (response r) <> 200 -> store r = s /\ journal r = []) /\
  (code (response r) = 200 ->
     exists p, postAt s postId = Some p /\
       (Post.userId p = uid (user c) \/ urole (user c) = super_admin)) /\
  db_postLikes (store r) = db_postLikes s /\
  (forall k q, postAt s k = Some q ->
     exists q', postAt (store r) k = Some q' /\
       Post.likes q' = Post.likes q /\ Post.userId q' = Post.userId q /\
       Post.clubId q' = Post.clubId q) /\
  (forall pid, LikesCounted pid s -> LikesCounted pid (store r)).
Proof.
  simpl.
  assert (Hkeep : forall p k q, postAt s k = Some q ->
    exists q',
      postAt (upd posts
                (mkTable (map (fun x => if Post.id x =? postId
                                        then patchPost b p (now c) x else x)
                              (rows (db_posts s)))
                         (lastId (db_posts s))) s) k = Some q' /\
      Post.likes q' = Post.likes q /\ Post.userId q' = Post.userId q /\
      Post.clubId q' = Post.clubId q).
  { intros p k q Hq. unfold postAt, byId in *. simpl in *.
    rewrite (find_map_where Post.id) by reflexivity. rewrite Hq. simpl.
    eexists. split; [reflexivity|].
    destruct (Post.id q =? postId); repeat split. }
  destruct (updatePost_cases s c postId b) as [(Hs & Hj & Hc)|(p & Hp & Hmay & E)].
  - rewrite Hs. split; [auto|]. split; [intros H; contradiction|].
    split; [reflexivity|]. split; [eauto|]. auto.
  - rewrite E. unfold store, response. cbn [fst snd].
    split; [intros H; exfalso; apply H; reflexivity|].
    split; [intros _; eauto|]. split; [reflexivity|]. split; [apply Hkeep|].
    intros pid [(q & Hq & Hcount) Huniq]. split; [|exact Huniq].
    destruct (Hkeep p pid q Hq) as (q' & Hq' & Hl & _).
    exists q'. split; [exact Hq'|]. simpl. rewrite Hl. exact Hcount.
Qed.

Lemma updatePost_keeps_likes_witness :
  let r := handler (updatePost (mkCtx head7 50) 1
                      (mkPostPatch (Some "Hi"%string) None None)) campusStore in
  code (response r) = 200 /\ LikesCounted 1 (store r).
Proof.
  split; [reflexivity|].
  apply (proj2 (proj2 (proj2 (proj2
          (updatePost_keeps_likes campusStore (mkCtx head7 50) 1
             (mkPostPatch (Some "Hi"%string) None None)))))).
  exact campusStore_likes_counted.
Defined.

(** ** userController.js: updateUserRole *)

(** The role a text names, for the three texts the controller accepts. *)
Definition Role_of_text (t : string) : option Role :=
  if String.eqb t "student" then Some student
  else if String.eqb t "head_admin" then Some head_admin
  else if String.eqb t "super_admin" then Some super_admin
  else None.

Definition updateUserRole (c : Ctx) (userId : Z) (role : option string)
  : DB Response :=
  if negb (Role_eqb (urole (user c)) super_admin)
  then json 403 "Unauthorized access"
  else
    match match role with
          | Some t => Role_of_text t
          | None => None
          end with
    | None => json 400 "Invalid role"
    | Some role =>
        user <- get users (fun u => User.id u =? userId) ;;
        match user with
        | None => json 404 "User not found"
        | Some _ =>
            update users (User.set_role role (now c))
                   (fun u => User.id u =? userId) ;;;
            json 200 "User role updated successfully"
        end
    end.

(** X24. [updateUserRole] sets a role directly, for super admins only: any
    other caller is answered 403, a text that is none of the three roles 400,
    a missing user 404, each without writing; otherwise the call answers 200,
    the user's row carries the named role, and every other user and every
    club is as before (so a role can be given or taken without any club
    request or club deletion). *)
Theorem updateUserRole_sets_the_named_role
    (s : Store) (c : Ctx) (userId : Z) (role : option string) :
  let r := handler (updateUserRole c userId role) s in
  (urole (user c) <> super_admin ->
     r = (mkResponse 403 "Unauthorized access" None, s, [])) /\
  (urole (user c) = super_admin ->
     (forall t, role = Some t -> Role_of_text t = None ->
        r = (mkResponse 400 "Invalid role" None, s, [])) /\
     (role = None -> r = (mkResponse 400 "Invalid role" None, s, [])) /\
     (forall t ro, role = Some t -> Role_of_text t = Some ro ->
        (userAt s userId = None ->
           r = (mkResponse 404 "User not found" None, s, [])) /\
        (forall U, userAt s userId = Some U ->
           code (response r) = 200 /\
           userAt (store r) userId = Some (User.set_role ro (now c) U) /\
           (forall k, k <> userId -> userAt (store r) k = userAt s k) /\
           db_clubs (store r) = db_clubs s /\
           db_clubRequests (store r) = db_clubRequests s))).
Proof.
  simpl. unfold userAt, byId. simpl. split.
  - intros Hr. unfold updateUserRole. exec.
    destruct (Role_eqb (urole (user c)) super_admin) eqn:E; [|reflexivity].
    apply Role_eqb_eq in E. contradiction.
  - intros Hr. split; [|split].
    + intros t -> Ht. unfold updateUserRole. exec. rewrite Hr, Ht. reflexivity.
    + intros ->. unfold updateUserRole. exec. rewrite Hr. reflexivity.
    + intros t ro -> Ht. split.
      * intros HU. unfold updateUserRole. exec. rewrite Hr, Ht. simpl.
        rewrite HU. reflexivity.
      * intros U HU. unfold updateUserRole. exec. rewrite Hr, Ht. simpl.
        rewrite HU. simpl. split; [reflexivity|]. split; [|split; [|split]].
        -- rewrite (find_map_where User.id) by reflexivity. rewrite HU. simpl.
           apply find_some in HU. destruct HU as [_ ->]. reflexivity.
        -- intros k Hk. rewrite (find_map_where User.id) by reflexivity.
           destruct (find (fun u => User.id u =? k) (rows (db_users s)))
             as [q|] eqn:Eq; [|reflexivity].
           simpl. apply find_some in Eq. destruct Eq as [_ Eq].
           apply Z.eqb_eq in Eq. rewrite Eq.
           destruct (k =? userId) eqn:E; [apply Z.eqb_eq in E; contradiction|].
           reflexivity.
        -- reflexivity.
        -- reflexivity.
Qed.

Lemma updateUserRole_sets_the_named_role_witness :
  let r := handler (updateUserRole (mkCtx admin1 50) 3 (Some "head_admin"%string))
                   campusStore in
  handler (updateUserRole (mkCtx admin1 50) 3 (Some "teacher"%string)) campusStore
  = (mkResponse 400 "Invalid role" None, campusStore, []) /\
  code (response r) = 200 /\
  userAt (store r) 3 = Some (User.set_role head_admin 50 (mkUser 3 "ann" student)) /\
  db_clubs (store r) = db_clubs campusStore.
Proof.
  split.
  - destruct (updateUserRole_sets_the_named_role campusStore (mkCtx admin1 50) 3
                (Some "teacher"%string)) as (_ & H).
    destruct (H eq_refl) as (H1 & _). apply (H1 "teacher"%string); reflexivity.
  - destruct (updateUserRole_sets_the_named_role campusStore (mkCtx admin1 50) 3
                (Some "head_admin"%string)) as (_ & H).
    destruct (H eq_refl) as (_ & _ & H3).
    destruct (H3 "head_admin"%string head_admin eq_refl eq_refl) as (_ & H4).
    destruct (H4 (mkUser 3 "ann" student) eq_refl) as (H5 & H6 & _ & H8 & _).
    split; [exact H5|]. split; [exact H6 | exact H8].
Defined.

(** ** The route guard *)

(** A route [authorize(roles), controller]: the controller runs only when
    the guard calls [next()]. *)
Definition guarded (roles : list Role) (u : option AuthUser)
           (run : Store -> Response * Store * list Stmt) (s : Store)
  : Response * Store * list Stmt :=
  match authorize roles u with
  | Next => run s
  | Stop r => (r, s, [])
  end.

(** X25. [authorize] lets a signed-in caller through exactly when the list
    of roles is empty or holds the caller's role, and answers 401 when there
    is no caller.  On the ticket routes the guard [authorize(['head_admin'])]
    changes nothing: the guarded route answers, stores and writes exactly
    what the controller alone would. *)
Theorem authorize_admits_listed_roles
    (roles : list Role) (u : AuthUser) (v : Verdict) (c : Ctx) (k : Z) (s : Store) :
  (authorize roles (Some u) = Next <-> roles = [] \/ In (urole u) roles) /\
  authorize roles None = Stop (mkResponse 401 "Authentication required" None) /\
  (authorize roles (Some u) <> Next ->
   authorize roles (Some u) = Stop (mkResponse 403 "Unauthorized access" None)) /\
  guarded [head_admin] (Some (user c)) (handler (ticketCall v c k)) s
  = handler (ticketCall v c k) s.
Proof.
  split; [|split; [reflexivity|split]].
  - unfold authorize. destruct roles as [|r0 roles]; simpl.
    + split; auto.
    + destruct (Role_eqb (urole u) r0 || existsb (Role_eqb (urole u)) roles) eqn:E;
        simpl.
      * split; [|reflexivity]. intros _. right.
        apply orb_true_iff in E. destruct E as [E|E].
        -- left. apply Role_eqb_eq in E. congruence.
        -- right. apply existsb_exists in E. destruct E as (x & Hx & E).
           apply Role_eqb_eq in E. congruence.
      * split; [discriminate|]. intros [H|[H|H]]; [discriminate | |].
        -- exfalso. apply orb_false_iff in E. destruct E as [E _].
           rewrite H in E. destruct (urole u); discriminate.
        -- exfalso. apply orb_false_iff in E. destruct E as [_ E].
           assert (existsb (Role_eqb (urole u)) roles = true).
           { apply existsb_exists. exists (urole u). split; [exact H|].
             apply Role_eqb_eq. reflexivity. }
           congruence.
  - unfold authorize.
    destruct (negb (Nat.eqb (List.length roles) 0)
              && negb (existsb (Role_eqb (urole u)) roles));
      [reflexivity | intros H; contradiction].
  - unfold guarded, authorize. simpl.
    destruct (Role_eqb (urole (user c)) head_admin) eqn:E; simpl; [reflexivity|].
    destruct v; simpl; unfold approveTicket, rejectTicket; exec; rewrite E;
      reflexivity.
Qed.

Lemma authorize_admits_listed_roles_witness :
  authorize [head_admin; super_admin] (Some admin1) = Next /\
  authorize [] (Some student3) = Next /\
  authorize [head_admin] (Some student3)
  = Stop (mkResponse 403 "Unauthorized access" None).
Proof.
  split; [|split].
  - apply (proj1 (authorize_admits_listed_roles [head_admin; super_admin] admin1
                    approve (mkCtx admin1 0) 0 campusStore)).
    right. right. left. reflexivity.
  - apply (proj1 (authorize_admits_listed_roles [] student3
                    approve (mkCtx admin1 0) 0 campusStore)).
    left. reflexivity.
  - apply (proj1 (proj2 (proj2 (authorize_admits_listed_roles [head_admin] student3
                    approve (mkCtx admin1 0) 0 campusStore)))).
    simpl. discriminate.
Defined.

(** ** createEventRequest *)

(** The club [createEventRequest] and [createPost] take for a head: the
    first club row whose head is the caller. *)
Definition clubHeadedBy (s : Store) (userId : Z) : option Club.t :=
  find (fun k => Club.headId k =? userId) (rows (db_clubs s)).

Definition eventRequestsKeyed (s : Store) : Prop :=
  forall r, In r (rows (db_eventRequests s)) ->
            EventRequest.id r <= lastId (db_eventRequests s).

(** The request row that [createEventRequest] inserts for club [K]. *)
Definition newEventRequest (c : Ctx) (b : NewEventRequest) (K : Club.t) (i : Z)
  : EventRequest.t :=
  EventRequest.mk i (Club.id K) (uid (user c)) (ne_eventName b)
    (ne_eventDate b) (ne_location b) (ne_shortDescription b) (ne_goal b)
    (ne_organizers b) (ne_schedule b) (ne_sponsorship b) (ne_clubHead b)
    (ne_phone b) (ne_comment b) pending (now c) (now c).

Definition uploaded (file : option string) : list string :=
  match file with
  | Some f => [f]
  | None => []
  end.

Lemma createEventRequest_accepted
      (s : Store) (c : Ctx) (file : option string) (b : NewEventRequest)
      (K : Club.t) :
  urole (user c) = head_admin ->
  clubHeadedBy s (uid (user c)) = Some K ->
  handlerU file (createEventRequest c file b) s
  = ((mkResponse 201 "Event request submitted successfully" None, []),
     upd eventRequests
       (mkTable (rows (db_eventRequests s)
                 ++ [newEventRequest c b K (lastId (db_eventRequests s) + 1)])
                (lastId (db_eventRequests s) + 1)) s,
     [Insert t_eventRequests]).
Proof.
  unfold clubHeadedBy, createEventRequest, handlerU. intros Hr HK.
  exec. rewrite Hr. simpl. rewrite HK. rewrite existsb_never. reflexivity.
Qed.

(** X26. [createEventRequest] files a request for the caller's own club
    only: a caller who is not a head admin is answered 403 and a head admin
    without a club 404, both without writing, and in the 404 case the
    uploaded image is handed to [deleteFile]; a head admin with a club gets
    201, no file is deleted, and the stored request is pending, belongs to
    that club and to the caller, and is what [getEventRequestById] then sends
    the caller. *)
Theorem createEventRequest_for_own_club
    (s : Store) (c : Ctx) (file : option string) (b : NewEventRequest) :
  let r := handlerU file (createEventRequest c file b) s in
  (urole (user c) <> head_admin ->
     r = ((mkResponse 403 "Only head admins can create event requests" None, []),
          s, [])) /\
  (urole (user c) = head_admin ->
     (clubHeadedBy s (uid (user c)) = None ->
        r = ((mkResponse 404 "You do not have a club" None, uploaded file), s, [])) /\
     (forall K, clubHeadedBy s (uid (user c)) = Some K ->
        eventRequestsKeyed s ->
        let k := lastId (db_eventRequests s) + 1 in
        fst (fst r) = (mkResponse 201 "Event request submitted successfully" None, []) /\
        eventRequestAt (snd (fst r)) k = Some (newEventRequest c b K k) /\
        EventRequest.clubId (newEventRequest c b K k) = Club.id K /\
        EventRequest.headId (newEventRequest c b K k) = uid (user c) /\
        EventRequest.status (newEventRequest c b K k) = pending /\
        handlerR (getEventRequestById c k) (snd (fst r))
        = (Sent 200 (newEventRequest c b K k), snd (fst r), []))).
Proof.
  simpl. split.
  - intros Hr. unfold createEventRequest, handlerU. exec.
    destruct (Role_eqb (urole (user c)) head_admin) eqn:E; [|reflexivity].
    apply Role_eqb_eq in E. contradiction.
  - intros Hr. split.
    + unfold clubHeadedBy, createEventRequest, handlerU. intros HK. exec.
      rewrite Hr. simpl. rewrite HK. reflexivity.
    + intros K HK Hkey. rewrite (createEventRequest_accepted s c file b K Hr HK).
      cbn [fst snd].
      assert (Hfound : eventRequestAt
                (upd eventRequests
                   (mkTable (rows (db_eventRequests s)
                             ++ [newEventRequest c b K (lastId (db_eventRequests s) + 1)])
                            (lastId (db_eventRequests s) + 1)) s)
                (lastId (db_eventRequests s) + 1)
              = Some (newEventRequest c b K (lastId (db_eventRequests s) + 1))).
      { unfold eventRequestAt, byId. simpl. rewrite find_app_none.
        - simpl. rewrite Z.eqb_refl. reflexivity.
        - apply (find_absent_key EventRequest.id). intros q Hq.
          apply Hkey in Hq. lia. }
      split; [reflexivity|]. split; [exact Hfound|].
      split; [reflexivity|]. split; [reflexivity|]. split; [reflexivity|].
      rewrite getEventRequestById_run. rewrite Hfound. simpl.
      rewrite Z.eqb_refl. simpl. rewrite andb_false_r. reflexivity.
Qed.

Lemma campusStore_eventRequestsKeyed : eventRequestsKeyed campusStore.
Proof.
  intros r Hr. simpl in Hr.
  repeat (destruct Hr as [<-|Hr]; [simpl; lia|]). destruct Hr.
Defined.

Definition blitzRequest : NewEventRequest :=
  mkNewEventRequest "Simul" "2025-07-01" "Hall" "Games" "Fun" "Bob"
                    "18:00 start" None "Bob" "555" None.

Lemma createEventRequest_for_own_club_witness :
  let r := handlerU (Some "a.png"%string)
             (createEventRequest (mkCtx head7 50) (Some "a.png"%string) blitzRequest)
             campusStore in
  handlerU (Some "a.png"%string)
    (createEventRequest (mkCtx (mkAuth 3 head_admin) 50) (Some "a.png"%string)
       blitzRequest) campusStore
  = ((mkResponse 404 "You do not have a club" None, ["a.png"%string]),
     campusStore, []) /\
  fst (fst r) = (mkResponse 201 "Event request submitted successfully" None, []) /\
  eventRequestAt (snd (fst r)) 3
  = Some (newEventRequest (mkCtx head7 50) blitzRequest (mkClub 1 7 "Chess Club") 3).
Proof.
  split.
  - destruct (createEventRequest_for_own_club campusStore
                (mkCtx (mkAuth 3 head_admin) 50) (Some "a.png"%string) blitzRequest)
      as (_ & H).
    destruct (H eq_refl) as (H1 & _). apply H1. reflexivity.
  - destruct (createEventRequest_for_own_club campusStore (mkCtx head7 50)
                (Some "a.png"%string) blitzRequest) as (_ & H).
    destruct (H eq_refl) as (_ & H2).
    destruct (H2 (mkClub 1 7 "Chess Club") eq_refl campusStore_eventRequestsKeyed)
      as (H3 & H4 & _).
    split; [exact H3 | exact H4].
Defined.

(** X27. From event request to event: when a head admin with a club files
    an event request and a super admin approves it, the approval answers 200
    and the event added last carries the id of the head's club, the head as
    [headId] and the requested name, date and place. *)
Theorem submitted_event_request_becomes_event
    (s : Store) (c ca : Ctx) (file : option string) (b : NewEventRequest)
    (K : Club.t) :
  urole (user c) = head_admin ->
  clubHeadedBy s (uid (user c)) = Some K ->
  eventRequestsKeyed s ->
  urole (user ca) = super_admin ->
  let s1 := snd (fst (handlerU file (createEventRequest c file b) s)) in
  let r := handler (approveEventRequest ca (lastId (db_eventRequests s) + 1)) s1 in
  code (response r) = 200 /\
  exists e, rows (db_events (store r)) = rows (db_events s) ++ [e] /\
            Event.clubId e = Club.id K /\ Event.headId e = uid (user c) /\
            Event.eventName e = ne_eventName b /\
            Event.eventDate e = ne_eventDate b /\
            Event.location e = ne_location b.
Proof.
  intros Hr HK Hkey Ha s1 r.
  destruct (createEventRequest_for_own_club s c file b) as (_ & H).
  destruct (H Hr) as (_ & H2).
  destruct (H2 K HK Hkey) as (_ & Hf & _). fold s1 in Hf.
  destruct (approveEventRequest_pending s1 ca _ _ Ha Hf eq_refl) as (Hresp & Hst & _).
  fold r in Hresp, Hst. rewrite Hresp, Hst.
  split; [reflexivity|].
  eexists. split.
  - simpl. subst s1. rewrite (createEventRequest_accepted s c file b K Hr HK).
    reflexivity.
  - repeat split.
Qed.

Lemma submitted_event_request_becomes_event_witness :
  let s1 := snd (fst (handlerU None (createEventRequest (mkCtx head7 50) None
                                       blitzRequest) campusStore)) in
  let r := handler (approveEventRequest (mkCtx admin1 60) 3) s1 in
  code (response r) = 200 /\
  exists e, rows (db_events (store r)) = rows (db_events campusStore) ++ [e] /\
            Event.clubId e = 1 /\ Event.headId e = 7 /\
            Event.eventName e = "Simul"%string /\
            Event.eventDate e = "2025-07-01"%string /\
            Event.location e = "Hall"%string.
Proof.
  apply (submitted_event_request_becomes_event campusStore (mkCtx head7 50)
           (mkCtx admin1 60) None blitzRequest (mkClub 1 7 "Chess Club")).
  - reflexivity.
  - reflexivity.
  - exact campusStore_eventRequestsKeyed.
  - reflexivity.
Defined.

(** ** createPost *)

Definition postsKeyed (s : Store) : Prop :=
  (forall p, In p (rows (db_posts s)) -> Post.id p <= lastId (db_posts s)) /\
  (forall l, In l (rows (db_postLikes s)) ->
             PostLike.postId l <= lastId (db_posts s)).

(** The club a new post is filed under. *)
Definition postClub (c : Ctx) (s : Store) : option Z :=
  if Role_eqb (urole (user c)) head_admin
  then option_map Club.id (clubHeadedBy s (uid (user c)))
  else None.

Lemma createPost_run (s : Store) (c : Ctx) (file : option string) (b : NewPost) :
  handlerU file (createPost c file b) s
  = ((mkResponse 201 "Post created successfully" None, []),
     upd posts
       (mkTable (rows (db_posts s)
                 ++ [Post.mk (lastId (db_posts s) + 1) (postClub c s)
                             (uid (user c)) (nw_title b) (nw_content b)
                             (match file with
                              | Some f => getFileUrl (Some f)
                              | None => None
                              end) 0 (now c) (now c)])
                (lastId (db_posts s) + 1)) s,
     [Insert t_posts]).
Proof.
  unfold createPost, handlerU, postClub, clubHeadedBy. exec.
  destruct (Role_eqb (urole (user c)) head_admin); simpl.
  - destruct (find _ (rows (db_clubs s))) as [K|]; simpl;
      rewrite existsb_never; reflexivity.
  - rewrite existsb_never. reflexivity.
Qed.

(** X28. [createPost] always answers 201 and deletes no file; the post is
    stored under the next id with the caller as author, with the id of the
    caller's club when the caller is a head admin who heads one and no club
    otherwise, and with [likes = 0], which is the number of its like rows:
    the like counter starts out right. *)
Theorem createPost_starts_counted
    (s : Store) (c : Ctx) (file : option string) (b : NewPost) :
  postsKeyed s ->
  let r := handlerU file (createPost c file b) s in
  let k := lastId (db_posts s) + 1 in
  fst (fst r) = (mkResponse 201 "Post created successfully" None, []) /\
  (exists p, postAt (snd (fst r)) k = Some p /\
     Post.userId p = uid (user c) /\ Post.likes p = 0 /\
     Post.clubId p = postClub c s) /\
  LikesCounted k (snd (fst r)) /\
  db_postLikes (snd (fst r)) = db_postLikes s.
Proof.
  intros [Hp Hl] r k. subst r. rewrite createPost_run. cbn [fst snd].
  set (p := Post.mk k (postClub c s) (uid (user c)) (nw_title b) (nw_content b)
              (match file with Some f => getFileUrl (Some f) | None => None end)
              0 (now c) (now c)).
  assert (Hfound : postAt (upd posts (mkTable (rows (db_posts s) ++ [p]) k) s) k
                   = Some p).
  { unfold postAt, byId. simpl. rewrite find_app_none.
    - simpl. rewrite Z.eqb_refl. reflexivity.
    - apply (find_absent_key Post.id). intros q Hq. apply Hp in Hq.
      subst k. lia. }
  assert (Hnone : forall f : PostLike.t -> bool,
            (forall x, f x = true -> PostLike.postId x = k) ->
            filter f (rows (db_postLikes s)) = []).
  { intros f Hf. apply filter_none_of_find. apply find_none_forall.
    intros x Hx. destruct (f x) eqn:E; [|reflexivity].
    apply Hf in E. apply Hl in Hx. subst k. lia. }
  split; [reflexivity|]. split; [|split; [|reflexivity]].
  - exists p. split; [exact Hfound|]. repeat split.
  - split.
    + exists p. split; [exact Hfound|]. simpl. unfold likesOf.
      rewrite Hnone; [reflexivity|].
      intros x Hx. apply Z.eqb_eq in Hx. exact Hx.
    + intros u. simpl. rewrite Hnone; [simpl; lia|].
      intros x Hx. unfold likeBy in Hx. apply andb_true_iff in Hx.
      destruct Hx as [Hx _]. apply Z.eqb_eq in Hx. exact Hx.
Qed.

Lemma campusStore_postsKeyed : postsKeyed campusStore.
Proof.
  split; simpl; intros x Hx;
    repeat (destruct Hx as [<-|Hx]; [simpl; lia|]); destruct Hx.
Defined.

Lemma createPost_starts_counted_witness :
  let r := handlerU None (createPost (mkCtx head7 50) None
                            (mkNewPost "News" "Hello")) campusStore in
  fst (fst r) = (mkResponse 201 "Post created successfully" None, []) /\
  (exists p, postAt (snd (fst r)) 4 = Some p /\
     Post.userId p = 7 /\ Post.likes p = 0 /\ Post.clubId p = Some 1) /\
  LikesCounted 4 (snd (fst r)) /\
  db_postLikes (snd (fst r)) = db_postLikes campusStore.
Proof.
  apply (createPost_starts_counted campusStore (mkCtx head7 50) None
           (mkNewPost "News" "Hello")).
  exact campusStore_postsKeyed.
Defined.

(** ** The remaining listings *)

(** X29. [getUserClub] shows a head admin the very club under which
    [createEventRequest] files the caller's requests: it sends club [K]
    exactly when the caller is a head admin and [K] is the first club the
    caller heads, and then a request the caller files carries [K]'s id;
    other callers get 403, a head admin without a club 404. *)
Theorem getUserClub_is_the_filing_club (s : Store) (c : Ctx) :
  (forall K,
     handlerR (getUserClub c) s = (Sent 200 K, s, []) <->
     urole (user c) = head_admin /\ clubHeadedBy s (uid (user c)) = Some K) /\
  (urole (user c) <> head_admin ->
     handlerR (getUserClub c) s
     = (Said (mkResponse 403 "Only head admins can access their club" None), s, [])) /\
  (urole (user c) = head_admin -> clubHeadedBy s (uid (user c)) = None ->
     handlerR (getUserClub c) s
     = (Said (mkResponse 404 "Club not found" None), s, [])) /\
  (forall K file b,
     handlerR (getUserClub c) s = (Sent 200 K, s, []) ->
     exists R,
       rows (db_eventRequests
               (snd (fst (handlerU file (createEventRequest c file b) s))))
       = rows (db_eventRequests s) ++ [R] /\
       EventRequest.clubId R = Club.id K).
Proof.
  assert (Hrun : handlerR (getUserClub c) s
            = (if negb (Role_eqb (urole (user c)) head_admin)
               then Said (mkResponse 403 "Only head admins can access their club" None)
               else match clubHeadedBy s (uid (user c)) with
                    | None => Said (mkResponse 404 "Club not found" None)
                    | Some K => Sent 200 K
                    end, s, [])).
  { unfold getUserClub, handlerR, say, send, clubHeadedBy. exec.
    destruct (Role_eqb (urole (user c)) head_admin); simpl; [|reflexivity].
    destruct (find _ (rows (db_clubs s))); reflexivity. }
  assert (Hiff : forall K,
     handlerR (getUserClub c) s = (Sent 200 K, s, []) <->
     urole (user c) = head_admin /\ clubHeadedBy s (uid (user c)) = Some K).
  { intros K. rewrite Hrun.
    destruct (Role_eqb (urole (user c)) head_admin) eqn:Er; simpl.
    - apply Role_eqb_eq in Er.
      destruct (clubHeadedBy s (uid (user c))) as [Q|].
      + split.
        * intros H. injection H as ->. auto.
        * intros [_ H]. injection H as ->. reflexivity.
      + split; [discriminate|]. intros [_ H]. discriminate.
    - split; [discriminate|]. intros [H _]. apply Role_eqb_eq in H. congruence. }
  split; [exact Hiff|]. split; [|split].
  - intros Hr. rewrite Hrun.
    destruct (Role_eqb (urole (user c)) head_admin) eqn:E; [|reflexivity].
    apply Role_eqb_eq in E. contradiction.
  - intros Hr HK. rewrite Hrun, Hr, HK. reflexivity.
  - intros K file b H. apply Hiff in H. destruct H as [Hr HK].
    rewrite (createEventRequest_accepted s c file b K Hr HK). cbn [fst snd].
    eexists. split; reflexivity.
Qed.

Lemma getUserClub_is_the_filing_club_witness :
  handlerR (getUserClub (mkCtx head7 50)) campusStore
  = (Sent 200 (mkClub 1 7 "Chess Club"), campusStore, []) /\
  handlerR (getUserClub (mkCtx student3 50)) campusStore
  = (Said (mkResponse 403 "Only head admins can access their club" None),
     campusStore, []).
Proof.
  split.
  - apply (proj1 (getUserClub_is_the_filing_club campusStore (mkCtx head7 50))).
    split; reflexivity.
  - apply (proj1 (proj2 (getUserClub_is_the_filing_club campusStore
                           (mkCtx student3 50)))).
    simpl. discriminate.
Defined.

(** X30. What is filed is listed.  After an accepted [createEventRequest]
    (a head admin with a club) the caller's [getUserEventRequests] sends the
    caller's earlier requests followed by the new one.  After an accepted
    [createClubRequest] (any signed-in user with a user row, a student for
    instance) [getAllClubRequests] sends a super admin all earlier requests
    followed by the new one; any other caller of [getAllClubRequests] is
    answered 403. *)
Theorem filed_requests_are_listed
    (s : Store) (ce cc ca : Ctx) (file : option string) (be : NewEventRequest)
    (bc : NewClubRequest) :
  let se := snd (fst (handlerU file (createEventRequest ce file be) s)) in
  let sc := store (handler (createClubRequest cc bc) s) in
  (forall K, urole (user ce) = head_admin ->
     clubHeadedBy s (uid (user ce)) = Some K ->
     handlerR (getUserEventRequests ce) se
     = (Sent 200 (filter (fun q => EventRequest.headId q =? uid (user ce))
                         (rows (db_eventRequests s))
                  ++ [newEventRequest ce be K (lastId (db_eventRequests s) + 1)]),
        se, [])) /\
  (forall U, userAt s (uid (user cc)) = Some U ->
     urole (user ca) = super_admin ->
     handlerR (getAllClubRequests ca) sc
     = (Sent 200 (rows (db_clubRequests s)
                  ++ [newClubRequest cc bc U (lastId (db_clubRequests s) + 1)]),
        sc, [])) /\
  (urole (user ca) <> super_admin ->
   handlerR (getAllClubRequests ca) sc
   = (Said (mkResponse 403 "Unauthorized access" None), sc, [])).
Proof.
  intros se sc. split; [|split].
  - intros K Hr HK. subst se.
    rewrite (createEventRequest_accepted s ce file be K Hr HK).
    cbn [fst snd].
    unfold getUserEventRequests, handlerR, say, send. exec. rewrite Hr. simpl.
    rewrite filter_app. simpl. rewrite Z.eqb_refl. reflexivity.
  - intros U HU Ha. subst sc.
    rewrite (createClubRequest_accepted s cc bc U HU).
    unfold store. cbn [fst snd].
    unfold getAllClubRequests, handlerR, say, send. exec.
    rewrite Ha. simpl. rewrite filter_all by reflexivity. reflexivity.
  - intros Ha. unfold getAllClubRequests, handlerR, say, send. exec.
    destruct (Role_eqb (urole (user ca)) super_admin) eqn:E; [|reflexivity].
    apply Role_eqb_eq in E. contradiction.
Qed.

Lemma filed_requests_are_listed_witness :
  let se := snd (fst (handlerU None (createEventRequest (mkCtx head7 50) None
                                       blitzRequest) campusStore)) in
  let sc := store (handler (createClubRequest (mkCtx student3 50) chessRequest)
                           campusStore) in
  handlerR (getUserEventRequests (mkCtx head7 50)) se
  = (Sent 200 [mkEventRequest 1 1 7 approved;
               newEventRequest (mkCtx head7 50) blitzRequest
                 (mkClub 1 7 "Chess Club") 3], se, []) /\
  handlerR (getAllClubRequests (mkCtx admin1 60)) sc
  = (Sent 200 [mkClubRequest 1 7 "Chess Club" approved;
               mkClubRequest 2 9 "Go Club" approved;
               newClubRequest (mkCtx student3 50) chessRequest
                 (mkUser 3 "ann" student) 3], sc, []) /\
  handlerR (getAllClubRequests (mkCtx head7 60)) sc
  = (Said (mkResponse 403 "Unauthorized access" None), sc, []).
Proof.
  split; [|split].
  - apply (proj1 (filed_requests_are_listed campusStore (mkCtx head7 50)
                    (mkCtx student3 50) (mkCtx admin1 60) None blitzRequest
                    chessRequest) (mkClub 1 7 "Chess Club") eq_refl eq_refl).
  - apply (proj1 (proj2 (filed_requests_are_listed campusStore (mkCtx head7 50)
                           (mkCtx student3 50) (mkCtx admin1 60) None
                           blitzRequest chessRequest))
                 (mkUser 3 "ann" student) eq_refl eq_refl).
  - apply (proj2 (proj2 (filed_requests_are_listed campusStore (mkCtx head7 50)
                           (mkCtx student3 50) (mkCtx head7 60) None
                           blitzRequest chessRequest))).
    simpl. discriminate.
Defined.
